(** * Tiller's RPC gateway and release storage factory

    A shallow embedding of
      - pkg/tiller/server.go (the context-value based gateway) and its
        return-value based predecessor,
      - the storage factory (NewStorage, ensureResource),
      - the fake release client (FakeRelease.List),
    together with the properties their specification states about them.

    Go strings are byte strings ([string]); maps are [gmap]; calls that leave
    the process (cluster API, object store, file system, the RPC handler) are
    nodes of a program tree [Prog], which [run] interprets over an arbitrary
    outside world. *)

From Stdlib Require Import String Ascii ZArith List Lia Bool.
From stdpp Require Import base strings gmap list.

Local Open Scope string_scope.
Local Open Scope Z_scope.

(** ** Go's [strings] package, as far as the sources call it *)

Module strings.

(** [s[n:]] for [n <= len(s)]. *)
Fixpoint drop (n : nat) (s : string) : string :=
  match n, s with
  | O, _ => s
  | S n', String _ s' => drop n' s'
  | S _, EmptyString => EmptyString
  end.

(** [s[:n]] for [n <= len(s)]. *)
Fixpoint take (n : nat) (s : string) : string :=
  match n, s with
  | O, _ => EmptyString
  | S n', String c s' => String c (take n' s')
  | S _, EmptyString => EmptyString
  end.

(** strings.HasPrefix(s, prefix) *)
Definition HasPrefix (s pre : string) : bool := String.prefix pre s.

(** strings.Index(s, sep): the byte offset of the first occurrence of [sep]
    in [s], [None] for Go's -1. *)
Fixpoint Index (s sep : string) : option nat :=
  if String.prefix sep s then Some O
  else match s with
       | EmptyString => None
       | String _ s' => option_map S (Index s' sep)
       end.

(** strings.Count(s, sep) for a non-empty [sep]: the number of
    non-overlapping occurrences. The recursion is on a fuel that bounds the
    number of occurrences ([len(s)] is enough). *)
Fixpoint count_fuel (fuel : nat) (s sep : string) : nat :=
  match fuel with
  | O => O
  | S fuel' =>
      match Index s sep with
      | None => O
      | Some m => S (count_fuel fuel' (drop (m + String.length sep) s) sep)
      end
  end.

Definition Count (s sep : string) : nat := count_fuel (String.length s) s sep.

(** The loop of strings.genSplit (with sepSave = 0 and a non-empty [sep]):
    [n] is the number of separators still to be consumed.
  <<
    for i < n { m := Index(s, sep); if m < 0 { break }
                a[i] = s[:m]; s = s[m+len(sep):]; i++ }
    a[i] = s
  >> *)
Fixpoint splitLoop (n : nat) (s sep : string) : list string :=
  match n with
  | O => [s]
  | S n' =>
      match Index s sep with
      | None => [s]
      | Some m => take m s :: splitLoop n' (drop (m + String.length sep) s) sep
      end
  end.

(** strings.genSplit(s, sep, 0, n) for a non-empty [sep]; a negative [n]
    stands for "all substrings". *)
Definition genSplit (s sep : string) (n : Z) : list string :=
  if n =? 0 then []
  else
    let n1 := if n <? 0 then Z.of_nat (Count s sep) + 1 else n in
    let n2 := if n1 >? Z.of_nat (String.length s) + 1
              then Z.of_nat (String.length s) + 1 else n1 in
    splitLoop (Z.to_nat (n2 - 1)) s sep.

Definition Split (s sep : string) : list string := genSplit s sep (-1).
Definition SplitN (s sep : string) (n : Z) : list string := genSplit s sep n.

End strings.


(** ** Go values shared by all packages *)

(** k8s.io/kubernetes/pkg/api/unversioned.StatusReason, the reasons the
    sources test for, and one representative of the others. *)
Inductive StatusReason : Type :=
| StatusReasonNotFound
| StatusReasonAlreadyExists
| StatusReasonForbidden
| StatusReasonUnknown.

(** A non-nil Go [error] value. A nil error is [None : option error]. *)
Inductive error : Type :=
| errorString (s : string)                       (* errors.New, fmt.Errorf *)
| CorruptInputError (offset : Z)                 (* encoding/base64 *)
| StatusError (reason : StatusReason) (message : string). (* pkg/api/errors *)

Module errors.
Definition New (s : string) : error := errorString s.
End errors.

Module kberrs.
(** kberrs.IsNotFound(err) *)
Definition IsNotFound (err : option error) : bool :=
  match err with
  | Some (StatusError StatusReasonNotFound _) => true
  | _ => false
  end.
End kberrs.

(** A Go pair [(value, err)] in which the value is meaningful only when
    [err == nil]. *)
Inductive result (A : Type) : Type :=
| Ok (a : A)
| Err (e : error).
Arguments Ok {A} a.
Arguments Err {A} e.

(** ** Programs that call out of the process

    [Vis e k] performs the outside call [e] and continues with [k] on its
    answer; [Halt code] ends the process with status [code]: [os.Exit(code)],
    or an unrecovered panic, whose status is 2. *)

Inductive Prog (E : Type -> Type) (A : Type) : Type :=
| Ret (a : A)
| Halt (code : Z)
| Vis {X : Type} (e : E X) (k : X -> Prog E A).
Arguments Ret {E A} a.
Arguments Halt {E A} code.
Arguments Vis {E A X} e k.

Fixpoint bind {E : Type -> Type} {A B : Type}
         (p : Prog E A) (f : A -> Prog E B) : Prog E B :=
  match p with
  | Ret a => f a
  | Halt code => Halt code
  | Vis e k => Vis e (fun x => bind (k x) f)
  end.

Definition call {E : Type -> Type} {X : Type} (e : E X) : Prog E X := Vis e Ret.

Declare Scope prog_scope.
Delimit Scope prog_scope with prog.
Notation "x <- p ;; q" := (bind p (fun x => q))
  (at level 100, p at next level, right associativity) : prog_scope.
Notation "p ;;; q" := (bind p (fun _ => q))
  (at level 100, right associativity) : prog_scope.
Local Open Scope prog_scope.

(** How a run ends. *)
Inductive Outcome (A : Type) : Type :=
| Returned (a : A)
| Exited (code : Z).
Arguments Returned {A} a.
Arguments Exited {A} code.

(** One outside call, as it appears in the trace of a run. *)
Definition Event (E : Type -> Type) : Type := { X : Type & E X }.
Definition event {E : Type -> Type} {X : Type} (e : E X) : Event E := existT X e.

(** The outside world: a state [W] and, for each call, its answer and the
    next state. *)
Definition World (E : Type -> Type) (W : Type) : Type :=
  forall X : Type, E X -> W -> X * W.

(** [run h p w]: the calls [p] makes in order, how it ends, and the final
    state of the world. *)
Fixpoint run {E : Type -> Type} {W A : Type}
         (h : World E W) (p : Prog E A) (w : W) : list (Event E) * Outcome A * W :=
  match p with
  | Ret a => ([], Returned a, w)
  | Halt code => ([], Exited code, w)
  | Vis e k =>
      let '(x, w1) := h _ e w in
      let '(tr, o, w2) := run h (k x) w1 in
      (event e :: tr, o, w2)
  end.

Definition trace {E : Type -> Type} {W A : Type}
           (h : World E W) (p : Prog E A) (w : W) : list (Event E) :=
  fst (fst (run h p w)).

Definition outcome {E : Type -> Type} {W A : Type}
           (h : World E W) (p : Prog E A) (w : W) : Outcome A :=
  snd (fst (run h p w)).

(** Two programs that make the same calls in the same order and end alike,
    whatever the answers. *)
Inductive same {E : Type -> Type} {A : Type} : Prog E A -> Prog E A -> Prop :=
| same_Ret (a : A) : same (Ret a) (Ret a)
| same_Halt (code : Z) : same (Halt code) (Halt code)
| same_Vis {X : Type} (e : E X) (k1 k2 : X -> Prog E A) :
    (forall x, same (k1 x) (k2 x)) -> same (Vis e k1) (Vis e k2).

Infix "≅" := same (at level 70) : prog_scope.

(** ** The cluster client configuration (k8s restclient.Config)

    The fields the gateway reads or writes, and enough of the others to tell
    a copy of the system configuration from a freshly built one. A composite
    literal leaves every field it does not name at its zero value. *)

Module rest.

Record TLSClientConfig : Type := mkTLSClientConfig {
  CertFile : string;
  KeyFile : string;
  CAFile : string;
  CertData : string;
  KeyData : string;
  CAData : string
}.

Record Config : Type := mkConfig {
  Host : string;
  APIPath : string;
  Prefix : string;
  Username : string;
  Password : string;
  BearerToken : string;
  Impersonate : string;
  TLS : TLSClientConfig;          (* the embedded TLSClientConfig *)
  Insecure : bool
}.

(** The zero values [TLSClientConfig{}] and [Config{}]. *)
Definition zeroTLS : TLSClientConfig := mkTLSClientConfig "" "" "" "" "" "".
Definition zero : Config := mkConfig "" "" "" "" "" "" "" zeroTLS false.

(** [cfg.Impersonate = v] *)
Definition set_Impersonate (v : string) (cfg : Config) : Config :=
  mkConfig (Host cfg) (APIPath cfg) (Prefix cfg) (Username cfg) (Password cfg)
           (BearerToken cfg) v (TLS cfg) (Insecure cfg).

(** [cfg.TLSClientConfig.CertData = v] *)
Definition set_CertData (v : string) (cfg : Config) : Config :=
  mkConfig (Host cfg) (APIPath cfg) (Prefix cfg) (Username cfg) (Password cfg)
           (BearerToken cfg) (Impersonate cfg)
           (mkTLSClientConfig (CertFile (TLS cfg)) (KeyFile (TLS cfg)) (CAFile (TLS cfg))
                              v (KeyData (TLS cfg)) (CAData (TLS cfg)))
           (Insecure cfg).

End rest.

(** ** k8s authentication API objects *)

Module authenticationapi.

Record UserInfo : Type := mkUserInfo {
  Username : string;
  UID : string;
  Groups : list string
}.

Record TokenReviewSpec : Type := mkTokenReviewSpec { Token : string }.

Record TokenReviewStatus : Type := mkTokenReviewStatus {
  Authenticated : bool;
  User : UserInfo
}.

Record TokenReview : Type := mkTokenReview {
  Spec : TokenReviewSpec;
  Status : TokenReviewStatus
}.

(** [&TokenReview{Spec: TokenReviewSpec{Token: token}}] *)
Definition request (token : string) : TokenReview :=
  mkTokenReview (mkTokenReviewSpec token)
                (mkTokenReviewStatus false (mkUserInfo "" "" [])).

End authenticationapi.

(** ** What the transport knows about the peer *)

Module credentials.

Record Certificate : Type := mkCertificate {
  Subject_CommonName : string       (* c.Subject.CommonName *)
}.

Record ConnectionState : Type := mkConnectionState {
  VerifiedChains : list (list Certificate)
}.

(** The dynamic type of a [credentials.AuthInfo] interface value; the
    gateway tells [TLSInfo] from everything else, nil included. *)
Inductive AuthInfo : Type :=
  | nilAuthInfo
  | TLSInfo (State : ConnectionState)
  | otherAuthInfo (AuthType : string).

End credentials.

Module peer.
Record Peer : Type := mkPeer {
  Addr : string;
  AuthInfo : credentials.AuthInfo
}.
End peer.

(** metadata.MD is [map[string][]string]. *)
Abbreviation MD := (gmap string (list string)).

(** ** pkg/kube: clients over a configuration, and the keys under which the
    gateway files its values *)

Module kube.

(** The typed keys of pkg/kube used with [context.WithValue]. pkg/kube is
    not among the sources: its key constants are taken to be pairwise
    distinct. *)
Inductive ContextKey : Type :=
  | UserInfo
  | UserClient
  | SystemClient
  | ImpersonateUser
  | UserClientConfig
  | SystemClientConfig.

#[global] Instance ContextKey_eq_dec : EqDecision ContextKey.
Proof. solve_decision. Defined.

(** Modelled from the spec: pkg/kube, which declares the constant
    [kube.Authorization], is not among the sources; the specification names
    the header [authorization]. *)
Definition Authorization : string := "authorization".

(** [wrapClientConfig{cfg: cfg}]: a client configuration that hands out
    [cfg] ([ClientConfig()] returns [w.cfg, nil]). *)
Record wrapClientConfig : Type := mkWrapClientConfig { cfg : rest.Config }.

(** [kube.New(config)]: a client for the cluster that [config] describes. *)
Record Client : Type := New { config : wrapClientConfig }.

End kube.

(** ** golang.org/x/net/context

    A context is the nil interface value, the root, or a parent extended by
    one key/value pair. The transport files the call's metadata and peer
    under keys of its own. *)

Module context.

Inductive Key : Type :=
  | mdKey                              (* grpc/metadata *)
  | peerKey                            (* grpc/peer *)
  | kubeKey (k : kube.ContextKey).

#[global] Instance Key_eq_dec : EqDecision Key.
Proof. solve_decision. Defined.

(** The [interface{}] values that are filed in a context. *)
Inductive Any : Type :=
  | AnyMD (md : MD)
  | AnyPeer (p : peer.Peer)
  | AnyUserInfo (u : authenticationapi.UserInfo)
  | AnyConfig (c : rest.Config)
  | AnyClient (c : kube.Client)
  | AnyEmptyStruct                     (* struct{}{} *)
  | AnyNilPointer.                     (* a typed nil pointer *)

Inductive Context : Type :=
  | nil
  | Background
  | WithValue (parent : Context) (key : Key) (val : Any).

(** [ctx.Value(key)]: the value filed last under [key], if any. *)
Fixpoint Value (ctx : Context) (key : Key) : option Any :=
  match ctx with
  | nil => None
  | Background => None
  | WithValue parent k v => if decide (k = key) then Some v else Value parent key
  end.

End context.

Module metadata.
(** metadata.NewContext(ctx, md) *)
Definition NewContext (ctx : context.Context) (md : MD) : context.Context :=
  context.WithValue ctx context.mdKey (context.AnyMD md).

(** metadata.FromContext(ctx): [md, ok]. *)
Definition FromContext (ctx : context.Context) : option MD :=
  match context.Value ctx context.mdKey with
  | Some (context.AnyMD md) => Some md
  | _ => None
  end.
End metadata.

(** The context accessors of package peer; they come after [context], which
    files peers. *)
Module peerctx.
(** peer.NewContext(ctx, p) *)
Definition NewContext (ctx : context.Context) (p : peer.Peer) : context.Context :=
  context.WithValue ctx context.peerKey (context.AnyPeer p).

(** peer.FromContext(ctx): [p, ok]. *)
Definition FromContext (ctx : context.Context) : option peer.Peer :=
  match context.Value ctx context.peerKey with
  | Some (context.AnyPeer p) => Some p
  | _ => None
  end.
End peerctx.

(** ** google.golang.org/grpc: what an interceptor is handed *)

(** Requests, responses and stream messages are [interface{}] values the
    gateway never looks into. *)
Definition Payload : Type := string.

(** The calls the gateway makes out of the process. *)
Inductive gatewayE : Type -> Type :=
| ClientSet (c : kube.Client) : gatewayE (option error)
    (* c.ClientSet(): the error; on nil the client set talks to c's cluster *)
| NewForConfig (cfg : rest.Config) : gatewayE (option error)
    (* clientset.NewForConfig(cfg), likewise *)
| TokenReviews_Create (cfg : rest.Config) (req : authenticationapi.TokenReview)
    : gatewayE (result authenticationapi.TokenReview)
    (* AuthenticationClient.TokenReviews().Create(req) of a client set for cfg *)
| ServerVersion (cfg : rest.Config) : gatewayE (option error)
    (* DiscoveryClient.ServerVersion() of a client set for cfg: its error *)
| Println (e : error) : gatewayE unit
| Serve (ctx : context.Context) (req : Payload)
    : gatewayE (option Payload * option error)
    (* the service's method body, run under ctx *)
| ServeStream (srv : Payload) (ctx : context.Context) : gatewayE (option error)
    (* the service's streaming method body, run on a stream whose context is ctx *)
| WireRecvMsg (msg : Payload) : gatewayE (option error)
| WireSendMsg (msg : Payload) : gatewayE (option error)
| WireSendHeader (md : MD) : gatewayE (option error)
| WireSetHeader (md : MD) : gatewayE (option error)
| WireSetTrailer (md : MD) : gatewayE unit.

Module grpc.

Record UnaryServerInfo : Type := mkUnaryServerInfo {
  FullMethod : string
}.

Record StreamServerInfo : Type := mkStreamServerInfo {
  StreamFullMethod : string;        (* info.FullMethod *)
  IsClientStream : bool;
  IsServerStream : bool
}.

(** A [grpc.ServerStream] interface value: its method set. *)
Record ServerStream : Type := mkServerStream {
  Context : context.Context;
  RecvMsg : Payload -> Prog gatewayE (option error);
  SendMsg : Payload -> Prog gatewayE (option error);
  SendHeader : MD -> Prog gatewayE (option error);
  SetHeader : MD -> Prog gatewayE (option error);
  SetTrailer : MD -> Prog gatewayE unit
}.

Definition UnaryHandler : Type :=
  context.Context -> Payload -> Prog gatewayE (option Payload * option error).

Definition StreamHandler : Type :=
  Payload -> ServerStream -> Prog gatewayE (option error).

(** The stream of the transport itself, over the connection context [ctx]. *)
Definition wire (ctx : context.Context) : ServerStream :=
  mkServerStream ctx
    (fun msg => call (WireRecvMsg msg))
    (fun msg => call (WireSendMsg msg))
    (fun md => call (WireSendHeader md))
    (fun md => call (WireSetHeader md))
    (fun md => call (WireSetTrailer md)).

(** The service's handlers as the gateway sees them: one outside call. *)
Definition serve : UnaryHandler := fun ctx req => call (Serve ctx req).
Definition serveStream : StreamHandler :=
  fun srv ss => call (ServeStream srv (Context ss)).

End grpc.

(** ** pkg/tiller/server.go: the gateway that files the derived identity in
    the context from inside the verifiers

    [DecodeString] is base64.StdEncoding.DecodeString; [IsCompatible] and
    [Version] are version.IsCompatible and version.Version of pkg/version. *)

Module tiller.
Section Server.

Variable DecodeString : string -> result string.
Variable IsCompatible : string -> string -> bool.
Variable Version : string.

(** serverStreamWrapper wraps original ServerStream but uses modified
    context. *)
Record serverStreamWrapper : Type := mkServerStreamWrapper {
  ss : grpc.ServerStream;
  ctx : context.Context
}.

Definition wrapper_Context (w : serverStreamWrapper) : context.Context := ctx w.
Definition wrapper_RecvMsg (w : serverStreamWrapper) (msg : Payload)
  : Prog gatewayE (option error) := grpc.RecvMsg (ss w) msg.
Definition wrapper_SendMsg (w : serverStreamWrapper) (msg : Payload)
  : Prog gatewayE (option error) := grpc.SendMsg (ss w) msg.
Definition wrapper_SendHeader (w : serverStreamWrapper) (md : MD)
  : Prog gatewayE (option error) := grpc.SendHeader (ss w) md.
Definition wrapper_SetHeader (w : serverStreamWrapper) (md : MD)
  : Prog gatewayE (option error) := grpc.SetHeader (ss w) md.
Definition wrapper_SetTrailer (w : serverStreamWrapper) (md : MD)
  : Prog gatewayE unit := grpc.SetTrailer (ss w) md.

(** The wrapper passed where a [grpc.ServerStream] is expected. *)
Definition asServerStream (w : serverStreamWrapper) : grpc.ServerStream :=
  grpc.mkServerStream (wrapper_Context w) (wrapper_RecvMsg w) (wrapper_SendMsg w)
                      (wrapper_SendHeader w) (wrapper_SetHeader w) (wrapper_SetTrailer w).

Definition splitMethod (fullMethod : string) : string * string :=
  match strings.Split fullMethod "/" with
  | [_; frag1; frag2] => (frag1, frag2)
  | _ => ("unknown", "unknown")
  end.

Definition versionFromContext (ctx : context.Context) : string :=
  match metadata.FromContext ctx with
  | Some md =>
      match md !! "x-helm-api-client" with
      | Some (v0 :: _) => v0
      | _ => ""
      end
  | None => ""
  end.

Definition checkClientVersion (ctx : context.Context) : option error :=
  let clientVersion := versionFromContext ctx in
  if negb (IsCompatible clientVersion Version)
  then Some (errorString ("incompatible versions client: " +:+ clientVersion
                          +:+ " server: " +:+ Version))
  else None.

Definition getUserPasswordFromBasicAuth (token : string) : string * string :=
  match strings.SplitN token ":" 2 with
  | [st0; st1] => (st0, st1)
  | _ => ("", "")
  end.

(** The verifiers of this file return an error only. Each [_body] below is
    the function's statement list and yields the final value of its local
    variable [ctx] next to the returned error; the function proper returns
    the error and drops the local. *)

Definition checkClientCert_body (ctx : context.Context) (syscfg : rest.Config)
  : context.Context * option error :=
  match peerctx.FromContext ctx with
  | None => (ctx, Some (errors.New "No peer found!"))
  | Some p =>
      match peer.AuthInfo p with
      | credentials.TLSInfo tlsState =>
          match credentials.VerifiedChains tlsState with
          | (c :: _) :: _ =>
              let user := authenticationapi.mkUserInfo
                            (credentials.Subject_CommonName c) "" [] in
              let usrcfg := rest.set_Impersonate (credentials.Subject_CommonName c) syscfg in
              let ctx := context.WithValue ctx (context.kubeKey kube.UserInfo)
                           (context.AnyUserInfo user) in
              let ctx := context.WithValue ctx (context.kubeKey kube.UserClient)
                           (context.AnyClient (kube.New (kube.mkWrapClientConfig usrcfg))) in
              let ctx := context.WithValue ctx (context.kubeKey kube.SystemClient)
                           (context.AnyClient (kube.New (kube.mkWrapClientConfig syscfg))) in
              let ctx := context.WithValue ctx (context.kubeKey kube.ImpersonateUser)
                           context.AnyEmptyStruct in
              (ctx, None)
          | _ => (ctx, Some (errors.New "No verified client certificate found!"))
          end
      | _ => (ctx, Some (errors.New "No TLS credential found!"))
      end
  end.

Definition checkClientCert (ctx : context.Context) (syscfg : rest.Config)
  : option error := snd (checkClientCert_body ctx syscfg).

Definition checkBearerAuth_body (ctx : context.Context) (h : string) (syscfg : rest.Config)
  : Prog gatewayE (context.Context * option error) :=
  let token := strings.drop (String.length "Bearer ") h in
  let sysClient := kube.New (kube.mkWrapClientConfig syscfg) in
  csErr <- call (ClientSet sysClient) ;;
  match csErr with
  | Some err => Ret (ctx, Some err)
  | None =>
      let tokenReq := authenticationapi.request token in
      res <- call (TokenReviews_Create syscfg tokenReq) ;;
      match res with
      | Err err => Ret (ctx, Some err)
      | Ok review =>
          if negb (authenticationapi.Authenticated (authenticationapi.Status review))
          then Ret (ctx, Some (errors.New "Not authenticated"))
          else
            let usrcfg := rest.set_CertData (rest.CertData (rest.TLS syscfg))
                            (rest.mkConfig (rest.Host syscfg) (rest.APIPath syscfg)
                               (rest.Prefix syscfg) "" "" token "" rest.zeroTLS false) in
            let ctx := context.WithValue ctx (context.kubeKey kube.UserInfo)
                         (context.AnyUserInfo
                            (authenticationapi.User (authenticationapi.Status review))) in
            let ctx := context.WithValue ctx (context.kubeKey kube.UserClient)
                         (context.AnyClient (kube.New (kube.mkWrapClientConfig usrcfg))) in
            let ctx := context.WithValue ctx (context.kubeKey kube.SystemClient)
                         (context.AnyClient sysClient) in
            Ret (ctx, None)
      end
  end.

Definition checkBearerAuth (ctx : context.Context) (h : string) (syscfg : rest.Config)
  : Prog gatewayE (option error) :=
  r <- checkBearerAuth_body ctx h syscfg ;; Ret (snd r).

Definition checkBasicAuth_body (ctx : context.Context) (h : string) (syscfg : rest.Config)
  : Prog gatewayE (context.Context * option error) :=
  match DecodeString (strings.drop (String.length "Basic ") h) with
  | Err err => Ret (ctx, Some err)
  | Ok basicAuth =>
      let '(username, password) := getUserPasswordFromBasicAuth basicAuth in
      if Nat.eqb (String.length username) 0 || Nat.eqb (String.length password) 0
      then Ret (ctx, Some (errors.New "Missing username or password."))
      else
        let usrcfg := rest.set_CertData (rest.CertData (rest.TLS syscfg))
                        (rest.mkConfig (rest.Host syscfg) (rest.APIPath syscfg)
                           (rest.Prefix syscfg) username password "" "" rest.zeroTLS false) in
        let usrClient := kube.New (kube.mkWrapClientConfig usrcfg) in
        csErr <- call (ClientSet usrClient) ;;
        match csErr with
        | Some err => Ret (ctx, Some err)
        | None =>
            (* verify credentials *)
            probeErr <- call (ServerVersion usrcfg) ;;
            match probeErr with
            | Some err => Ret (ctx, Some err)
            | None =>
                let ctx := context.WithValue ctx (context.kubeKey kube.UserInfo)
                             (context.AnyUserInfo
                                (authenticationapi.mkUserInfo username "" [])) in
                let ctx := context.WithValue ctx (context.kubeKey kube.UserClient)
                             (context.AnyClient usrClient) in
                let ctx := context.WithValue ctx (context.kubeKey kube.SystemClient)
                             (context.AnyClient (kube.New (kube.mkWrapClientConfig syscfg))) in
                Ret (ctx, None)
            end
        end
  end.

Definition checkBasicAuth (ctx : context.Context) (h : string) (syscfg : rest.Config)
  : Prog gatewayE (option error) :=
  r <- checkBasicAuth_body ctx h syscfg ;; Ret (snd r).

Definition authenticate (ctx : context.Context) (syscfg : rest.Config)
  : Prog gatewayE (context.Context * option error) :=
  match metadata.FromContext ctx with
  | None => Ret (context.nil, Some (errors.New "Missing metadata in context."))
  | Some md =>
      match md !! kube.Authorization with
      | None | Some [] =>
          Ret (ctx, checkClientCert ctx syscfg)
      | Some (h0 :: _) =>
          if String.eqb h0 "" then Ret (ctx, checkClientCert ctx syscfg)
          else if strings.HasPrefix h0 "Bearer " then
            err <- checkBearerAuth ctx h0 syscfg ;; Ret (ctx, err)
          else if strings.HasPrefix h0 "Basic " then
            err <- checkBasicAuth ctx h0 syscfg ;; Ret (ctx, err)
          else Ret (context.nil, Some (errors.New "Unknown authorization scheme."))
      end
  end.

Definition newUnaryInterceptor (syscfg : rest.Config)
           (ctx : context.Context) (req : Payload)
           (info : grpc.UnaryServerInfo) (handler : grpc.UnaryHandler)
  : Prog gatewayE (option Payload * option error) :=
  let authenticated :=
    r <- authenticate ctx syscfg ;;
    match snd r with
    | Some err => call (Println err) ;;; Ret (None, Some err)
    | None => handler (fst r) req
    end in
  match checkClientVersion ctx with
  | Some err =>
      (* whitelist GetVersion() from the version check *)
      if negb (String.eqb (snd (splitMethod (grpc.FullMethod info))) "GetVersion")
      then call (Println err) ;;; Ret (None, Some err)
      else authenticated
  | None => authenticated
  end.

Definition newStreamInterceptor (syscfg : rest.Config)
           (srv : Payload) (ss : grpc.ServerStream)
           (info : grpc.StreamServerInfo) (handler : grpc.StreamHandler)
  : Prog gatewayE (option error) :=
  let ctx := grpc.Context ss in
  match checkClientVersion ctx with
  | Some err => call (Println err) ;;; Ret (Some err)
  | None =>
      r <- authenticate ctx syscfg ;;
      match snd r with
      | Some err => call (Println err) ;;; Ret (Some err)
      | None =>
          let newStream := mkServerStreamWrapper ss (fst r) in
          handler srv (asServerStream newStream)
      end
  end.

End Server.
End tiller.

(** ** The earlier revision of pkg/tiller/server.go: the verifiers return the
    derived identity and [authenticate] files it in the context *)

Module tiller_rv.
Section Server.

Variable DecodeString : string -> result string.
Variable IsCompatible : string -> string -> bool.
Variable Version : string.

(** What a verifier returns: a UserInfo pointer, a rest.Config pointer and
    an error. *)
Definition Verdict : Type :=
  option authenticationapi.UserInfo * option rest.Config * option error.

Definition failed (err : error) : Verdict := (None, None, Some err).

Record serverStreamWrapper : Type := mkServerStreamWrapper {
  ss : grpc.ServerStream;
  ctx : context.Context
}.

Definition wrapper_Context (w : serverStreamWrapper) : context.Context := ctx w.
Definition wrapper_RecvMsg (w : serverStreamWrapper) (msg : Payload)
  : Prog gatewayE (option error) := grpc.RecvMsg (ss w) msg.
Definition wrapper_SendMsg (w : serverStreamWrapper) (msg : Payload)
  : Prog gatewayE (option error) := grpc.SendMsg (ss w) msg.
Definition wrapper_SendHeader (w : serverStreamWrapper) (md : MD)
  : Prog gatewayE (option error) := grpc.SendHeader (ss w) md.
Definition wrapper_SetHeader (w : serverStreamWrapper) (md : MD)
  : Prog gatewayE (option error) := grpc.SetHeader (ss w) md.
Definition wrapper_SetTrailer (w : serverStreamWrapper) (md : MD)
  : Prog gatewayE unit := grpc.SetTrailer (ss w) md.

Definition asServerStream (w : serverStreamWrapper) : grpc.ServerStream :=
  grpc.mkServerStream (wrapper_Context w) (wrapper_RecvMsg w) (wrapper_SendMsg w)
                      (wrapper_SendHeader w) (wrapper_SetHeader w) (wrapper_SetTrailer w).

Definition splitMethod (fullMethod : string) : string * string :=
  match strings.Split fullMethod "/" with
  | [_; frag1; frag2] => (frag1, frag2)
  | _ => ("unknown", "unknown")
  end.

Definition versionFromContext (ctx : context.Context) : string :=
  match metadata.FromContext ctx with
  | Some md =>
      match md !! "x-helm-api-client" with
      | Some (v0 :: _) => v0
      | _ => ""
      end
  | None => ""
  end.

Definition checkClientVersion (ctx : context.Context) : option error :=
  let clientVersion := versionFromContext ctx in
  if negb (IsCompatible clientVersion Version)
  then Some (errorString ("incompatible versions client: " +:+ clientVersion
                          +:+ " server: " +:+ Version))
  else None.

Definition getUserPasswordFromBasicAuth (token : string) : string * string :=
  match strings.SplitN token ":" 2 with
  | [st0; st1] => (st0, st1)
  | _ => ("", "")
  end.

Definition checkBearerAuth (h : string) (syscfg : rest.Config)
  : Prog gatewayE Verdict :=
  let token := strings.drop (String.length "Bearer ") h in
  csErr <- call (NewForConfig syscfg) ;;
  match csErr with
  | Some err => Ret (failed err)
  | None =>
      let tokenReq := authenticationapi.request token in
      res <- call (TokenReviews_Create syscfg tokenReq) ;;
      match res with
      | Err err => Ret (failed err)
      | Ok review =>
          if negb (authenticationapi.Authenticated (authenticationapi.Status review))
          then Ret (failed (errors.New "Not authenticated"))
          else
            let usrcfg := rest.set_CertData (rest.CertData (rest.TLS syscfg))
                            (rest.mkConfig (rest.Host syscfg) (rest.APIPath syscfg)
                               (rest.Prefix syscfg) "" "" token "" rest.zeroTLS false) in
            Ret (Some (authenticationapi.User (authenticationapi.Status review)),
                 Some usrcfg, None)
      end
  end.

Definition checkBasicAuth (h : string) (syscfg : rest.Config)
  : Prog gatewayE Verdict :=
  match DecodeString (strings.drop (String.length "Basic ") h) with
  | Err err => Ret (failed err)
  | Ok basicAuth =>
      let '(username, password) := getUserPasswordFromBasicAuth basicAuth in
      if Nat.eqb (String.length username) 0 || Nat.eqb (String.length password) 0
      then Ret (failed (errors.New "Missing username or password."))
      else
        let usrcfg := rest.set_CertData (rest.CertData (rest.TLS syscfg))
                        (rest.mkConfig (rest.Host syscfg) (rest.APIPath syscfg)
                           (rest.Prefix syscfg) username password "" "" rest.zeroTLS false) in
        csErr <- call (NewForConfig usrcfg) ;;
        match csErr with
        | Some err => Ret (failed err)
        | None =>
            (* verify credentials *)
            probeErr <- call (ServerVersion usrcfg) ;;
            match probeErr with
            | Some err => Ret (failed err)
            | None =>
                Ret (Some (authenticationapi.mkUserInfo username "" []), Some usrcfg, None)
            end
        end
  end.

Definition checkClientCert (ctx : context.Context) (syscfg : rest.Config) : Verdict :=
  match peerctx.FromContext ctx with
  | None => failed (errors.New "No peer found!")
  | Some p =>
      match peer.AuthInfo p with
      | credentials.TLSInfo tlsState =>
          match credentials.VerifiedChains tlsState with
          | (c :: _) :: _ =>
              let user := authenticationapi.mkUserInfo
                            (credentials.Subject_CommonName c) "" [] in
              let usrcfg := rest.set_Impersonate (credentials.Subject_CommonName c) syscfg in
              (Some user, Some usrcfg, None)
          | _ => failed (errors.New "No verified client certificate found!")
          end
      | _ => failed (errors.New "No TLS credential found!")
      end
  end.

(** A UserInfo pointer and a rest.Config pointer as [interface{}] values. *)
Definition anyUserInfo (user : option authenticationapi.UserInfo) : context.Any :=
  match user with
  | Some u => context.AnyUserInfo u
  | None => context.AnyNilPointer
  end.

Definition anyConfig (cfg : option rest.Config) : context.Any :=
  match cfg with
  | Some c => context.AnyConfig c
  | None => context.AnyNilPointer
  end.

(** The tail of [authenticate], from [if err != nil] on. *)
Definition fileVerdict (ctx : context.Context) (syscfg : rest.Config) (v : Verdict)
  : context.Context * option error :=
  let '(user, usrcfg, err) := v in
  match err with
  | Some e => (context.nil, Some e)
  | None =>
      let ctx := context.WithValue ctx (context.kubeKey kube.UserInfo)
                   (anyUserInfo user) in
      let ctx := context.WithValue ctx (context.kubeKey kube.UserClientConfig)
                   (anyConfig usrcfg) in
      let ctx := context.WithValue ctx (context.kubeKey kube.SystemClientConfig)
                   (context.AnyConfig syscfg) in
      (ctx, None)
  end.

Definition authenticate (ctx : context.Context) (syscfg : rest.Config)
  : Prog gatewayE (context.Context * option error) :=
  match metadata.FromContext ctx with
  | None => Ret (context.nil, Some (errors.New "Missing metadata in context."))
  | Some md =>
      match md !! kube.Authorization with
      | None | Some [] =>
          Ret (fileVerdict ctx syscfg (checkClientCert ctx syscfg))
      | Some (h0 :: _) =>
          if String.eqb h0 "" then Ret (fileVerdict ctx syscfg (checkClientCert ctx syscfg))
          else if strings.HasPrefix h0 "Bearer " then
            v <- checkBearerAuth h0 syscfg ;; Ret (fileVerdict ctx syscfg v)
          else if strings.HasPrefix h0 "Basic " then
            v <- checkBasicAuth h0 syscfg ;; Ret (fileVerdict ctx syscfg v)
          else Ret (context.nil, Some (errors.New "Unknown authorization scheme."))
      end
  end.

Definition newUnaryInterceptor (syscfg : rest.Config)
           (ctx : context.Context) (req : Payload)
           (info : grpc.UnaryServerInfo) (handler : grpc.UnaryHandler)
  : Prog gatewayE (option Payload * option error) :=
  let authenticated :=
    r <- authenticate ctx syscfg ;;
    match snd r with
    | Some err => call (Println err) ;;; Ret (None, Some err)
    | None => handler (fst r) req
    end in
  match checkClientVersion ctx with
  | Some err =>
      (* whitelist GetVersion() from the version check *)
      if negb (String.eqb (snd (splitMethod (grpc.FullMethod info))) "GetVersion")
      then call (Println err) ;;; Ret (None, Some err)
      else authenticated
  | None => authenticated
  end.

Definition newStreamInterceptor (syscfg : rest.Config)
           (srv : Payload) (ss : grpc.ServerStream)
           (info : grpc.StreamServerInfo) (handler : grpc.StreamHandler)
  : Prog gatewayE (option error) :=
  let ctx := grpc.Context ss in
  match checkClientVersion ctx with
  | Some err => call (Println err) ;;; Ret (Some err)
  | None =>
      r <- authenticate ctx syscfg ;;
      match snd r with
      | Some err => call (Println err) ;;; Ret (Some err)
      | None =>
          let newStream := mkServerStreamWrapper ss (fst r) in
          handler srv (asServerStream newStream)
      end
  end.

End Server.
End tiller_rv.

(** ** pkg/storage: the storage factory *)

(** github.com/graymeta/stow and its providers: the constants the factory
    switches on and writes under. *)
Module stow.
Abbreviation ConfigMap := (gmap string string).
(** Handles the library hands back; the factory only passes them on. *)
Inductive Location : Type := mkLocation (id : string).
Inductive Container : Type := mkContainer (id : string).
End stow.

Module s3.
Definition Kind : string := "s3".
Definition ConfigAccessKeyID : string := "access_key_id".
Definition ConfigEndpoint : string := "endpoint".
Definition ConfigRegion : string := "region".
Definition ConfigSecretKey : string := "secret_key".
End s3.

Module gcs.
Definition Kind : string := "google".
Definition ConfigJSON : string := "json".
Definition ConfigProjectId : string := "project_id".
End gcs.

Module azure.
Definition Kind : string := "azure".
Definition ConfigAccount : string := "account".
Definition ConfigKey : string := "key".
End azure.

Module swift.
Definition Kind : string := "swift".
Definition ConfigKey : string := "key".
Definition ConfigTenantAuthURL : string := "tenant_auth_url".
Definition ConfigTenantName : string := "tenant_name".
Definition ConfigUsername : string := "username".
End swift.

Module extensions.
(** The fields of the ThirdPartyResource literal that [ensureResource]
    fills in. *)
Record ThirdPartyResource : Type := mkThirdPartyResource {
  APIVersion : string;
  Kind : string;
  Name : string;
  Versions : list string
}.
End extensions.

Module storage.

Definition StoreType : Type := string.
Definition StorageMemory : StoreType := "memory".
Definition StorageConfigMap : StoreType := "configmap".
Definition StorageInlineTPR : StoreType := "inline-tpr".
Definition StorageObjectStoreTPR : StoreType := "object-store-tpr".

Record StoreOptions : Type := mkStoreOptions {
  StoreType_ : StoreType;                 (* opts.StoreType *)
  ObjectStoreProvider : string;
  S3ConfigAccessKeyID : string;
  S3ConfigEndpoint : string;
  S3ConfigRegion : string;
  S3ConfigSecretKey : string;
  GCSConfigJSONKeyPath : string;
  GCSConfigProjectId : string;
  AzureConfigAccount : string;
  AzureConfigKey : string;
  SwiftConfigKey : string;
  SwiftConfigTenantAuthURL : string;
  SwiftConfigTenantName : string;
  SwiftConfigUsername : string;
  Container : string;
  StoragePrefix : string
}.

(** The drivers of pkg/storage/driver, by constructor. The release client
    [cs.Release(ns)] of an extensions client for [cfg] is the pair
    [(cfg, ns)]; the config-map client of the client set is its namespace. *)
Inductive Driver : Type :=
  | NewMemory
  | NewConfigMaps (ns : string)
  | NewReleases (cfg : rest.Config) (ns : string)
  | NewObjectStoreReleases (cfg : rest.Config) (ns : string)
                         (c : stow.Container) (prefix : string).

(** storage.Init(d) *)
Record Storage : Type := Init { Driver_ : Driver }.

(** What is printed after a format string. *)
Inductive Arg : Type :=
  | ArgError (e : error)
  | ArgString (s : string).

Inductive storageE : Type -> Type :=
  | ClientConfig (client : kube.Client) : storageE (result rest.Config)
  | ClientSet (client : kube.Client) : storageE (option error)
  | Fprintf_Stderr (format : string) (a : Arg) : storageE unit
  | Getenv (name : string) : storageE string
  | ReadFile (path : string) : storageE (result string)
  | ThirdPartyResources_Get (name : string) : storageE (option error)
    (* the error of Extensions().ThirdPartyResources().Get(name) *)
  | ThirdPartyResources_Create (tpr : extensions.ThirdPartyResource) : storageE (option error)
  | NewExtensionsForConfigOrDie (cfg : rest.Config) : storageE (option error)
    (* the error on which the call panics *)
  | Dial (kind : string) (cfg : stow.ConfigMap) : storageE (result stow.Location)
  | Location_Container (loc : stow.Location) (id : string) : storageE (result stow.Container).

Section Factory.

(** environment.DefaultTillerNamespace, the group name of the release API
    (api.GroupName) and strings.TrimSpace. *)
Variable DefaultTillerNamespace : string.
Variable GroupName : string.
Variable TrimSpace : string -> string.

(** rapi.V1alpha1SchemeGroupVersion *)
Definition V1alpha1SchemeGroupVersion_Group : string := GroupName.
Definition V1alpha1SchemeGroupVersion_Version : string := "v1alpha1".

(** namespace returns the namespace of tiller *)
Definition namespace : Prog storageE string :=
  ns <- call (Getenv "TILLER_NAMESPACE") ;;
  if negb (String.eqb ns "") then Ret ns
  else
    (* Fall back to the namespace associated with the service account token *)
    f <- call (ReadFile "/var/run/secrets/kubernetes.io/serviceaccount/namespace") ;;
    match f with
    | Ok data =>
        let ns := TrimSpace data in
        if Nat.ltb 0 (String.length ns) then Ret ns
        else Ret DefaultTillerNamespace
    | Err _ => Ret DefaultTillerNamespace
    end.

Definition ensureResource : Prog storageE unit :=
  getErr <- call (ThirdPartyResources_Get ("release." +:+ V1alpha1SchemeGroupVersion_Group)) ;;
  if kberrs.IsNotFound getErr then
    let tpr := extensions.mkThirdPartyResource
                 "extensions/v1alpha1" "ThirdPartyResource"
                 ("release." +:+ V1alpha1SchemeGroupVersion_Group)
                 [V1alpha1SchemeGroupVersion_Version] in
    createErr <- call (ThirdPartyResources_Create tpr) ;;
    match createErr with
    | Some err =>
        call (Fprintf_Stderr "Failed to create third party resource: %s\n" (ArgError err)) ;;;
        Halt 1
    | None => Ret tt
    end
  else Ret tt.

(** [if v != "" { stowCfg[k] = v }] *)
Definition setIfNonEmpty (k v : string) (stowCfg : stow.ConfigMap) : stow.ConfigMap :=
  if negb (String.eqb v "") then <[k := v]> stowCfg else stowCfg.

(** The inner switch of NewStorage, on [opts.ObjectStoreProvider]: the
    value of [stowCfg] after it. *)
Definition providerConfig (opts : StoreOptions) : Prog storageE stow.ConfigMap :=
  let stowCfg : stow.ConfigMap := ∅ in
  if String.eqb (ObjectStoreProvider opts) s3.Kind then
    let stowCfg := setIfNonEmpty s3.ConfigAccessKeyID (S3ConfigAccessKeyID opts) stowCfg in
    let stowCfg := setIfNonEmpty s3.ConfigEndpoint (S3ConfigEndpoint opts) stowCfg in
    let stowCfg := setIfNonEmpty s3.ConfigRegion (S3ConfigRegion opts) stowCfg in
    let stowCfg := setIfNonEmpty s3.ConfigSecretKey (S3ConfigSecretKey opts) stowCfg in
    Ret stowCfg
  else if String.eqb (ObjectStoreProvider opts) gcs.Kind then
    stowCfg <- (if negb (String.eqb (GCSConfigJSONKeyPath opts) "") then
                  f <- call (ReadFile (GCSConfigJSONKeyPath opts)) ;;
                  match f with
                  | Err err =>
                      call (Fprintf_Stderr "Cannot read json key file: %v\n" (ArgError err)) ;;;
                      Halt 1
                  | Ok jsonKey => Ret (<[gcs.ConfigJSON := jsonKey]> stowCfg)
                  end
                else Ret stowCfg) ;;
    let stowCfg := setIfNonEmpty gcs.ConfigProjectId (GCSConfigProjectId opts) stowCfg in
    Ret stowCfg
  else if String.eqb (ObjectStoreProvider opts) azure.Kind then
    let stowCfg := setIfNonEmpty azure.ConfigAccount (AzureConfigAccount opts) stowCfg in
    let stowCfg := setIfNonEmpty azure.ConfigKey (AzureConfigKey opts) stowCfg in
    Ret stowCfg
  else if String.eqb (ObjectStoreProvider opts) swift.Kind then
    let stowCfg := setIfNonEmpty swift.ConfigKey (SwiftConfigKey opts) stowCfg in
    let stowCfg := setIfNonEmpty swift.ConfigTenantAuthURL (SwiftConfigTenantAuthURL opts) stowCfg in
    let stowCfg := setIfNonEmpty swift.ConfigTenantName (SwiftConfigTenantName opts) stowCfg in
    let stowCfg := setIfNonEmpty swift.ConfigUsername (SwiftConfigUsername opts) stowCfg in
    Ret stowCfg
  else
    call (Fprintf_Stderr "Unknown provider: %v\n" (ArgString (ObjectStoreProvider opts))) ;;;
    Halt 1.

(** rcs.NewExtensionsForConfigOrDie(clientcfg): a panic ends the process
    with status 2. *)
Definition extensionsClientOrDie (clientcfg : rest.Config) : Prog storageE rest.Config :=
  e <- call (NewExtensionsForConfigOrDie clientcfg) ;;
  match e with
  | Some _ => Halt 2
  | None => Ret clientcfg
  end.

(** The outer switch of NewStorage, on [opts.StoreType], and the final
    return. *)
Definition selectDriver (clientcfg : rest.Config) (opts : StoreOptions)
  : Prog storageE (option Storage * option error) :=
  if String.eqb (StoreType_ opts) StorageMemory then
    Ret (Some (Init NewMemory), None)
  else if String.eqb (StoreType_ opts) StorageConfigMap then
    ns <- namespace ;;
    Ret (Some (Init (NewConfigMaps ns)), None)
  else if String.eqb (StoreType_ opts) StorageInlineTPR then
    ensureResource ;;;
    cs <- extensionsClientOrDie clientcfg ;;
    ns <- namespace ;;
    Ret (Some (Init (NewReleases cs ns)), None)
  else if String.eqb (StoreType_ opts) StorageObjectStoreTPR then
    ensureResource ;;;
    stowCfg <- providerConfig opts ;;
    d <- call (Dial (ObjectStoreProvider opts) stowCfg) ;;
    match d with
    | Err err =>
        call (Fprintf_Stderr "Cannot connect to object store: %v\n" (ArgError err)) ;;;
        Halt 1
    | Ok loc =>
        r <- call (Location_Container loc (Container opts)) ;;
        match r with
        | Err err =>
            call (Fprintf_Stderr "Cannot find container: %v\n" (ArgError err)) ;;;
            Halt 1
        | Ok c =>
            cs <- extensionsClientOrDie clientcfg ;;
            ns <- namespace ;;
            Ret (Some (Init (NewObjectStoreReleases cs ns c (StoragePrefix opts))), None)
        end
    end
  else
    Ret (None, Some (errorString ("Unknow store type " +:+ StoreType_ opts))).

Definition NewStorage (client : kube.Client) (opts : StoreOptions)
  : Prog storageE (option Storage * option error) :=
  cc <- call (ClientConfig client) ;;
  match cc with
  | Err err =>
      call (Fprintf_Stderr "Cannot initialize Kubernetes connection: %s\n" (ArgError err)) ;;;
      Halt 1
  | Ok clientcfg =>
      csErr <- call (ClientSet client) ;;
      match csErr with
      | Some err =>
          call (Fprintf_Stderr "Cannot initialize Kubernetes connection: %s\n" (ArgError err)) ;;;
          Halt 1
      | None => selectDriver clientcfg opts
      end
  end.

End Factory.
End storage.

(** ** client/clientset/fake: the fake release client *)

(** k8s.io/kubernetes/pkg/labels *)
Module labels.

(** labels.Set *)
Abbreviation Set_ := (gmap string string).

(** A [labels.Selector] interface value; the fake client calls only
    [Matches]. *)
Record Selector : Type := mkSelector {
  Matches : Set_ -> bool
}.

(** labels.Everything(): the selector without requirements. *)
Definition Everything : Selector := mkSelector (fun _ => true).

End labels.

Module aci.

Record Release : Type := mkRelease {
  Name : string;
  Namespace : string;
  Labels : labels.Set_;
  ResourceVersion : string;
  Body : string                     (* spec and status, opaque here *)
}.

Record ReleaseList : Type := mkReleaseList {
  ListResourceVersion : string;     (* ListMeta.ResourceVersion *)
  Items : list Release
}.

(** [&aci.ReleaseList{}] *)
Definition emptyList : ReleaseList := mkReleaseList "" [].

End aci.

Module api.
Record ListOptions : Type := mkListOptions {
  LabelSelector : option labels.Selector;     (* nil when absent *)
  ResourceVersion : string
}.
End api.

Module fake.

(** A [runtime.Object] by dynamic type. *)
Inductive Object : Type :=
  | ObjRelease (r : aci.Release)
  | ObjReleaseList (l : aci.ReleaseList).

Record GroupVersionResource : Type := mkGroupVersionResource {
  Group : string;
  Version : string;
  Resource : string
}.

Definition resource : GroupVersionResource :=
  mkGroupVersionResource "helm.sh" "v1alpha1" "releases".

(** testing.NewListAction(resource, ns, opts) *)
Record ListAction : Type := NewListAction {
  action_resource : GroupVersionResource;
  action_namespace : string;
  action_opts : api.ListOptions
}.

Inductive fakeE : Type -> Type :=
  | Invokes (action : ListAction) : fakeE (option Object * option error).
  (* mock.Fake.Invokes(action, &aci.Release{}) *)

Record FakeRelease : Type := mkFakeRelease {
  ns : string
}.

(** The label selector that testing.ExtractFromListOptions(opts) returns
    for an [api.ListOptions]. *)
Definition ExtractFromListOptions (opts : api.ListOptions) : option labels.Selector :=
  api.LabelSelector opts.

(** The loop of List: [for _, item := range items { if
    label.Matches(labels.Set(item.Labels)) { list.Items = append(list.Items,
    item) } }], as the value of [list.Items] after it. *)
Fixpoint retain (label : labels.Selector) (items : list aci.Release) (acc : list aci.Release)
  : list aci.Release :=
  match items with
  | [] => acc
  | item :: rest =>
      if labels.Matches label (aci.Labels item)
      then retain label rest (acc ++ [item])
      else retain label rest acc
  end.

(** List returns the a of Releases. A failed type assertion panics: the
    process ends with status 2. *)
Definition List (mock : FakeRelease) (opts : api.ListOptions)
  : Prog fakeE (option aci.ReleaseList * option error) :=
  r <- call (Invokes (NewListAction resource (ns mock) opts)) ;;
  let '(obj, err) := r in
  match obj with
  | None => Ret (None, err)
  | Some o =>
      let label := match ExtractFromListOptions opts with
                   | None => labels.Everything
                   | Some l => l
                   end in
      match o with
      | ObjReleaseList l =>
          let list := aci.mkReleaseList (aci.ListResourceVersion aci.emptyList)
                        (retain label (aci.Items l) (aci.Items aci.emptyList)) in
          Ret (Some list, err)
      | ObjRelease _ => Halt 2
      end
  end.

End fake.

(** ** Library functions and sample data for the concrete instances *)

(** encoding/base64: a decoder for the standard alphabet with [=] padding,
    which skips CR and LF as StdEncoding does. The offset of an error is
    the one the library reports: the position of a byte outside the
    alphabet or of a misplaced [=], the start of an unfinished quantum, the
    position before the byte found in place of the second [=], the length
    of the input when the second [=] is missing, and the position of the
    first byte after complete padding. *)
Module base64.

Definition sextet (c : ascii) : option N :=
  let n := N_of_ascii c in
  if (65 <=? n)%N && (n <=? 90)%N then Some (n - 65)%N
  else if (97 <=? n)%N && (n <=? 122)%N then Some (n - 71)%N
  else if (48 <=? n)%N && (n <=? 57)%N then Some (n + 4)%N
  else if (n =? 43)%N then Some 62%N
  else if (n =? 47)%N then Some 63%N
  else None.

Definition isNewline (c : ascii) : bool :=
  Ascii.eqb c "010"%char || Ascii.eqb c "013"%char.

Definition byte1 (a b : N) : ascii := ascii_of_N ((a * 4 + b / 16) mod 256).
Definition byte2 (b c : N) : ascii := ascii_of_N (((b mod 16) * 16 + c / 4) mod 256).
Definition byte3 (c d : N) : ascii := ascii_of_N (((c mod 4) * 64 + d) mod 256).

(** [for si < len(src) && (src[si] == '\n' || src[si] == '\r') { si++ }]:
    what is left of the input, and its offset. *)
Fixpoint skipNewlines (s : string) (pos : Z) : string * Z :=
  match s with
  | EmptyString => (EmptyString, pos)
  | String c s' => if isNewline c then skipNewlines s' (pos + 1) else (s, pos)
  end.

(** After the padding: line breaks, and nothing else. *)
Definition trailing (s : string) (pos : Z) (out : string) : result string :=
  let '(rest, p) := skipNewlines s pos in
  match rest with
  | EmptyString => Ok out
  | String _ _ => Err (CorruptInputError p)
  end.

(** After the first [=] of a two-byte padding: the second is expected. *)
Definition secondPad (s : string) (pos : Z) (out : string) : result string :=
  let '(rest, p) := skipNewlines s pos in
  match rest with
  | EmptyString => Err (CorruptInputError p)
  | String c rest' =>
      if Ascii.eqb c "="%char then trailing rest' (p + 1) out
      else Err (CorruptInputError (p - 1))
  end.

(** [q] holds the sextets of the quantum being read, [pos] the offset of
    the next byte. *)
Fixpoint decode (s : string) (pos : Z) (q : list N) : result string :=
  match s with
  | EmptyString =>
      match q with
      | [] => Ok EmptyString
      | _ => Err (CorruptInputError (pos - Z.of_nat (length q)))
      end
  | String c s' =>
      if isNewline c then decode s' (pos + 1) q
      else if Ascii.eqb c "="%char then
        match q with
        | [a; b] => secondPad s' (pos + 1) (String (byte1 a b) EmptyString)
        | [a; b; c3] =>
            trailing s' (pos + 1) (String (byte1 a b) (String (byte2 b c3) EmptyString))
        | _ => Err (CorruptInputError pos)
        end
      else
        match sextet c with
        | None => Err (CorruptInputError pos)
        | Some v =>
            match q with
            | [a; b; c3] =>
                match decode s' (pos + 1) [] with
                | Ok rest =>
                    Ok (String (byte1 a b) (String (byte2 b c3) (String (byte3 c3 v) rest)))
                | Err e => Err e
                end
            | _ => decode s' (pos + 1) (q ++ [v])
            end
        end
  end.

Definition DecodeString (s : string) : result string := decode s 0 [].

End base64.

Module sample.

(** Modelled from the spec: pkg/version, which defines version.IsCompatible,
    is not among the sources. The specification fixes that an empty client
    version is incompatible; this stand-in accepts, of the others, the
    client whose version is the server's own. *)
Definition IsCompatible (client server : string) : bool :=
  negb (String.eqb client "") && String.eqb client server.

Definition Version : string := "v2.2.0".

Definition syscfg : rest.Config :=
  rest.mkConfig "https://10.0.0.1:443" "/api" "" "" "" "system-token" ""
                (rest.mkTLSClientConfig "" "" "" "CERT" "KEY" "CA") false.

Definition alice : credentials.Certificate := credentials.mkCertificate "alice".

Definition tlsPeer : peer.Peer :=
  peer.mkPeer "10.1.2.3:5555"
              (credentials.TLSInfo (credentials.mkConnectionState [[alice]])).

Definition plainPeer : peer.Peer := peer.mkPeer "10.1.2.3:5555" credentials.nilAuthInfo.

Definition emptyChainPeer : peer.Peer :=
  peer.mkPeer "10.1.2.3:5555"
              (credentials.TLSInfo (credentials.mkConnectionState [[]])).

(** Metadata of a current client without, and with, an authorization
    header; and of a client that sends no version. *)
Definition mdCurrent : MD := {[ "x-helm-api-client" := ["v2.2.0"] ]}.
Definition mdWith (authorization : string) : MD :=
  <[ "authorization" := [authorization] ]> mdCurrent.
Definition mdNoVersion : MD := ∅.

(** The connection context of a call: peer and metadata over the root. *)
Definition transport (p : peer.Peer) (md : MD) : context.Context :=
  metadata.NewContext (peerctx.NewContext context.Background p) md.

Definition ctxCert : context.Context := transport tlsPeer mdCurrent.
Definition ctxBearer : context.Context := transport plainPeer (mdWith "Bearer abc123").
Definition ctxBasic : context.Context :=
  transport plainPeer (mdWith "Basic YWRtaW46czNjcmV0").
Definition ctxDigest : context.Context := transport plainPeer (mdWith "Digest abc").
Definition ctxOldClient : context.Context := transport tlsPeer mdNoVersion.
Definition ctxNoMetadata : context.Context :=
  peerctx.NewContext context.Background tlsPeer.

Definition bob : authenticationapi.UserInfo :=
  authenticationapi.mkUserInfo "bob" "42" ["dev"].

(** A cluster that accepts every credential, and a service that answers
    every request; the state counts the calls. *)
Definition accepting : World gatewayE nat :=
  fun X e =>
    match e in gatewayE X return nat -> X * nat with
    | ClientSet _ => fun n => (None, S n)
    | NewForConfig _ => fun n => (None, S n)
    | TokenReviews_Create _ req =>
        fun n => (Ok (authenticationapi.mkTokenReview
                        (authenticationapi.Spec req)
                        (authenticationapi.mkTokenReviewStatus true bob)), S n)
    | ServerVersion _ => fun n => (None, S n)
    | Println _ => fun n => (tt, S n)
    | Serve _ _ => fun n => ((Some "done", None), S n)
    | ServeStream _ _ => fun n => (None, S n)
    | WireRecvMsg _ => fun n => (None, S n)
    | WireSendMsg _ => fun n => (None, S n)
    | WireSendHeader _ => fun n => (None, S n)
    | WireSetHeader _ => fun n => (None, S n)
    | WireSetTrailer _ => fun n => (tt, S n)
    end.

Definition unauthorized : error := StatusError StatusReasonForbidden "Unauthorized".

(** A cluster that rejects the server-version probe. *)
Definition rejecting : World gatewayE nat :=
  fun X e =>
    match e in gatewayE X return nat -> X * nat with
    | ServerVersion _ => fun n => (Some unauthorized, S n)
    | e' => accepting _ e'
    end.

Definition getVersion : string := "/hapi.services.tiller.ReleaseService/GetVersion".
Definition listReleases : string := "/hapi.services.tiller.ReleaseService/ListReleases".

(** Releases of a backend and a fake that lists them. *)
Definition web : aci.Release :=
  aci.mkRelease "shop" "kube-system" {[ "tier" := "web"; "owner" := "alice" ]} "7" "...".
Definition db : aci.Release :=
  aci.mkRelease "ledger" "kube-system" {[ "tier" := "db" ]} "3" "...".
Definition web2 : aci.Release :=
  aci.mkRelease "blog" "kube-system" {[ "tier" := "web" ]} "9" "...".

Definition backend : aci.ReleaseList := aci.mkReleaseList "12" [web; db; web2].

Definition tracker : World fake.fakeE nat :=
  fun X e =>
    match e in fake.fakeE X return nat -> X * nat with
    | fake.Invokes _ => fun n => ((Some (fake.ObjReleaseList backend), None), S n)
    end.

(** A request for the releases labelled tier=web: a selector whose Matches
    asks for that pair. *)
Definition tierWeb : api.ListOptions :=
  api.mkListOptions
    (Some (labels.mkSelector (fun l => bool_decide (l !! "tier" = Some "web")))) "".
Definition unselective : api.ListOptions := api.mkListOptions None "".

(** The surroundings of the storage factory. What differs between the
    worlds below is how the cluster answers the lookup and the creation of
    the third-party resource, and whether the client configuration loads. *)
Definition GroupName : string := "helm.sh".
Definition DefaultTillerNamespace : string := "kube-system".

(** strings.TrimSpace on ASCII text: leading and trailing tab, line feed,
    vertical tab, form feed, carriage return and space are removed. (The
    library also removes the white space outside ASCII.) *)
Definition isSpace (c : ascii) : bool :=
  let n := N_of_ascii c in
  ((9 <=? n)%N && (n <=? 13)%N) || (n =? 32)%N.

Fixpoint trimLeft (s : string) : string :=
  match s with
  | EmptyString => EmptyString
  | String c s' => if isSpace c then trimLeft s' else s
  end.

Fixpoint trimRight (s : string) : string :=
  match s with
  | EmptyString => EmptyString
  | String c s' =>
      match trimRight s' with
      | EmptyString => if isSpace c then EmptyString else String c EmptyString
      | t => String c t
      end
  end.

Definition TrimSpace (s : string) : string := trimRight (trimLeft s).

Definition client : kube.Client := kube.New (kube.mkWrapClientConfig syscfg).

Definition notFound : error := StatusError StatusReasonNotFound "not found".
Definition alreadyExists : error := StatusError StatusReasonAlreadyExists "already exists".
Definition refused : error := errorString "dial tcp 10.0.0.1:443: connection refused".

(** A cluster that registers what is created and reports what is
    registered; its state is the set of registered resource names. *)
Definition cluster : World storage.storageE (gset string) :=
  fun X e =>
    match e in storage.storageE X return gset string -> X * gset string with
    | storage.ClientConfig _ => fun s => (Ok syscfg, s)
    | storage.ClientSet _ => fun s => (None, s)
    | storage.Fprintf_Stderr _ _ => fun s => (tt, s)
    | storage.Getenv _ => fun s => ("", s)
    | storage.ReadFile _ => fun s => (Ok "tiller-ns", s)
    | storage.ThirdPartyResources_Get name =>
        fun s => (if bool_decide (name ∈ s) then None else Some notFound, s)
    | storage.ThirdPartyResources_Create tpr =>
        fun s => if bool_decide (extensions.Name tpr ∈ s)
                 then (Some alreadyExists, s)
                 else (None, {[ extensions.Name tpr ]} ∪ s)
    | storage.NewExtensionsForConfigOrDie _ => fun s => (None, s)
    | storage.Dial kind _ => fun s => (Ok (stow.mkLocation kind), s)
    | storage.Location_Container _ id => fun s => (Ok (stow.mkContainer id), s)
    end.

(** The answers of [cluster], but for those given in [lookup] and [create];
    the state counts the calls. *)
Definition answering (config : result rest.Config) (lookup create : option error)
  : World storage.storageE nat :=
  fun X e =>
    match e in storage.storageE X return nat -> X * nat with
    | storage.ClientConfig _ => fun n => (config, S n)
    | storage.ThirdPartyResources_Get _ => fun n => (lookup, S n)
    | storage.ThirdPartyResources_Create _ => fun n => (create, S n)
    | e' => fun n => (fst (cluster _ e' ∅), S n)
    end.

(** Another replica registers the resource between lookup and creation. *)
Definition racing : World storage.storageE nat :=
  answering (Ok syscfg) (Some notFound) (Some alreadyExists).

(** The lookup does not reach the cluster. *)
Definition unreachable : World storage.storageE nat :=
  answering (Ok syscfg) (Some refused) None.


(** A fresh cluster, by call count. *)
Definition fresh : World storage.storageE nat :=
  answering (Ok syscfg) (Some notFound) None.

Definition options (kind provider : string) : storage.StoreOptions :=
  storage.mkStoreOptions kind provider
    "AKIA" "" "eu-west-1" "s3secret"      (* S3 *)
    "" "project-1"                        (* GCS *)
    "account" "azurekey"                  (* Azure *)
    "swiftkey" "https://auth" "tenant" "user"   (* Swift *)
    "releases" "tiller".

End sample.


(** ** pkg/tiller/server.go: wrapClientConfig

    The two calls into package os are those of the storage factory's calls
    ([storage.Getenv], [storage.ReadFile]). *)

Module wrapClientConfig.
Section Methods.

Variable TrimSpace : string -> string.    (* strings.TrimSpace *)

(** [func (w wrapClientConfig) ClientConfig()]: the wrapped configuration
    and a nil error. *)
Definition ClientConfig (w : kube.wrapClientConfig) : rest.Config * option error :=
  (kube.cfg w, None).

(** [func (wrapClientConfig) Namespace() (string, bool, error)] *)
Definition Namespace (w : kube.wrapClientConfig)
  : Prog storage.storageE (string * bool * option error) :=
  (* This way assumes you've set the POD_NAMESPACE environment variable *)
  ns <- call (storage.Getenv "POD_NAMESPACE") ;;
  if negb (String.eqb ns "") then Ret (ns, true, None)
  else
    (* Fall back to the namespace associated with the service account token *)
    f <- call (storage.ReadFile "/var/run/secrets/kubernetes.io/serviceaccount/namespace") ;;
    match f with
    | Ok data =>
        let ns := TrimSpace data in
        if Nat.ltb 0 (String.length ns) then Ret (ns, true, None)
        else Ret ("default", false, None)
    | Err _ => Ret ("default", false, None)
    end.

End Methods.
End wrapClientConfig.

(** ** client/clientset/fake/release.go: the methods of FakeRelease other
    than List *)

Module fake_rw.

(** A [watch.Interface] handle. *)
Inductive Watcher : Type := mkWatcher (id : string).

(** The actions of k8s testing that these methods build; [object] is the
    release behind the pointer handed in, [None] for a nil pointer. *)
Inductive Action : Type :=
| NewGetAction (resource : fake.GroupVersionResource) (ns name : string)
| NewCreateAction (resource : fake.GroupVersionResource) (ns : string)
                  (object : option aci.Release)
| NewUpdateAction (resource : fake.GroupVersionResource) (ns : string)
                  (object : option aci.Release)
| NewDeleteAction (resource : fake.GroupVersionResource) (ns name : string)
| NewUpdateSubresourceAction (resource : fake.GroupVersionResource)
                             (subresource ns : string) (object : option aci.Release)
| NewWatchAction (resource : fake.GroupVersionResource) (ns : string)
                 (opts : api.ListOptions).

Inductive rwE : Type -> Type :=
| Invokes (action : Action) : rwE (option fake.Object * option error)
    (* mock.Fake.Invokes(action, &aci.Release{}) *)
| InvokesWatch (action : Action) : rwE (option Watcher * option error).
    (* mock.Fake.InvokesWatch(action) *)

(** [r.Namespace = ns] *)
Definition set_Namespace (ns : string) (r : aci.Release) : aci.Release :=
  aci.mkRelease (aci.Name r) ns (aci.Labels r) (aci.ResourceVersion r) (aci.Body r).

(** [if r != nil { r.Namespace = mock.ns }]: the release behind [r] after
    the statement. *)
Definition forceNamespace (mock : fake.FakeRelease) (r : option aci.Release)
  : option aci.Release :=
  match r with
  | Some release => Some (set_Namespace (fake.ns mock) release)
  | None => None
  end.

(** Get returns the Release by name. *)
Definition Get (mock : fake.FakeRelease) (name : string)
  : Prog rwE (option aci.Release * option error) :=
  r <- call (Invokes (NewGetAction fake.resource (fake.ns mock) name)) ;;
  let '(obj, err) := r in
  match obj with
  | None => Ret (None, err)
  | Some (fake.ObjRelease release) => Ret (Some release, err)
  | Some (fake.ObjReleaseList _) => Halt 2
  end.

(** Create creates a new Release. The methods that take a release pointer
    return, next to their results, the release behind that pointer as they
    leave it. *)
Definition Create (mock : fake.FakeRelease) (r : option aci.Release)
  : Prog rwE (option aci.Release * option error * option aci.Release) :=
  let r := forceNamespace mock r in
  res <- call (Invokes (NewCreateAction fake.resource (fake.ns mock) r)) ;;
  let '(obj, err) := res in
  match obj with
  | None => Ret (None, err, r)
  | Some (fake.ObjRelease release) => Ret (Some release, err, r)
  | Some (fake.ObjReleaseList _) => Halt 2
  end.

(** Update updates a Release. *)
Definition Update (mock : fake.FakeRelease) (r : option aci.Release)
  : Prog rwE (option aci.Release * option error * option aci.Release) :=
  let r := forceNamespace mock r in
  res <- call (Invokes (NewUpdateAction fake.resource (fake.ns mock) r)) ;;
  let '(obj, err) := res in
  match obj with
  | None => Ret (None, err, r)
  | Some (fake.ObjRelease release) => Ret (Some release, err, r)
  | Some (fake.ObjReleaseList _) => Halt 2
  end.

(** Delete deletes a Release by name. *)
Definition Delete (mock : fake.FakeRelease) (name : string) : Prog rwE (option error) :=
  res <- call (Invokes (NewDeleteAction fake.resource (fake.ns mock) name)) ;;
  Ret (snd res).

Definition UpdateStatus (mock : fake.FakeRelease) (r : option aci.Release)
  : Prog rwE (option aci.Release * option error * option aci.Release) :=
  let r := forceNamespace mock r in
  res <- call (Invokes (NewUpdateSubresourceAction fake.resource "status" (fake.ns mock) r)) ;;
  let '(obj, err) := res in
  match obj with
  | None => Ret (None, err, r)
  | Some (fake.ObjRelease release) => Ret (Some release, err, r)
  | Some (fake.ObjReleaseList _) => Halt 2
  end.

Definition Watch (mock : fake.FakeRelease) (opts : api.ListOptions)
  : Prog rwE (option Watcher * option error) :=
  call (InvokesWatch (NewWatchAction fake.resource (fake.ns mock) opts)).

End fake_rw.

(** ** client/clientset/release.go: the release client over REST *)

Module clientset.

Inductive Verb : Type := GET | POST | PUT | DELETE.

(** A [rest.Request] under construction: what the builder methods called
    here record. The checks the library makes while building (an empty
    name, a namespace set twice) are the server side's here: a request is
    handed over as built. *)
Record Request : Type := mkRequest {
  verb : Verb;
  pathPrefix : list string;
  namespace : option string;
  resource : string;
  resourceName : option string;
  subresource : option string;
  params : option api.ListOptions;
  body : option (option aci.Release)     (* not set; set to a nil pointer; set *)
}.

(** [c.r.Get()], [c.r.Post()], [c.r.Put()], [c.r.Delete()] *)
Definition NewRequest (v : Verb) : Request :=
  mkRequest v [] None "" None None None None.

Definition Prefix (segment : string) (r : Request) : Request :=
  mkRequest (verb r) (pathPrefix r ++ [segment]) (namespace r) (resource r)
            (resourceName r) (subresource r) (params r) (body r).

Definition Namespace (ns : string) (r : Request) : Request :=
  mkRequest (verb r) (pathPrefix r) (Some ns) (resource r)
            (resourceName r) (subresource r) (params r) (body r).

Definition Resource (res : string) (r : Request) : Request :=
  mkRequest (verb r) (pathPrefix r) (namespace r) res
            (resourceName r) (subresource r) (params r) (body r).

Definition Name (name : string) (r : Request) : Request :=
  mkRequest (verb r) (pathPrefix r) (namespace r) (resource r)
            (Some name) (subresource r) (params r) (body r).

Definition SubResource (sub : string) (r : Request) : Request :=
  mkRequest (verb r) (pathPrefix r) (namespace r) (resource r)
            (resourceName r) (Some sub) (params r) (body r).

(** [VersionedParams(&opts, ExtendedCodec)] *)
Definition VersionedParams (opts : api.ListOptions) (r : Request) : Request :=
  mkRequest (verb r) (pathPrefix r) (namespace r) (resource r)
            (resourceName r) (subresource r) (Some opts) (body r).

Definition Body (obj : option aci.Release) (r : Request) : Request :=
  mkRequest (verb r) (pathPrefix r) (namespace r) (resource r)
            (resourceName r) (subresource r) (params r) (Some obj).

(** How a request is sent off. [Do_Into] and [Do_IntoList] answer with the
    object behind [result] after [Do().Into(result)], and the error. *)
Inductive restE : Type -> Type :=
| Do_Into (req : Request) (result : aci.Release) : restE (aci.Release * option error)
| Do_IntoList (req : Request) (result : aci.ReleaseList)
    : restE (aci.ReleaseList * option error)
| Do_Error (req : Request) : restE (option error)
| Do_Watch (req : Request) : restE (option fake_rw.Watcher * option error).

(** [&aci.Release{}] *)
Definition emptyRelease : aci.Release := aci.mkRelease "" "" ∅ "" "".

Record ReleaseImpl : Type := mkReleaseImpl {
  ns : string
}.

Definition List (c : ReleaseImpl) (opts : api.ListOptions)
  : Prog restE (aci.ReleaseList * option error) :=
  let result := aci.emptyList in
  call (Do_IntoList (VersionedParams opts
                       (Resource "releases" (Namespace (ns c) (NewRequest GET))))
                    result).

Definition Get (c : ReleaseImpl) (name : string)
  : Prog restE (aci.Release * option error) :=
  let result := emptyRelease in
  call (Do_Into (Name name (Resource "releases" (Namespace (ns c) (NewRequest GET))))
                result).

Definition Create (c : ReleaseImpl) (release : option aci.Release)
  : Prog restE (aci.Release * option error) :=
  let result := emptyRelease in
  call (Do_Into (Body release (Resource "releases" (Namespace (ns c) (NewRequest POST))))
                result).

(** [release.Name] of a nil pointer panics. *)
Definition Update (c : ReleaseImpl) (release : option aci.Release)
  : Prog restE (aci.Release * option error) :=
  let result := emptyRelease in
  match release with
  | None => Halt 2
  | Some rel =>
      call (Do_Into (Body release
                       (Name (aci.Name rel)
                          (Resource "releases" (Namespace (ns c) (NewRequest PUT)))))
                    result)
  end.

Definition Delete (c : ReleaseImpl) (name : string) : Prog restE (option error) :=
  call (Do_Error (Name name (Resource "releases" (Namespace (ns c) (NewRequest DELETE))))).

Definition Watch (c : ReleaseImpl) (opts : api.ListOptions)
  : Prog restE (option fake_rw.Watcher * option error) :=
  call (Do_Watch (VersionedParams opts
                    (Resource "releases"
                       (Namespace (ns c) (Prefix "watch" (NewRequest GET)))))).

Definition UpdateStatus (c : ReleaseImpl) (release : option aci.Release)
  : Prog restE (aci.Release * option error) :=
  let result := emptyRelease in
  match release with
  | None => Halt 2
  | Some rel =>
      call (Do_Into (Body release
                       (SubResource "status"
                          (Name (aci.Name rel)
                             (Resource "releases" (Namespace (ns c) (NewRequest PUT))))))
                    result)
  end.

End clientset.

(** ** Vocabulary of the properties *)

(** [s] holds no colon. *)
Definition colonFree (s : string) : Prop := ~ In ":"%char (list_ascii_of_string s).

(** The user client configuration that carries the basic credentials [u] and
    [p]: host, API path, prefix and certificate data of the system
    configuration, every other field at its zero value. *)
Definition basicConfig (syscfg : rest.Config) (u p : string) : rest.Config :=
  rest.mkConfig (rest.Host syscfg) (rest.APIPath syscfg) (rest.Prefix syscfg)
                u p "" ""
                (rest.mkTLSClientConfig "" "" "" (rest.CertData (rest.TLS syscfg)) "" "")
                false.

(** [usrcfg] is [syscfg] but for its impersonation field, which is [cn]. *)
Definition impersonates (usrcfg syscfg : rest.Config) (cn : string) : Prop :=
  rest.Impersonate usrcfg = cn /\
  rest.Host usrcfg = rest.Host syscfg /\
  rest.APIPath usrcfg = rest.APIPath syscfg /\
  rest.Prefix usrcfg = rest.Prefix syscfg /\
  rest.Username usrcfg = rest.Username syscfg /\
  rest.Password usrcfg = rest.Password syscfg /\
  rest.BearerToken usrcfg = rest.BearerToken syscfg /\
  rest.TLS usrcfg = rest.TLS syscfg /\
  rest.Insecure usrcfg = rest.Insecure syscfg.

(** The error of checkClientVersion for the client version found in [ctx]. *)
Definition versionMismatch (Version : string) (ctx : context.Context) : error :=
  errorString ("incompatible versions client: " +:+ tiller.versionFromContext ctx
               +:+ " server: " +:+ Version).

(** The verified chains hold no leaf certificate: there is no chain, or the
    first chain is empty. *)
Definition noLeaf (chains : list (list credentials.Certificate)) : Prop :=
  chains = [] \/ exists others, chains = [] :: others.

(** The authorization header is absent, has no value, or has the empty
    string as its first value. *)
Definition noAuthorization (md : MD) : Prop :=
  md !! kube.Authorization = None \/
  md !! kube.Authorization = Some [] \/
  exists others, md !! kube.Authorization = Some ("" :: others).

(** The selector a list request asks for: the one in the options, and the
    selector that matches everything when the options carry none. *)
Definition selectorOf (opts : api.ListOptions) : labels.Selector :=
  match api.LabelSelector opts with
  | Some label => label
  | None => labels.Everything
  end.

(** A selector with one requirement [key = value] for each pair of [ls]:
    it matches the label sets that contain every pair. *)
Definition requiring (ls : labels.Set_) : labels.Selector :=
  labels.mkSelector (fun l =>
    forallb (fun kv => bool_decide (l !! fst kv = Some (snd kv))) (map_to_list ls)).






(** The third-party resource that the bootstrap looks up and creates. *)
Definition releaseResourceName (GroupName : string) : string := "release." +:+ GroupName.

Definition releaseResource (GroupName : string) : extensions.ThirdPartyResource :=
  extensions.mkThirdPartyResource "extensions/v1alpha1" "ThirdPartyResource"
                                  (releaseResourceName GroupName) ["v1alpha1"].

(** Every return of [p] satisfies [P], whatever the outside world answers
    (the process may also end before [p] returns). *)
Inductive ends_in {E : Type -> Type} {A : Type} (P : A -> Prop) : Prog E A -> Prop :=
| ends_Ret (a : A) : P a -> ends_in P (Ret a)
| ends_Halt (code : Z) : ends_in P (Halt code)
| ends_Vis {X : Type} (e : E X) (k : X -> Prog E A) :
    (forall x, ends_in P (k x)) -> ends_in P (Vis e k).



(** ** Further vocabulary *)

(** Every outside call of [p] satisfies [P], whatever the answers. *)
Inductive calls {E : Type -> Type} {A : Type} (P : forall X, E X -> Prop)
  : Prog E A -> Prop :=
| calls_Ret (a : A) : calls P (Ret a)
| calls_Halt (code : Z) : calls P (Halt code)
| calls_Vis {X : Type} (e : E X) (k : X -> Prog E A) :
    P X e -> (forall x, calls P (k x)) -> calls P (Vis e k).

(** The calls by which a credential is verified. *)
Definition verifierCall (X : Type) (e : gatewayE X) : Prop :=
  match e with
  | ClientSet _ | NewForConfig _ | TokenReviews_Create _ _ | ServerVersion _ => True
  | _ => False
  end.

(** The context and request with which an event enters the service's unary
    method, and the context with which it enters a streaming method. *)
Definition served (ev : Event gatewayE) : option (context.Context * Payload) :=
  match ev with
  | existT _ (Serve c r) => Some (c, r)
  | _ => None
  end.

Definition servedStream (ev : Event gatewayE) : option (Payload * context.Context) :=
  match ev with
  | existT _ (ServeStream srv c) => Some (srv, c)
  | _ => None
  end.

(** The user client configuration that carries a bearer token: host, API
    path, prefix and certificate data of the system configuration, every
    other field at its zero value. *)
Definition bearerConfig (syscfg : rest.Config) (token : string) : rest.Config :=
  rest.mkConfig (rest.Host syscfg) (rest.APIPath syscfg) (rest.Prefix syscfg)
                "" "" token ""
                (rest.mkTLSClientConfig "" "" "" (rest.CertData (rest.TLS syscfg)) "" "")
                false.

(** The context that the earlier revision's authenticate returns for a
    verdict without error. *)
Definition filed (ctx : context.Context) (syscfg : rest.Config)
           (user : option authenticationapi.UserInfo) (usrcfg : option rest.Config)
  : context.Context :=
  context.WithValue
    (context.WithValue
       (context.WithValue ctx (context.kubeKey kube.UserInfo) (tiller_rv.anyUserInfo user))
       (context.kubeKey kube.UserClientConfig) (tiller_rv.anyConfig usrcfg))
    (context.kubeKey kube.SystemClientConfig) (context.AnyConfig syscfg).

(** [s] holds no slash. *)
Definition slashFree (s : string) : Prop := ~ In "/"%char (list_ascii_of_string s).

(** strings.Join(frags, "/") *)
Fixpoint joinSlash (frags : list string) : string :=
  match frags with
  | [] => ""
  | [f] => f
  | f :: rest => f +:+ "/" +:+ joinSlash rest
  end.

(** [p] never ends the process: it has no [Halt]. *)
Inductive returns {E : Type -> Type} {A : Type} : Prog E A -> Prop :=
| returns_Ret (a : A) : returns (Ret a)
| returns_Vis {X : Type} (e : E X) (k : X -> Prog E A) :
    (forall x, returns (k x)) -> returns (Vis e k).

(** The keys under which the earlier revision's authenticate files. *)
Definition filedKey (k : kube.ContextKey) : Prop :=
  k = kube.UserInfo \/ k = kube.UserClientConfig \/ k = kube.SystemClientConfig.

(** The context that the earlier revision files for alice's certificate
    call. *)
Definition aliceContext : context.Context :=
  filed sample.ctxCert sample.syscfg
        (Some (authenticationapi.mkUserInfo "alice" "" []))
        (Some (rest.set_Impersonate "alice" sample.syscfg)).

(** The value a provider key is bound to for an option field: none for the
    empty field. *)
Definition nonEmpty (v : string) : option string :=
  if String.eqb v "" then None else Some v.

(** The file from which both namespace resolutions read. *)
Definition serviceAccountNamespace : string :=
  "/var/run/secrets/kubernetes.io/serviceaccount/namespace".


(** The call after which the process may end with status [code]: a message
    on stderr before status 1, the panicking constructor before status 2. *)
Definition lastWords (code : Z) (ev : Event storage.storageE) : Prop :=
  match ev with
  | existT _ (storage.Fprintf_Stderr _ _) => code = 1
  | existT _ (storage.NewExtensionsForConfigOrDie _) => code = 2
  | _ => False
  end.

(** Every [Halt] of [p] comes right after a call that announces it, where
    [prev] is the call made last before [p]. *)
Inductive announced {A : Type}
  : option (Event storage.storageE) -> Prog storage.storageE A -> Prop :=
| announced_Ret (prev : option (Event storage.storageE)) (a : A) : announced prev (Ret a)
| announced_Halt (ev : Event storage.storageE) (code : Z) :
    lastWords code ev -> announced (Some ev) (Halt code)
| announced_Vis (prev : option (Event storage.storageE))
                {X : Type} (e : storage.storageE X) (k : X -> Prog storage.storageE A) :
    (forall x, announced (Some (event e)) (k x)) -> announced prev (Vis e k).

(** Every outside call of [p] satisfies [P] and every return of [p]
    satisfies [Q]. *)
Inductive within {E : Type -> Type} {A : Type}
          (P : forall X, E X -> Prop) (Q : A -> Prop) : Prog E A -> Prop :=
| within_Ret (a : A) : Q a -> within P Q (Ret a)
| within_Halt (code : Z) : within P Q (Halt code)
| within_Vis {X : Type} (e : E X) (k : X -> Prog E A) :
    P X e -> (forall x, within P Q (k x)) -> within P Q (Vis e k).

(** The call made last in a trace. *)
Definition lastCall {E : Type -> Type} (tr : list (Event E)) : option (Event E) :=
  last tr.

(** A call that reaches neither an object store nor the extensions client. *)
Definition beforeDial (X : Type) (e : storage.storageE X) : Prop :=
  match e with
  | storage.Dial _ _ => False
  | storage.Location_Container _ _ => False
  | storage.NewExtensionsForConfigOrDie _ => False
  | _ => True
  end.

(** The four providers the factory configures. *)
Definition knownProvider (provider : string) : Prop :=
  provider = s3.Kind \/ provider = gcs.Kind \/
  provider = azure.Kind \/ provider = swift.Kind.

(** ** The release clients *)

(** The three methods of FakeRelease that take a release pointer. *)
Inductive Writer : Type := WCreate | WUpdate | WUpdateStatus.

Definition write (op : Writer)
  : fake.FakeRelease -> option aci.Release ->
    Prog fake_rw.rwE (option aci.Release * option error * option aci.Release) :=
  match op with
  | WCreate => fake_rw.Create
  | WUpdate => fake_rw.Update
  | WUpdateStatus => fake_rw.UpdateStatus
  end.

(** The action that each of them hands to the tracker. *)
Definition writeAction (op : Writer) (ns : string) (object : option aci.Release)
  : fake_rw.Action :=
  match op with
  | WCreate => fake_rw.NewCreateAction fake.resource ns object
  | WUpdate => fake_rw.NewUpdateAction fake.resource ns object
  | WUpdateStatus => fake_rw.NewUpdateSubresourceAction fake.resource "status" ns object
  end.

(** Two releases that differ at most in their namespace. *)
Definition sameButNamespace (a b : aci.Release) : Prop :=
  aci.Name a = aci.Name b /\ aci.Labels a = aci.Labels b /\
  aci.ResourceVersion a = aci.ResourceVersion b /\ aci.Body a = aci.Body b.

(** The same for release pointers: both nil, or both set. *)
Definition sameButNamespacePtr (a b : option aci.Release) : Prop :=
  match a, b with
  | Some x, Some y => sameButNamespace x y
  | None, None => True
  | _, _ => False
  end.

(** The namespace and the resource that an action names. *)
Definition actionNamespace (a : fake_rw.Action) : string :=
  match a with
  | fake_rw.NewGetAction _ ns _ => ns
  | fake_rw.NewCreateAction _ ns _ => ns
  | fake_rw.NewUpdateAction _ ns _ => ns
  | fake_rw.NewDeleteAction _ ns _ => ns
  | fake_rw.NewUpdateSubresourceAction _ _ ns _ => ns
  | fake_rw.NewWatchAction _ ns _ => ns
  end.

Definition actionResource (a : fake_rw.Action) : fake.GroupVersionResource :=
  match a with
  | fake_rw.NewGetAction res _ _ => res
  | fake_rw.NewCreateAction res _ _ => res
  | fake_rw.NewUpdateAction res _ _ => res
  | fake_rw.NewDeleteAction res _ _ => res
  | fake_rw.NewUpdateSubresourceAction res _ _ _ => res
  | fake_rw.NewWatchAction res _ _ => res
  end.

Definition actionOf {X : Type} (e : fake_rw.rwE X) : fake_rw.Action :=
  match e with
  | fake_rw.Invokes a => a
  | fake_rw.InvokesWatch a => a
  end.

(** Sample trackers. *)
Module scenario.

(** A tracker that answers every list action with [answer]. *)
Definition replying (answer : option fake.Object * option error) : World fake.fakeE nat :=
  fun X e =>
    match e in fake.fakeE X return nat -> X * nat with
    | fake.Invokes _ => fun n => (answer, S n)
    end.

(** A tracker that answers every action with [answer], and a watch with a
    watcher. *)
Definition accepting (answer : option fake.Object * option error)
  : World fake_rw.rwE nat :=
  fun X e =>
    match e in fake_rw.rwE X return nat -> X * nat with
    | fake_rw.Invokes _ => fun n => (answer, S n)
    | fake_rw.InvokesWatch _ => fun n => ((Some (fake_rw.mkWatcher "w1"), None), S n)
    end.

Definition conflict : error := StatusError StatusReasonAlreadyExists "already exists".

(** A release that its author placed in the namespace "default". *)
Definition draft : aci.Release :=
  aci.mkRelease "shop" "default" {[ "tier" := "web" ]} "" "...".

End scenario.

(** * Properties *)

(** ** Strings *)

Lemma prefix_append (p t : string) : String.prefix p (p +:+ t) = true.
Proof.
  induction p as [|c p IH]; simpl.
  - destruct t; reflexivity.
  - destruct (ascii_dec c c) as [_|n]; [exact IH | contradiction].
Qed.

Lemma prefix_inv (p s : string) :
  String.prefix p s = true -> exists t, s = p +:+ t.
Proof.
  revert s; induction p as [|c p IH]; intros s H.
  - exists s. reflexivity.
  - destruct s as [|d s]; simpl in H; [discriminate|].
    destruct (ascii_dec c d) as [->|]; [|discriminate].
    destruct (IH s H) as [t ->]. exists t. reflexivity.
Qed.

Lemma HasPrefix_true (s p : string) :
  strings.HasPrefix s p = true <-> exists t, s = p +:+ t.
Proof.
  unfold strings.HasPrefix. split.
  - apply prefix_inv.
  - intros [t ->]. apply prefix_append.
Qed.

Lemma HasPrefix_false (s p : string) :
  (forall t, s <> p +:+ t) -> strings.HasPrefix s p = false.
Proof.
  intros H. destruct (strings.HasPrefix s p) eqn:E; [|reflexivity].
  apply HasPrefix_true in E as [t ->]. destruct (H t eq_refl).
Qed.

Lemma drop_append (p t : string) : strings.drop (String.length p) (p +:+ t) = t.
Proof. induction p as [|c p IH]; simpl; [destruct t; reflexivity | exact IH]. Qed.

Lemma take_append (p t : string) : strings.take (String.length p) (p +:+ t) = p.
Proof.
  induction p as [|c p IH]; simpl; [destruct t; reflexivity | now rewrite IH].
Qed.

Lemma Index_byte_none (c : ascii) (s : string) :
  ~ In c (list_ascii_of_string s) -> strings.Index s (String c EmptyString) = None.
Proof.
  induction s as [|d s IH]; intros H; simpl.
  - reflexivity.
  - destruct (ascii_dec c d) as [->|Hne].
    + exfalso. apply H. left. reflexivity.
    + rewrite IH; [reflexivity|]. intros Hin. apply H. right. exact Hin.
Qed.

Lemma Index_byte_first (c : ascii) (u p : string) :
  ~ In c (list_ascii_of_string u) ->
  strings.Index (u +:+ String c p) (String c EmptyString) = Some (String.length u).
Proof.
  induction u as [|d u IH]; intros H; simpl.
  - destruct (ascii_dec c c) as [_|n]; [|contradiction]. destruct p; reflexivity.
  - destruct (ascii_dec c d) as [->|Hne].
    + exfalso. apply H. left. reflexivity.
    + rewrite IH; [reflexivity|]. intros Hin. apply H. right. exact Hin.
Qed.

Lemma drop_past_byte (c : ascii) (u p : string) :
  strings.drop (String.length u + 1) (u +:+ String c p) = p.
Proof.
  induction u as [|d u IH]; simpl; [reflexivity | exact IH].
Qed.

Lemma length_append (a b : string) :
  String.length (a +:+ b) = (String.length a + String.length b)%nat.
Proof. induction a as [|c a IH]; simpl; [reflexivity | now rewrite IH]. Qed.

(** SplitN(s, ":", 2) of a string with a colon: the part before the first
    colon and everything after it. *)
Lemma SplitN_first_colon (u p : string) :
  colonFree u ->
  strings.SplitN (u +:+ ":" +:+ p) ":" 2 = [u; p].
Proof.
  intros Hu. unfold strings.SplitN, strings.genSplit.
  change (2 =? 0) with false. change (2 <? 0) with false. cbv iota.
  assert (Hlen : (2 >? Z.of_nat (String.length (u +:+ ":" +:+ p)) + 1) = false).
  { rewrite length_append. simpl String.length. rewrite Z.gtb_ltb. apply Z.ltb_ge. lia. }
  rewrite Hlen. change (Z.to_nat (2 - 1)) with 1%nat.
  change (u +:+ ":" +:+ p) with (u +:+ String ":" p).
  unfold strings.splitLoop.
  rewrite (Index_byte_first ":" u p Hu).
  change (String.length ":") with 1%nat.
  rewrite drop_past_byte.
  change (String ":" p) with (":" +:+ p).
  now rewrite take_append.
Qed.

(** SplitN(s, ":", 2) of a string without a colon is the string alone. *)
Lemma SplitN_no_colon (s : string) :
  colonFree s -> strings.SplitN s ":" 2 = [s].
Proof.
  intros Hs. unfold strings.SplitN, strings.genSplit.
  change (2 =? 0) with false. change (2 <? 0) with false. cbv iota.
  destruct (2 >? Z.of_nat (String.length s) + 1) eqn:E.
  - destruct s as [|c s]; [reflexivity|].
    simpl String.length in E. rewrite Z.gtb_ltb in E. apply Z.ltb_lt in E. lia.
  - change (Z.to_nat (2 - 1)) with 1%nat. unfold strings.splitLoop.
    now rewrite (Index_byte_none ":" s Hs).
Qed.

(** ** Programs *)

Lemma same_refl {E : Type -> Type} {A : Type} (p : Prog E A) : p ≅ p.
Proof. induction p; constructor; auto. Qed.

Lemma same_run {E : Type -> Type} {W A : Type} (h : World E W) (p q : Prog E A) :
  p ≅ q -> forall w, run h p w = run h q w.
Proof.
  induction 1 as [a|code|X e k1 k2 _ IH]; intros w; simpl; try reflexivity.
  destruct (h X e w) as [x w1]. now rewrite IH.
Qed.

Lemma run_bind {E : Type -> Type} {W A B : Type}
      (h : World E W) (p : Prog E A) (f : A -> Prog E B) (w : W) :
  run h (bind p f) w =
  match run h p w with
  | (tr, Returned a, w1) =>
      let '(tr2, o, w2) := run h (f a) w1 in ((tr ++ tr2)%list, o, w2)
  | (tr, Exited code, w1) => (tr, Exited code, w1)
  end.
Proof.
  revert w; induction p as [a|code|X e k IH]; intros w; simpl.
  - destruct (run h (f a) w) as [[tr2 o] w2]. reflexivity.
  - reflexivity.
  - destruct (h X e w) as [x w1]. rewrite IH.
    destruct (run h (k x) w1) as [[tr [a|code]] w2]; [|reflexivity].
    destruct (run h (f a) w2) as [[tr2 o] w3]. reflexivity.
Qed.

(** Closes [p ≅ q] when the two sides differ only under their continuations. *)
Ltac same_calls :=
  repeat first
    [ apply same_Ret
    | apply same_Halt
    | apply same_refl
    | apply same_Vis; intros [?|] ].

(** ** Basic credentials *)

Lemma getUserPassword_pair (u p : string) :
  colonFree u ->
  tiller.getUserPasswordFromBasicAuth (u +:+ ":" +:+ p) = (u, p) /\
  tiller_rv.getUserPasswordFromBasicAuth (u +:+ ":" +:+ p) = (u, p).
Proof.
  intros Hu. unfold tiller.getUserPasswordFromBasicAuth,
    tiller_rv.getUserPasswordFromBasicAuth.
  rewrite (SplitN_first_colon u p Hu). split; reflexivity.
Qed.

Lemma getUserPassword_no_colon (s : string) :
  colonFree s ->
  tiller.getUserPasswordFromBasicAuth s = ("", "") /\
  tiller_rv.getUserPasswordFromBasicAuth s = ("", "").
Proof.
  intros Hs. unfold tiller.getUserPasswordFromBasicAuth,
    tiller_rv.getUserPasswordFromBasicAuth.
  rewrite (SplitN_no_colon s Hs). split; reflexivity.
Qed.

Lemma empty_field (u p : string) :
  u = "" \/ p = "" ->
  Nat.eqb (String.length u) 0 || Nat.eqb (String.length p) 0 = true.
Proof.
  intros [-> | ->]; [reflexivity|]. apply orb_true_iff. right. reflexivity.
Qed.

Lemma both_fields (u p : string) :
  u <> "" -> p <> "" ->
  Nat.eqb (String.length u) 0 || Nat.eqb (String.length p) 0 = false.
Proof.
  intros Hu Hp. apply orb_false_iff. split.
  - destruct u; [contradiction | reflexivity].
  - destruct p; [contradiction | reflexivity].
Qed.

Section BasicAuth.

Variable DecodeString : string -> result string.
Variables (ctx : context.Context) (syscfg : rest.Config) (payload : string).

Let header : string := "Basic " +:+ payload.

Lemma checkBasicAuth_undecodable (e : error) :
  DecodeString payload = Err e ->
  tiller_rv.checkBasicAuth DecodeString header syscfg = Ret (tiller_rv.failed e) /\
  tiller.checkBasicAuth DecodeString ctx header syscfg = Ret (Some e).
Proof.
  intros H. unfold tiller_rv.checkBasicAuth, tiller.checkBasicAuth,
    tiller.checkBasicAuth_body, header.
  rewrite (drop_append "Basic " payload). rewrite H. split; reflexivity.
Qed.

Lemma checkBasicAuth_missing_field (s u p : string) :
  DecodeString payload = Ok s ->
  tiller.getUserPasswordFromBasicAuth s = (u, p) ->
  u = "" \/ p = "" ->
  tiller_rv.checkBasicAuth DecodeString header syscfg
    = Ret (tiller_rv.failed (errors.New "Missing username or password.")) /\
  tiller.checkBasicAuth DecodeString ctx header syscfg
    = Ret (Some (errors.New "Missing username or password.")).
Proof.
  intros Hd Hs He. unfold tiller_rv.checkBasicAuth, tiller.checkBasicAuth,
    tiller.checkBasicAuth_body, header.
  rewrite (drop_append "Basic " payload). rewrite Hd.
  change (tiller_rv.getUserPasswordFromBasicAuth s)
    with (tiller.getUserPasswordFromBasicAuth s).
  rewrite Hs, (empty_field u p He). split; reflexivity.
Qed.

Lemma checkBasicAuth_probes (s u p : string) :
  DecodeString payload = Ok s ->
  tiller.getUserPasswordFromBasicAuth s = (u, p) ->
  u <> "" -> p <> "" ->
  tiller_rv.checkBasicAuth DecodeString header syscfg
    ≅ (csErr <- call (NewForConfig (basicConfig syscfg u p)) ;;
       match csErr with
       | Some err => Ret (tiller_rv.failed err)
       | None =>
           probeErr <- call (ServerVersion (basicConfig syscfg u p)) ;;
           match probeErr with
           | Some err => Ret (tiller_rv.failed err)
           | None => Ret (Some (authenticationapi.mkUserInfo u "" []),
                          Some (basicConfig syscfg u p), None)
           end
       end) /\
  tiller.checkBasicAuth DecodeString ctx header syscfg
    ≅ (csErr <- call (ClientSet (kube.New (kube.mkWrapClientConfig (basicConfig syscfg u p)))) ;;
       match csErr with
       | Some err => Ret (Some err)
       | None =>
           probeErr <- call (ServerVersion (basicConfig syscfg u p)) ;;
           match probeErr with
           | Some err => Ret (Some err)
           | None => Ret None
           end
       end).
Proof.
  intros Hd Hs Hu Hp. unfold tiller_rv.checkBasicAuth, tiller.checkBasicAuth,
    tiller.checkBasicAuth_body, header.
  rewrite (drop_append "Basic " payload). rewrite Hd.
  change (tiller_rv.getUserPasswordFromBasicAuth s)
    with (tiller.getUserPasswordFromBasicAuth s).
  rewrite Hs, (both_fields u p Hu Hp).
  split; simpl; same_calls.
Qed.

End BasicAuth.

Lemma checkBasicAuth_probe_failure
      (DecodeString : string -> result string) (ctx : context.Context)
      (syscfg : rest.Config) (payload s u p : string)
      (W : Type) (h : World gatewayE W) (w w1 w2 : W) (err : error) :
  DecodeString payload = Ok s ->
  tiller.getUserPasswordFromBasicAuth s = (u, p) ->
  u <> "" -> p <> "" ->
  (h _ (NewForConfig (basicConfig syscfg u p)) w = (None, w1) ->
   h _ (ServerVersion (basicConfig syscfg u p)) w1 = (Some err, w2) ->
   run h (tiller_rv.checkBasicAuth DecodeString ("Basic " +:+ payload) syscfg) w
   = ([event (NewForConfig (basicConfig syscfg u p));
       event (ServerVersion (basicConfig syscfg u p))],
      Returned (tiller_rv.failed err), w2)) /\
  (h _ (ClientSet (kube.New (kube.mkWrapClientConfig (basicConfig syscfg u p)))) w = (None, w1) ->
   h _ (ServerVersion (basicConfig syscfg u p)) w1 = (Some err, w2) ->
   run h (tiller.checkBasicAuth DecodeString ctx ("Basic " +:+ payload) syscfg) w
   = ([event (ClientSet (kube.New (kube.mkWrapClientConfig (basicConfig syscfg u p))));
       event (ServerVersion (basicConfig syscfg u p))],
      Returned (Some err), w2)).
Proof.
  intros Hd Hs Hu Hp.
  destruct (checkBasicAuth_probes DecodeString ctx syscfg payload s u p Hd Hs Hu Hp)
    as [Hrv Hcv].
  split; intros H1 H2.
  - rewrite (same_run h _ _ Hrv). simpl. rewrite H1. simpl. rewrite H2. reflexivity.
  - rewrite (same_run h _ _ Hcv). simpl. rewrite H1. simpl. rewrite H2. reflexivity.
Qed.

(** C5. A basic-auth header whose payload does not decode, or decodes to an
    empty user name or an empty password, makes checkBasicAuth return an
    error and no identity without calling the cluster. Otherwise
    checkBasicAuth builds the user client configuration that carries the two
    credentials, makes a client set for it and asks it for the server
    version; an error of either call is returned, with no identity, and only
    when both succeed is the identity returned. Both revisions of the
    gateway are covered. *)
Theorem basic_auth_verification
        (DecodeString : string -> result string) (ctx : context.Context)
        (syscfg : rest.Config) (payload : string) :
  (forall e, DecodeString payload = Err e ->
     tiller_rv.checkBasicAuth DecodeString ("Basic " +:+ payload) syscfg
       = Ret (tiller_rv.failed e) /\
     tiller.checkBasicAuth DecodeString ctx ("Basic " +:+ payload) syscfg = Ret (Some e)) /\
  (forall s u p,
     DecodeString payload = Ok s ->
     tiller.getUserPasswordFromBasicAuth s = (u, p) ->
     u = "" \/ p = "" ->
     tiller_rv.checkBasicAuth DecodeString ("Basic " +:+ payload) syscfg
       = Ret (tiller_rv.failed (errors.New "Missing username or password.")) /\
     tiller.checkBasicAuth DecodeString ctx ("Basic " +:+ payload) syscfg
       = Ret (Some (errors.New "Missing username or password."))) /\
  (forall s u p,
     DecodeString payload = Ok s ->
     tiller.getUserPasswordFromBasicAuth s = (u, p) ->
     u <> "" -> p <> "" ->
     rest.Username (basicConfig syscfg u p) = u /\
     rest.Password (basicConfig syscfg u p) = p /\
     tiller_rv.checkBasicAuth DecodeString ("Basic " +:+ payload) syscfg
       ≅ (csErr <- call (NewForConfig (basicConfig syscfg u p)) ;;
          match csErr with
          | Some err => Ret (tiller_rv.failed err)
          | None =>
              probeErr <- call (ServerVersion (basicConfig syscfg u p)) ;;
              match probeErr with
              | Some err => Ret (tiller_rv.failed err)
              | None => Ret (Some (authenticationapi.mkUserInfo u "" []),
                             Some (basicConfig syscfg u p), None)
              end
          end) /\
     tiller.checkBasicAuth DecodeString ctx ("Basic " +:+ payload) syscfg
       ≅ (csErr <- call (ClientSet (kube.New (kube.mkWrapClientConfig
                                                (basicConfig syscfg u p)))) ;;
          match csErr with
          | Some err => Ret (Some err)
          | None =>
              probeErr <- call (ServerVersion (basicConfig syscfg u p)) ;;
              match probeErr with
              | Some err => Ret (Some err)
              | None => Ret None
              end
          end) /\
     forall (W : Type) (h : World gatewayE W) (w w1 w2 : W) (err : error),
       (h _ (NewForConfig (basicConfig syscfg u p)) w = (None, w1) ->
        h _ (ServerVersion (basicConfig syscfg u p)) w1 = (Some err, w2) ->
        run h (tiller_rv.checkBasicAuth DecodeString ("Basic " +:+ payload) syscfg) w
        = ([event (NewForConfig (basicConfig syscfg u p));
            event (ServerVersion (basicConfig syscfg u p))],
           Returned (tiller_rv.failed err), w2)) /\
       (h _ (ClientSet (kube.New (kube.mkWrapClientConfig (basicConfig syscfg u p)))) w
          = (None, w1) ->
        h _ (ServerVersion (basicConfig syscfg u p)) w1 = (Some err, w2) ->
        run h (tiller.checkBasicAuth DecodeString ctx ("Basic " +:+ payload) syscfg) w
        = ([event (ClientSet (kube.New (kube.mkWrapClientConfig (basicConfig syscfg u p))));
            event (ServerVersion (basicConfig syscfg u p))],
           Returned (Some err), w2))).
Proof.
  split; [|split].
  - intros e H. exact (checkBasicAuth_undecodable DecodeString ctx syscfg payload e H).
  - intros s u p Hd Hs He.
    exact (checkBasicAuth_missing_field DecodeString ctx syscfg payload s u p Hd Hs He).
  - intros s u p Hd Hs Hu Hp.
    destruct (checkBasicAuth_probes DecodeString ctx syscfg payload s u p Hd Hs Hu Hp)
      as [Hrv Hcv].
    repeat split; try assumption;
      intros; eapply checkBasicAuth_probe_failure; eauto.
Qed.

(** A payload that is not base64, the payload of "admin:", and the payload
    of "admin:s3cret" against a cluster that rejects the probe. *)
Lemma basic_auth_verification_witness :
  tiller_rv.checkBasicAuth base64.DecodeString "Basic !!!!" sample.syscfg
    = Ret (tiller_rv.failed (CorruptInputError 0)) /\
  tiller_rv.checkBasicAuth base64.DecodeString "Basic YWRtaW46" sample.syscfg
    = Ret (tiller_rv.failed (errors.New "Missing username or password.")) /\
  run sample.rejecting
      (tiller_rv.checkBasicAuth base64.DecodeString "Basic YWRtaW46czNjcmV0" sample.syscfg) 0%nat
    = ([event (NewForConfig (basicConfig sample.syscfg "admin" "s3cret"));
        event (ServerVersion (basicConfig sample.syscfg "admin" "s3cret"))],
       Returned (tiller_rv.failed sample.unauthorized), 2%nat).
Proof.
  split; [|split].
  - apply (basic_auth_verification base64.DecodeString sample.ctxBasic sample.syscfg "!!!!").
    reflexivity.
  - apply (proj1 (proj2 (basic_auth_verification
                           base64.DecodeString sample.ctxBasic sample.syscfg "YWRtaW46"))
             "admin:" "admin" "").
    + reflexivity.
    + reflexivity.
    + right. reflexivity.
  - destruct (proj2 (proj2 (basic_auth_verification
                              base64.DecodeString sample.ctxBasic sample.syscfg
                              "YWRtaW46czNjcmV0"))
                "admin:s3cret" "admin" "s3cret" eq_refl eq_refl
                ltac:(discriminate) ltac:(discriminate))
      as (_ & _ & _ & _ & Hrun).
    apply (proj1 (Hrun nat sample.rejecting 0%nat 1%nat 2%nat sample.unauthorized));
      reflexivity.
Defined.

(** C10. getUserPasswordFromBasicAuth cuts its argument at the first colon:
    a user name without colon and any password, joined by a colon, come back
    unchanged; a payload without colon yields two empty strings, on which
    checkBasicAuth answers "Missing username or password." *)
Theorem basic_credentials_split_at_first_colon
        (DecodeString : string -> result string) (ctx : context.Context)
        (syscfg : rest.Config) (u p s payload : string)
        (Hu : colonFree u) (Hs : colonFree s)
        (Hdecoded : DecodeString payload = Ok s) :
  tiller.getUserPasswordFromBasicAuth (u +:+ ":" +:+ p) = (u, p) /\
  tiller_rv.getUserPasswordFromBasicAuth (u +:+ ":" +:+ p) = (u, p) /\
  tiller.getUserPasswordFromBasicAuth s = ("", "") /\
  tiller_rv.getUserPasswordFromBasicAuth s = ("", "") /\
  tiller.checkBasicAuth DecodeString ctx ("Basic " +:+ payload) syscfg
    = Ret (Some (errors.New "Missing username or password.")) /\
  tiller_rv.checkBasicAuth DecodeString ("Basic " +:+ payload) syscfg
    = Ret (tiller_rv.failed (errors.New "Missing username or password.")).
Proof.
  destruct (getUserPassword_pair u p Hu) as [H1 H2].
  destruct (getUserPassword_no_colon s Hs) as [H3 H4].
  destruct (checkBasicAuth_missing_field DecodeString ctx syscfg payload s "" ""
              Hdecoded H3 (or_introl eq_refl)) as [H5 H6].
  repeat split; assumption.
Qed.

(** "admin:s3:cr:et" and the colon-free payload "admin". *)
Lemma basic_credentials_split_at_first_colon_witness :
  tiller.getUserPasswordFromBasicAuth "admin:s3:cr:et" = ("admin", "s3:cr:et") /\
  tiller_rv.getUserPasswordFromBasicAuth "admin:s3:cr:et" = ("admin", "s3:cr:et") /\
  tiller.getUserPasswordFromBasicAuth "admin" = ("", "") /\
  tiller_rv.getUserPasswordFromBasicAuth "admin" = ("", "") /\
  tiller.checkBasicAuth base64.DecodeString sample.ctxBasic "Basic YWRtaW4=" sample.syscfg
    = Ret (Some (errors.New "Missing username or password.")) /\
  tiller_rv.checkBasicAuth base64.DecodeString "Basic YWRtaW4=" sample.syscfg
    = Ret (tiller_rv.failed (errors.New "Missing username or password.")).
Proof.
  apply (basic_credentials_split_at_first_colon
           base64.DecodeString sample.ctxBasic sample.syscfg
           "admin" "s3:cr:et" "admin" "YWRtaW4=").
  - unfold colonFree. simpl. intuition discriminate.
  - unfold colonFree. simpl. intuition discriminate.
  - reflexivity.
Defined.

(** ** The client-certificate verifier *)

Lemma set_Impersonate_impersonates (cn : string) (syscfg : rest.Config) :
  impersonates (rest.set_Impersonate cn syscfg) syscfg cn.
Proof. unfold impersonates. repeat split. Qed.

(** C4. checkClientCert fails, with an error and no identity, when the
    context holds no peer, when the peer's authentication info is not TLS
    info, and when the verified chains hold no leaf certificate. Otherwise the
    user name it derives is the subject common name of the first certificate
    of the first verified chain, and the user client configuration is the
    system configuration with the impersonation field set to that name; in
    server.go these are the values the verifier files in its context. *)
Theorem client_certificate_verifier (ctx : context.Context) (syscfg : rest.Config) :
  (peerctx.FromContext ctx = None ->
     tiller_rv.checkClientCert ctx syscfg = tiller_rv.failed (errors.New "No peer found!") /\
     tiller.checkClientCert ctx syscfg = Some (errors.New "No peer found!")) /\
  (forall p,
     peerctx.FromContext ctx = Some p ->
     (forall st, peer.AuthInfo p <> credentials.TLSInfo st) ->
     tiller_rv.checkClientCert ctx syscfg
       = tiller_rv.failed (errors.New "No TLS credential found!") /\
     tiller.checkClientCert ctx syscfg = Some (errors.New "No TLS credential found!")) /\
  (forall p st,
     peerctx.FromContext ctx = Some p ->
     peer.AuthInfo p = credentials.TLSInfo st ->
     noLeaf (credentials.VerifiedChains st) ->
     tiller_rv.checkClientCert ctx syscfg
       = tiller_rv.failed (errors.New "No verified client certificate found!") /\
     tiller.checkClientCert ctx syscfg
       = Some (errors.New "No verified client certificate found!")) /\
  (forall p st c chain chains,
     peerctx.FromContext ctx = Some p ->
     peer.AuthInfo p = credentials.TLSInfo st ->
     credentials.VerifiedChains st = (c :: chain) :: chains ->
     exists user usrcfg,
       authenticationapi.Username user = credentials.Subject_CommonName c /\
       impersonates usrcfg syscfg (credentials.Subject_CommonName c) /\
       tiller_rv.checkClientCert ctx syscfg = (Some user, Some usrcfg, None) /\
       tiller.checkClientCert ctx syscfg = None /\
       let filed := fst (tiller.checkClientCert_body ctx syscfg) in
       context.Value filed (context.kubeKey kube.UserInfo)
         = Some (context.AnyUserInfo user) /\
       context.Value filed (context.kubeKey kube.UserClient)
         = Some (context.AnyClient (kube.New (kube.mkWrapClientConfig usrcfg))) /\
       context.Value filed (context.kubeKey kube.SystemClient)
         = Some (context.AnyClient (kube.New (kube.mkWrapClientConfig syscfg))) /\
       context.Value filed (context.kubeKey kube.ImpersonateUser)
         = Some context.AnyEmptyStruct).
Proof.
  unfold tiller_rv.checkClientCert, tiller.checkClientCert, tiller.checkClientCert_body.
  repeat split.
  - now rewrite H.
  - now rewrite H.
  - rewrite H. destruct (peer.AuthInfo p) as [|st|t]; try reflexivity.
    now destruct (H0 st).
  - rewrite H. destruct (peer.AuthInfo p) as [|st|t]; try reflexivity.
    now destruct (H0 st).
  - rewrite H, H0. destruct H1 as [-> | [others ->]]; reflexivity.
  - rewrite H, H0. destruct H1 as [-> | [others ->]]; reflexivity.
  - intros p st c chain chains Hp Hst Hch. rewrite Hp, Hst, Hch.
    exists (authenticationapi.mkUserInfo (credentials.Subject_CommonName c) "" []),
      (rest.set_Impersonate (credentials.Subject_CommonName c) syscfg).
    split; [reflexivity|]. split; [apply set_Impersonate_impersonates|].
    repeat split.
Qed.

(** A peer without TLS info, a peer with an empty verified chain, a context
    without peer, and the peer that presents alice's certificate. *)
Lemma client_certificate_verifier_witness :
  tiller_rv.checkClientCert sample.ctxBearer sample.syscfg
    = tiller_rv.failed (errors.New "No TLS credential found!") /\
  tiller_rv.checkClientCert (sample.transport sample.emptyChainPeer sample.mdCurrent)
                            sample.syscfg
    = tiller_rv.failed (errors.New "No verified client certificate found!") /\
  tiller_rv.checkClientCert (metadata.NewContext context.Background sample.mdCurrent)
                            sample.syscfg
    = tiller_rv.failed (errors.New "No peer found!") /\
  exists user usrcfg,
    authenticationapi.Username user = "alice" /\
    impersonates usrcfg sample.syscfg "alice" /\
    tiller_rv.checkClientCert sample.ctxCert sample.syscfg = (Some user, Some usrcfg, None).
Proof.
  split; [|split; [|split]].
  - apply (proj1 (proj2 (client_certificate_verifier sample.ctxBearer sample.syscfg))
             sample.plainPeer); [reflexivity | discriminate].
  - apply (proj1 (proj2 (proj2 (client_certificate_verifier
                                  (sample.transport sample.emptyChainPeer sample.mdCurrent)
                                  sample.syscfg)))
             sample.emptyChainPeer (credentials.mkConnectionState [[]]));
      [reflexivity | reflexivity | right; exists []; reflexivity].
  - apply (proj1 (client_certificate_verifier
                    (metadata.NewContext context.Background sample.mdCurrent)
                    sample.syscfg)).
    reflexivity.
  - destruct (proj2 (proj2 (proj2 (client_certificate_verifier sample.ctxCert sample.syscfg)))
                sample.tlsPeer (credentials.mkConnectionState [[sample.alice]])
                sample.alice [] [] eq_refl eq_refl eq_refl)
      as (user & usrcfg & Hname & Himp & Hrv & _).
    exists user, usrcfg. repeat split; try assumption; apply Himp.
Defined.

(** ** Dispatch on the authorization header *)

Section Dispatch.

Variable DecodeString : string -> result string.
Variables (ctx : context.Context) (syscfg : rest.Config).

Lemma authenticate_no_metadata :
  metadata.FromContext ctx = None ->
  tiller.authenticate DecodeString ctx syscfg
  = Ret (context.nil, Some (errors.New "Missing metadata in context.")).
Proof. intros H. unfold tiller.authenticate. now rewrite H. Qed.

Lemma authenticate_certificate (md : MD) :
  metadata.FromContext ctx = Some md ->
  noAuthorization md ->
  tiller.authenticate DecodeString ctx syscfg
  = Ret (ctx, tiller.checkClientCert ctx syscfg).
Proof.
  intros H Hno. unfold tiller.authenticate. rewrite H.
  destruct Hno as [-> | [-> | [others ->]]]; reflexivity.
Qed.

Lemma authenticate_bearer (md : MD) (token : string) (others : list string) :
  metadata.FromContext ctx = Some md ->
  md !! kube.Authorization = Some (("Bearer " +:+ token) :: others) ->
  tiller.authenticate DecodeString ctx syscfg
  = (err <- tiller.checkBearerAuth ctx ("Bearer " +:+ token) syscfg ;; Ret (ctx, err)).
Proof.
  intros H Hh. unfold tiller.authenticate. rewrite H, Hh.
  replace (String.eqb ("Bearer " +:+ token) "") with false by reflexivity.
  unfold strings.HasPrefix at 1. now rewrite prefix_append.
Qed.

Lemma authenticate_basic (md : MD) (payload : string) (others : list string) :
  metadata.FromContext ctx = Some md ->
  md !! kube.Authorization = Some (("Basic " +:+ payload) :: others) ->
  tiller.authenticate DecodeString ctx syscfg
  = (err <- tiller.checkBasicAuth DecodeString ctx ("Basic " +:+ payload) syscfg ;;
     Ret (ctx, err)).
Proof.
  intros H Hh. unfold tiller.authenticate. rewrite H, Hh.
  replace (String.eqb ("Basic " +:+ payload) "") with false by reflexivity.
  replace (strings.HasPrefix ("Basic " +:+ payload) "Bearer ") with false by reflexivity.
  unfold strings.HasPrefix. now rewrite prefix_append.
Qed.

Lemma authenticate_unknown (md : MD) (h : string) (others : list string) :
  metadata.FromContext ctx = Some md ->
  md !! kube.Authorization = Some (h :: others) ->
  h <> "" ->
  (forall token, h <> "Bearer " +:+ token) ->
  (forall payload, h <> "Basic " +:+ payload) ->
  tiller.authenticate DecodeString ctx syscfg
  = Ret (context.nil, Some (errors.New "Unknown authorization scheme.")).
Proof.
  intros H Hh Hne Hbearer Hbasic. unfold tiller.authenticate. rewrite H, Hh.
  rewrite (HasPrefix_false h "Bearer " Hbearer), (HasPrefix_false h "Basic " Hbasic).
  destruct (String.eqb_spec h ""); [contradiction | reflexivity].
Qed.

End Dispatch.

(** C3. authenticate decides on the header material alone, and its cases
    leave nothing out. Without metadata in the context it returns "Missing
    metadata in context." and calls nothing. With metadata: an authorization
    header that is absent, has no value or has an empty first value hands the
    call to checkClientCert; a first value that starts with "Bearer " hands
    it to checkBearerAuth, one that starts with "Basic " to checkBasicAuth;
    every other non-empty first value is answered "Unknown authorization
    scheme." and calls nothing. *)
Theorem authentication_dispatch
        (DecodeString : string -> result string)
        (ctx : context.Context) (syscfg : rest.Config) :
  (metadata.FromContext ctx = None ->
     tiller.authenticate DecodeString ctx syscfg
     = Ret (context.nil, Some (errors.New "Missing metadata in context."))) /\
  (forall md,
     metadata.FromContext ctx = Some md ->
     noAuthorization md ->
     tiller.authenticate DecodeString ctx syscfg
     = Ret (ctx, tiller.checkClientCert ctx syscfg)) /\
  (forall md token others,
     metadata.FromContext ctx = Some md ->
     md !! kube.Authorization = Some (("Bearer " +:+ token) :: others) ->
     tiller.authenticate DecodeString ctx syscfg
     = (err <- tiller.checkBearerAuth ctx ("Bearer " +:+ token) syscfg ;; Ret (ctx, err))) /\
  (forall md payload others,
     metadata.FromContext ctx = Some md ->
     md !! kube.Authorization = Some (("Basic " +:+ payload) :: others) ->
     tiller.authenticate DecodeString ctx syscfg
     = (err <- tiller.checkBasicAuth DecodeString ctx ("Basic " +:+ payload) syscfg ;;
        Ret (ctx, err))) /\
  (forall md h others,
     metadata.FromContext ctx = Some md ->
     md !! kube.Authorization = Some (h :: others) ->
     h <> "" ->
     (forall token, h <> "Bearer " +:+ token) ->
     (forall payload, h <> "Basic " +:+ payload) ->
     tiller.authenticate DecodeString ctx syscfg
     = Ret (context.nil, Some (errors.New "Unknown authorization scheme."))) /\
  (metadata.FromContext ctx = None \/
   exists md, metadata.FromContext ctx = Some md /\
     (noAuthorization md \/
      exists h others, md !! kube.Authorization = Some (h :: others) /\ h <> "" /\
        ((exists token, h = "Bearer " +:+ token) \/
         (exists payload, h = "Basic " +:+ payload) \/
         ((forall token, h <> "Bearer " +:+ token) /\
          (forall payload, h <> "Basic " +:+ payload))))).
Proof.
  split; [apply authenticate_no_metadata|].
  split; [apply authenticate_certificate|].
  split; [apply authenticate_bearer|].
  split; [apply authenticate_basic|].
  split; [apply authenticate_unknown|].
  destruct (metadata.FromContext ctx) as [md|]; [right | left; reflexivity].
  exists md. split; [reflexivity|]. unfold noAuthorization.
  destruct (md !! kube.Authorization) as [[|h others]|] eqn:E; [auto | | auto].
  destruct (String.eqb_spec h "") as [->|Hne]; [left; right; right; eauto|].
  right. exists h, others. split; [reflexivity|]. split; [exact Hne|].
  destruct (strings.HasPrefix h "Bearer ") eqn:Hb.
  { left. now apply HasPrefix_true. }
  destruct (strings.HasPrefix h "Basic ") eqn:Hc.
  { right; left. now apply HasPrefix_true. }
  right; right. split; intros t ->.
  - rewrite (proj2 (HasPrefix_true _ _)) in Hb; [discriminate | eauto].
  - rewrite (proj2 (HasPrefix_true _ _)) in Hc; [discriminate | eauto].
Qed.

(** One call for each of the five cases. *)
Lemma authentication_dispatch_witness :
  tiller.authenticate base64.DecodeString sample.ctxNoMetadata sample.syscfg
    = Ret (context.nil, Some (errors.New "Missing metadata in context.")) /\
  tiller.authenticate base64.DecodeString sample.ctxCert sample.syscfg
    = Ret (sample.ctxCert, tiller.checkClientCert sample.ctxCert sample.syscfg) /\
  tiller.authenticate base64.DecodeString sample.ctxBearer sample.syscfg
    = (err <- tiller.checkBearerAuth sample.ctxBearer "Bearer abc123" sample.syscfg ;;
       Ret (sample.ctxBearer, err)) /\
  tiller.authenticate base64.DecodeString sample.ctxBasic sample.syscfg
    = (err <- tiller.checkBasicAuth base64.DecodeString sample.ctxBasic
                "Basic YWRtaW46czNjcmV0" sample.syscfg ;;
       Ret (sample.ctxBasic, err)) /\
  tiller.authenticate base64.DecodeString sample.ctxDigest sample.syscfg
    = Ret (context.nil, Some (errors.New "Unknown authorization scheme.")).
Proof.
  split; [|split; [|split; [|split]]].
  - apply (authentication_dispatch base64.DecodeString sample.ctxNoMetadata sample.syscfg).
    reflexivity.
  - apply (proj1 (proj2 (authentication_dispatch
                           base64.DecodeString sample.ctxCert sample.syscfg))
             sample.mdCurrent); [reflexivity | left; reflexivity].
  - apply (proj1 (proj2 (proj2 (authentication_dispatch
                                  base64.DecodeString sample.ctxBearer sample.syscfg)))
             (sample.mdWith "Bearer abc123") "abc123" []); reflexivity.
  - apply (proj1 (proj2 (proj2 (proj2 (authentication_dispatch
                                         base64.DecodeString sample.ctxBasic sample.syscfg))))
             (sample.mdWith "Basic YWRtaW46czNjcmV0") "YWRtaW46czNjcmV0" []); reflexivity.
  - apply (proj1 (proj2 (proj2 (proj2 (proj2 (authentication_dispatch
                                                base64.DecodeString sample.ctxDigest
                                                sample.syscfg)))))
             (sample.mdWith "Digest abc") "Digest abc" []);
      [reflexivity | reflexivity | discriminate | discriminate | discriminate].
Defined.

(** ** The version gate of the interceptors *)

Section VersionGate.

Variable DecodeString : string -> result string.
Variable IsCompatible : string -> string -> bool.
Variable Version : string.
Variable syscfg : rest.Config.

Lemma checkClientVersion_incompatible (ctx : context.Context) :
  IsCompatible (tiller.versionFromContext ctx) Version = false ->
  tiller.checkClientVersion IsCompatible Version ctx = Some (versionMismatch Version ctx).
Proof. intros H. unfold tiller.checkClientVersion. now rewrite H. Qed.

Lemma unary_rejects_incompatible
      (ctx : context.Context) (req : Payload)
      (info : grpc.UnaryServerInfo) (handler : grpc.UnaryHandler) :
  IsCompatible (tiller.versionFromContext ctx) Version = false ->
  snd (tiller.splitMethod (grpc.FullMethod info)) <> "GetVersion" ->
  tiller.newUnaryInterceptor DecodeString IsCompatible Version syscfg ctx req info handler
  = (call (Println (versionMismatch Version ctx)) ;;;
     Ret (None, Some (versionMismatch Version ctx))).
Proof.
  intros Hv Hm. unfold tiller.newUnaryInterceptor.
  rewrite (checkClientVersion_incompatible ctx Hv).
  destruct (String.eqb_spec (snd (tiller.splitMethod (grpc.FullMethod info))) "GetVersion");
    [contradiction | reflexivity].
Qed.

Lemma unary_exempts_GetVersion
      (ctx : context.Context) (req : Payload)
      (info : grpc.UnaryServerInfo) (handler : grpc.UnaryHandler) :
  snd (tiller.splitMethod (grpc.FullMethod info)) = "GetVersion" ->
  tiller.newUnaryInterceptor DecodeString IsCompatible Version syscfg ctx req info handler
  = (r <- tiller.authenticate DecodeString ctx syscfg ;;
     match snd r with
     | Some err => call (Println err) ;;; Ret (None, Some err)
     | None => handler (fst r) req
     end).
Proof.
  intros Hm. unfold tiller.newUnaryInterceptor. rewrite Hm.
  destruct (tiller.checkClientVersion IsCompatible Version ctx); reflexivity.
Qed.

Lemma stream_rejects_incompatible
      (srv : Payload) (ss : grpc.ServerStream)
      (info : grpc.StreamServerInfo) (handler : grpc.StreamHandler) :
  IsCompatible (tiller.versionFromContext (grpc.Context ss)) Version = false ->
  tiller.newStreamInterceptor DecodeString IsCompatible Version syscfg srv ss info handler
  = (call (Println (versionMismatch Version (grpc.Context ss))) ;;;
     Ret (Some (versionMismatch Version (grpc.Context ss)))).
Proof.
  intros Hv. unfold tiller.newStreamInterceptor.
  now rewrite (checkClientVersion_incompatible (grpc.Context ss) Hv).
Qed.

End VersionGate.

(** C2, as the code has it. A unary call whose client version is
    incompatible is refused with the version error, and its handler is not
    entered, unless the method that splitMethod reads off the full method
    name is GetVersion; for GetVersion the interceptor goes on to
    authentication exactly as for a compatible client. A streaming call whose
    client version is incompatible is refused with the version error whatever
    its method: the stream interceptor has no exemption. *)
Theorem version_gate
        (DecodeString : string -> result string)
        (IsCompatible : string -> string -> bool) (Version : string)
        (syscfg : rest.Config)
        (ctx : context.Context) (req : Payload)
        (info : grpc.UnaryServerInfo) (handler : grpc.UnaryHandler)
        (srv : Payload) (ss : grpc.ServerStream)
        (sinfo : grpc.StreamServerInfo) (shandler : grpc.StreamHandler)
        (Hunary : IsCompatible (tiller.versionFromContext ctx) Version = false)
        (Hstream : IsCompatible (tiller.versionFromContext (grpc.Context ss)) Version = false) :
  (snd (tiller.splitMethod (grpc.FullMethod info)) <> "GetVersion" ->
   tiller.newUnaryInterceptor DecodeString IsCompatible Version syscfg ctx req info handler
   = (call (Println (versionMismatch Version ctx)) ;;;
      Ret (None, Some (versionMismatch Version ctx)))) /\
  (snd (tiller.splitMethod (grpc.FullMethod info)) = "GetVersion" ->
   tiller.newUnaryInterceptor DecodeString IsCompatible Version syscfg ctx req info handler
   = (r <- tiller.authenticate DecodeString ctx syscfg ;;
      match snd r with
      | Some err => call (Println err) ;;; Ret (None, Some err)
      | None => handler (fst r) req
      end)) /\
  tiller.newStreamInterceptor DecodeString IsCompatible Version syscfg srv ss sinfo shandler
  = (call (Println (versionMismatch Version (grpc.Context ss))) ;;;
     Ret (Some (versionMismatch Version (grpc.Context ss)))).
Proof.
  split; [|split].
  - now apply unary_rejects_incompatible.
  - now apply unary_exempts_GetVersion.
  - now apply stream_rejects_incompatible.
Qed.

(** A client that sends no version: ListReleases and GetVersion through the
    unary interceptor, ListReleases through the stream interceptor. *)
Lemma version_gate_witness :
  tiller.newUnaryInterceptor base64.DecodeString sample.IsCompatible sample.Version
    sample.syscfg sample.ctxOldClient "req"
    (grpc.mkUnaryServerInfo sample.listReleases) grpc.serve
  = (call (Println (versionMismatch sample.Version sample.ctxOldClient)) ;;;
     Ret (None, Some (versionMismatch sample.Version sample.ctxOldClient))) /\
  tiller.newUnaryInterceptor base64.DecodeString sample.IsCompatible sample.Version
    sample.syscfg sample.ctxOldClient "req"
    (grpc.mkUnaryServerInfo sample.getVersion) grpc.serve
  = (r <- tiller.authenticate base64.DecodeString sample.ctxOldClient sample.syscfg ;;
     match snd r with
     | Some err => call (Println err) ;;; Ret (None, Some err)
     | None => grpc.serve (fst r) "req"
     end) /\
  tiller.newStreamInterceptor base64.DecodeString sample.IsCompatible sample.Version
    sample.syscfg "srv" (grpc.wire sample.ctxOldClient)
    (grpc.mkStreamServerInfo sample.listReleases false true) grpc.serveStream
  = (call (Println (versionMismatch sample.Version sample.ctxOldClient)) ;;;
     Ret (Some (versionMismatch sample.Version sample.ctxOldClient))).
Proof.
  split; [|split].
  - apply (version_gate base64.DecodeString sample.IsCompatible sample.Version
             sample.syscfg sample.ctxOldClient "req"
             (grpc.mkUnaryServerInfo sample.listReleases) grpc.serve
             "srv" (grpc.wire sample.ctxOldClient)
             (grpc.mkStreamServerInfo sample.listReleases false true) grpc.serveStream
             eq_refl eq_refl).
    discriminate.
  - apply (version_gate base64.DecodeString sample.IsCompatible sample.Version
             sample.syscfg sample.ctxOldClient "req"
             (grpc.mkUnaryServerInfo sample.getVersion) grpc.serve
             "srv" (grpc.wire sample.ctxOldClient)
             (grpc.mkStreamServerInfo sample.listReleases false true) grpc.serveStream
             eq_refl eq_refl).
    reflexivity.
  - apply (version_gate base64.DecodeString sample.IsCompatible sample.Version
             sample.syscfg sample.ctxOldClient "req"
             (grpc.mkUnaryServerInfo sample.listReleases) grpc.serve
             "srv" (grpc.wire sample.ctxOldClient)
             (grpc.mkStreamServerInfo sample.listReleases false true) grpc.serveStream
             eq_refl eq_refl).
Defined.

(** C2 as stated fails on streaming calls: a streaming call to a method
    named GetVersion from a client that sends no version is refused with the
    version error, and its handler is not entered; the same call through the
    unary interceptor reaches the handler. *)
Lemma stream_GetVersion_not_exempt :
  snd (tiller.splitMethod
         (grpc.StreamFullMethod (grpc.mkStreamServerInfo sample.getVersion false true)))
    = "GetVersion" /\
  sample.IsCompatible (tiller.versionFromContext sample.ctxOldClient) sample.Version = false /\
  run sample.accepting
      (tiller.newStreamInterceptor base64.DecodeString sample.IsCompatible sample.Version
         sample.syscfg "srv" (grpc.wire sample.ctxOldClient)
         (grpc.mkStreamServerInfo sample.getVersion false true) grpc.serveStream) 0%nat
    = ([event (Println (errorString "incompatible versions client:  server: v2.2.0"))],
       Returned (Some (errorString "incompatible versions client:  server: v2.2.0")),
       1%nat) /\
  run sample.accepting
      (tiller.newUnaryInterceptor base64.DecodeString sample.IsCompatible sample.Version
         sample.syscfg sample.ctxOldClient "req"
         (grpc.mkUnaryServerInfo sample.getVersion) grpc.serve) 0%nat
    = ([event (Serve sample.ctxOldClient "req")], Returned (Some "done", None), 1%nat).
Proof. repeat split. Qed.

(** ** The context the handler is entered with *)

Lemma run_Ret_inv {E : Type -> Type} {W A : Type}
      (h : World E W) (a b : A) (w w' : W) (tr : list (Event E)) :
  run h (Ret a) w = (tr, Returned b, w') -> a = b.
Proof. simpl. congruence. Qed.

Lemma run_bind_Ret_inv {E : Type -> Type} {W A B : Type}
      (h : World E W) (p : Prog E A) (f : A -> B) (b : B) (w w' : W)
      (tr : list (Event E)) :
  run h (x <- p ;; Ret (f x)) w = (tr, Returned b, w') ->
  exists a, b = f a.
Proof.
  rewrite run_bind. destruct (run h p w) as [[tr1 [a|code]] w1]; simpl.
  - intros H. exists a. congruence.
  - congruence.
Qed.

(** In server.go a successful authenticate returns the context it was given:
    what the verifiers file stays in their own local variable. *)
Lemma authenticate_keeps_context
      (DecodeString : string -> result string) (ctx ctx' : context.Context)
      (syscfg : rest.Config) (W : Type) (h : World gatewayE W) (w w' : W)
      (tr : list (Event gatewayE)) :
  run h (tiller.authenticate DecodeString ctx syscfg) w = (tr, Returned (ctx', None), w') ->
  ctx' = ctx.
Proof.
  unfold tiller.authenticate.
  destruct (metadata.FromContext ctx) as [md|];
    [|intros H; apply run_Ret_inv in H; discriminate].
  destruct (md !! kube.Authorization) as [[|h0 others]|];
    try (intros H; apply run_Ret_inv in H; congruence).
  destruct (String.eqb h0 ""); [intros H; apply run_Ret_inv in H; congruence|].
  destruct (strings.HasPrefix h0 "Bearer ").
  { intros H. apply (run_bind_Ret_inv h _ (fun err => (ctx, err))) in H as [a Ha].
    congruence. }
  destruct (strings.HasPrefix h0 "Basic ").
  { intros H. apply (run_bind_Ret_inv h _ (fun err => (ctx, err))) in H as [a Ha].
    congruence. }
  intros H; apply run_Ret_inv in H; discriminate.
Qed.

(** In the earlier revision a successful authenticate extends the context
    by the verifier's identity, its user client configuration and the system
    configuration, and by nothing else: no impersonation flag is filed. *)
Lemma rv_fileVerdict_success
      (ctx ctx' : context.Context) (syscfg : rest.Config) (v : tiller_rv.Verdict) :
  tiller_rv.fileVerdict ctx syscfg v = (ctx', None) ->
  exists user usrcfg,
    v = (user, usrcfg, None) /\
    ctx' = context.WithValue
             (context.WithValue
                (context.WithValue ctx (context.kubeKey kube.UserInfo)
                                   (tiller_rv.anyUserInfo user))
                (context.kubeKey kube.UserClientConfig) (tiller_rv.anyConfig usrcfg))
             (context.kubeKey kube.SystemClientConfig) (context.AnyConfig syscfg).
Proof.
  destruct v as [[user usrcfg] [e|]]; simpl; intros H; [discriminate|].
  exists user, usrcfg. split; congruence.
Qed.

Lemma rv_authenticate_files_identity
      (DecodeString : string -> result string) (ctx ctx' : context.Context)
      (syscfg : rest.Config) (W : Type) (h : World gatewayE W) (w w' : W)
      (tr : list (Event gatewayE)) :
  run h (tiller_rv.authenticate DecodeString ctx syscfg) w = (tr, Returned (ctx', None), w') ->
  exists user usrcfg,
    context.Value ctx' (context.kubeKey kube.UserInfo) = Some (tiller_rv.anyUserInfo user) /\
    context.Value ctx' (context.kubeKey kube.UserClientConfig)
      = Some (tiller_rv.anyConfig usrcfg) /\
    context.Value ctx' (context.kubeKey kube.SystemClientConfig)
      = Some (context.AnyConfig syscfg) /\
    context.Value ctx' (context.kubeKey kube.ImpersonateUser)
      = context.Value ctx (context.kubeKey kube.ImpersonateUser).
Proof.
  intros H.
  assert (Hv : exists v, tiller_rv.fileVerdict ctx syscfg v = (ctx', None)).
  { revert H. unfold tiller_rv.authenticate.
    destruct (metadata.FromContext ctx) as [md|];
      [|intros H; apply run_Ret_inv in H; discriminate].
    destruct (md !! kube.Authorization) as [[|h0 others]|];
      try (intros H; apply run_Ret_inv in H; eauto).
    destruct (String.eqb h0 ""); [intros H; apply run_Ret_inv in H; eauto|].
    destruct (strings.HasPrefix h0 "Bearer ").
    { intros H. apply (run_bind_Ret_inv h _ (tiller_rv.fileVerdict ctx syscfg)) in H.
      destruct H as [a Ha]. eauto. }
    destruct (strings.HasPrefix h0 "Basic ").
    { intros H. apply (run_bind_Ret_inv h _ (tiller_rv.fileVerdict ctx syscfg)) in H.
      destruct H as [a Ha]. eauto. }
    intros H; apply run_Ret_inv in H; discriminate. }
  destruct Hv as [v Hv].
  apply rv_fileVerdict_success in Hv as (user & usrcfg & _ & ->).
  exists user, usrcfg. repeat split.
Qed.

(** C1, at a call that presents the verified client certificate of alice
    and no authorization header. In server.go the verifier succeeds, and the
    context it builds for itself holds the identity, the user client, the
    system client and the impersonation flag; but the handler of the unary
    interceptor, and the stream handed to the stream handler, carry the
    connection context, in which none of the four is set. *)
Theorem handler_runs_with_transport_context :
  tiller.checkClientCert sample.ctxCert sample.syscfg = None /\
  context.Value (fst (tiller.checkClientCert_body sample.ctxCert sample.syscfg))
                (context.kubeKey kube.UserInfo)
    = Some (context.AnyUserInfo (authenticationapi.mkUserInfo "alice" "" [])) /\
  run sample.accepting
      (tiller.newUnaryInterceptor base64.DecodeString sample.IsCompatible sample.Version
         sample.syscfg sample.ctxCert "req"
         (grpc.mkUnaryServerInfo sample.listReleases) grpc.serve) 0%nat
    = ([event (Serve sample.ctxCert "req")], Returned (Some "done", None), 1%nat) /\
  run sample.accepting
      (tiller.newStreamInterceptor base64.DecodeString sample.IsCompatible sample.Version
         sample.syscfg "srv" (grpc.wire sample.ctxCert)
         (grpc.mkStreamServerInfo sample.listReleases false true) grpc.serveStream) 0%nat
    = ([event (ServeStream "srv" sample.ctxCert)], Returned None, 1%nat) /\
  context.Value sample.ctxCert (context.kubeKey kube.UserInfo) = None /\
  context.Value sample.ctxCert (context.kubeKey kube.UserClient) = None /\
  context.Value sample.ctxCert (context.kubeKey kube.SystemClient) = None /\
  context.Value sample.ctxCert (context.kubeKey kube.ImpersonateUser) = None.
Proof. repeat split. Qed.

(** The same call through the earlier revision: the handler's context holds
    the identity and the two configurations, and no impersonation flag. *)
Example rv_handler_context :
  exists ctx',
    run sample.accepting
        (tiller_rv.newUnaryInterceptor base64.DecodeString sample.IsCompatible sample.Version
           sample.syscfg sample.ctxCert "req"
           (grpc.mkUnaryServerInfo sample.listReleases) grpc.serve) 0%nat
      = ([event (Serve ctx' "req")], Returned (Some "done", None), 1%nat) /\
    context.Value ctx' (context.kubeKey kube.UserInfo)
      = Some (context.AnyUserInfo (authenticationapi.mkUserInfo "alice" "" [])) /\
    context.Value ctx' (context.kubeKey kube.UserClientConfig)
      = Some (context.AnyConfig (rest.set_Impersonate "alice" sample.syscfg)) /\
    context.Value ctx' (context.kubeKey kube.SystemClientConfig)
      = Some (context.AnyConfig sample.syscfg) /\
    context.Value ctx' (context.kubeKey kube.ImpersonateUser) = None.
Proof. eexists. repeat split. Qed.

(** ** The stream wrapper *)

(** C9. Of the wrapper's methods only Context differs from the wrapped
    stream: it returns the context the wrapper was built with. RecvMsg,
    SendMsg, SendHeader, SetHeader and SetTrailer are the wrapped stream's
    own operations on the same argument. The stream that the interceptor
    hands to the handler is therefore the stream it received with the
    context replaced by the one authenticate returned. Both revisions of the
    gateway are covered. *)
Theorem stream_wrapper_passes_through
        (DecodeString : string -> result string)
        (IsCompatible : string -> string -> bool) (Version : string)
        (syscfg : rest.Config) (srv : Payload) (ss : grpc.ServerStream)
        (info : grpc.StreamServerInfo) (handler : grpc.StreamHandler)
        (derived : context.Context) (msg : Payload) (md : MD) :
  (tiller.wrapper_Context (tiller.mkServerStreamWrapper ss derived) = derived /\
   tiller.wrapper_RecvMsg (tiller.mkServerStreamWrapper ss derived) msg = grpc.RecvMsg ss msg /\
   tiller.wrapper_SendMsg (tiller.mkServerStreamWrapper ss derived) msg = grpc.SendMsg ss msg /\
   tiller.wrapper_SendHeader (tiller.mkServerStreamWrapper ss derived) md
     = grpc.SendHeader ss md /\
   tiller.wrapper_SetHeader (tiller.mkServerStreamWrapper ss derived) md
     = grpc.SetHeader ss md /\
   tiller.wrapper_SetTrailer (tiller.mkServerStreamWrapper ss derived) md
     = grpc.SetTrailer ss md) /\
  (tiller_rv.wrapper_Context (tiller_rv.mkServerStreamWrapper ss derived) = derived /\
   tiller_rv.wrapper_RecvMsg (tiller_rv.mkServerStreamWrapper ss derived) msg
     = grpc.RecvMsg ss msg /\
   tiller_rv.wrapper_SendMsg (tiller_rv.mkServerStreamWrapper ss derived) msg
     = grpc.SendMsg ss msg /\
   tiller_rv.wrapper_SendHeader (tiller_rv.mkServerStreamWrapper ss derived) md
     = grpc.SendHeader ss md /\
   tiller_rv.wrapper_SetHeader (tiller_rv.mkServerStreamWrapper ss derived) md
     = grpc.SetHeader ss md /\
   tiller_rv.wrapper_SetTrailer (tiller_rv.mkServerStreamWrapper ss derived) md
     = grpc.SetTrailer ss md) /\
  tiller.asServerStream (tiller.mkServerStreamWrapper ss derived)
    = grpc.mkServerStream derived (grpc.RecvMsg ss) (grpc.SendMsg ss)
                          (grpc.SendHeader ss) (grpc.SetHeader ss) (grpc.SetTrailer ss) /\
  tiller_rv.asServerStream (tiller_rv.mkServerStreamWrapper ss derived)
    = grpc.mkServerStream derived (grpc.RecvMsg ss) (grpc.SendMsg ss)
                          (grpc.SendHeader ss) (grpc.SetHeader ss) (grpc.SetTrailer ss) /\
  tiller.newStreamInterceptor DecodeString IsCompatible Version syscfg srv ss info handler
    = match tiller.checkClientVersion IsCompatible Version (grpc.Context ss) with
      | Some err => call (Println err) ;;; Ret (Some err)
      | None =>
          r <- tiller.authenticate DecodeString (grpc.Context ss) syscfg ;;
          match snd r with
          | Some err => call (Println err) ;;; Ret (Some err)
          | None =>
              handler srv (grpc.mkServerStream (fst r) (grpc.RecvMsg ss) (grpc.SendMsg ss)
                             (grpc.SendHeader ss) (grpc.SetHeader ss) (grpc.SetTrailer ss))
          end
      end /\
  tiller_rv.newStreamInterceptor DecodeString IsCompatible Version syscfg srv ss info handler
    = match tiller_rv.checkClientVersion IsCompatible Version (grpc.Context ss) with
      | Some err => call (Println err) ;;; Ret (Some err)
      | None =>
          r <- tiller_rv.authenticate DecodeString (grpc.Context ss) syscfg ;;
          match snd r with
          | Some err => call (Println err) ;;; Ret (Some err)
          | None =>
              handler srv (grpc.mkServerStream (fst r) (grpc.RecvMsg ss) (grpc.SendMsg ss)
                             (grpc.SendHeader ss) (grpc.SetHeader ss) (grpc.SetTrailer ss))
          end
      end.
Proof. repeat split. Qed.

(** A stream handler that receives, sends and sets the trailer on the
    stream it is given reaches the transport with exactly these operations,
    in this order. *)
Example wrapped_stream_reaches_wire :
  trace sample.accepting
        (tiller_rv.newStreamInterceptor base64.DecodeString sample.IsCompatible sample.Version
           sample.syscfg "srv" (grpc.wire sample.ctxCert)
           (grpc.mkStreamServerInfo sample.listReleases true true)
           (fun _ st =>
              grpc.RecvMsg st "m1" ;;; grpc.SendMsg st "m2" ;;;
              grpc.SetTrailer st sample.mdNoVersion ;;; Ret None)) 0%nat
  = [event (WireRecvMsg "m1"); event (WireSendMsg "m2");
     event (WireSetTrailer sample.mdNoVersion)].
Proof. reflexivity. Qed.

(** ** The fake release client *)

Lemma retain_filter (label : labels.Selector) (items acc : list aci.Release) :
  fake.retain label items acc
  = (acc ++ List.filter (fun item => labels.Matches label (aci.Labels item)) items)%list.
Proof.
  revert acc; induction items as [|item items IH]; intros acc; simpl.
  - now rewrite app_nil_r.
  - destruct (labels.Matches label (aci.Labels item)).
    + rewrite IH, <- app_assoc. reflexivity.
    + apply IH.
Qed.

Lemma filter_all {A : Type} (l : list A) : List.filter (fun _ => true) l = l.
Proof. induction l as [|x l IH]; simpl; [reflexivity | now rewrite IH]. Qed.

Lemma requiring_matches (ls l : labels.Set_) :
  labels.Matches (requiring ls) l = true <->
  forall k v, ls !! k = Some v -> l !! k = Some v.
Proof.
  unfold requiring. simpl. rewrite forallb_forall. split.
  - intros H k v Hkv.
    specialize (H (k, v)). simpl in H. eapply bool_decide_eq_true_1.
    apply H. apply list_elem_of_In. now apply elem_of_map_to_list.
  - intros H [k v] Hin. simpl. apply bool_decide_eq_true_2. apply H.
    apply elem_of_map_to_list. now apply list_elem_of_In.
Qed.

(** C6. When the backend answers a list request with a release list, List
    returns, next to the backend's error value, the list of exactly those
    items whose labels the request's selector matches, in the backend's
    order, whatever the selector is. A request without selector, with
    labels.Everything() or with any selector that matches every label set
    gets every item of the backend unchanged; a selector that matches no
    label set gets none; and a selector that requires each pair of a label
    set keeps the items whose labels contain each of these pairs. *)
Theorem list_retains_matching_items
        (mock : fake.FakeRelease) (opts : api.ListOptions)
        (W : Type) (h : World fake.fakeE W) (w w1 : W)
        (backend : aci.ReleaseList) (err : option error)
        (Hbackend : h _ (fake.Invokes (fake.NewListAction fake.resource (fake.ns mock) opts)) w
                    = ((Some (fake.ObjReleaseList backend), err), w1)) :
  exists lst,
    run h (fake.List mock opts) w
      = ([event (fake.Invokes (fake.NewListAction fake.resource (fake.ns mock) opts))],
         Returned (Some lst, err), w1) /\
    aci.Items lst
      = List.filter (fun item => labels.Matches (selectorOf opts) (aci.Labels item))
                    (aci.Items backend) /\
    (forall item,
       In item (aci.Items lst) <->
       In item (aci.Items backend) /\
       labels.Matches (selectorOf opts) (aci.Labels item) = true) /\
    (api.LabelSelector opts = None \/
     api.LabelSelector opts = Some labels.Everything \/
     (forall l, labels.Matches (selectorOf opts) l = true) ->
     aci.Items lst = aci.Items backend) /\
    ((forall l, labels.Matches (selectorOf opts) l = false) ->
     aci.Items lst = []) /\
    (forall ls,
       api.LabelSelector opts = Some (requiring ls) ->
       forall item,
         In item (aci.Items lst) <->
         In item (aci.Items backend) /\
         forall k v, ls !! k = Some v -> aci.Labels item !! k = Some v).
Proof.
  exists (aci.mkReleaseList ""
            (List.filter (fun item => labels.Matches (selectorOf opts) (aci.Labels item))
                         (aci.Items backend))).
  split; [|split; [reflexivity | split; [|split; [|split]]]].
  - unfold fake.List. simpl. rewrite Hbackend. simpl.
    rewrite retain_filter. reflexivity.
  - intros item. simpl. apply filter_In.
  - simpl. intros Hall.
    erewrite filter_ext; [apply filter_all|].
    intros a. destruct Hall as [Hn | [He | Hall]].
    + unfold selectorOf. now rewrite Hn.
    + unfold selectorOf. now rewrite He.
    + apply Hall.
  - simpl. intros Hnone.
    induction (aci.Items backend) as [|a l IH]; simpl; [reflexivity|].
    now rewrite Hnone.
  - intros ls Hls item. simpl. rewrite filter_In. unfold selectorOf. rewrite Hls.
    now rewrite requiring_matches.
Qed.

(** Three releases, two of tier web: listed with the selector tier=web, and
    without selector. *)
Lemma list_retains_matching_items_witness :
  (exists lst,
     run sample.tracker (fake.List (fake.mkFakeRelease "kube-system") sample.tierWeb) 0%nat
       = ([event (fake.Invokes (fake.NewListAction fake.resource "kube-system" sample.tierWeb))],
          Returned (Some lst, None), 1%nat) /\
     aci.Items lst = [sample.web; sample.web2]) /\
  (exists lst,
     run sample.tracker (fake.List (fake.mkFakeRelease "kube-system") sample.unselective) 0%nat
       = ([event (fake.Invokes
                    (fake.NewListAction fake.resource "kube-system" sample.unselective))],
          Returned (Some lst, None), 1%nat) /\
     aci.Items lst = [sample.web; sample.db; sample.web2]).
Proof.
  split.
  - destruct (list_retains_matching_items
                (fake.mkFakeRelease "kube-system") sample.tierWeb nat sample.tracker
                0%nat 1%nat sample.backend None eq_refl)
      as (lst & Hrun & Hitems & _).
    exists lst. split; [exact Hrun|]. rewrite Hitems. vm_compute. reflexivity.
  - destruct (list_retains_matching_items
                (fake.mkFakeRelease "kube-system") sample.unselective nat sample.tracker
                0%nat 1%nat sample.backend None eq_refl)
      as (lst & Hrun & _ & _ & Hall & _).
    exists lst. split; [exact Hrun|]. rewrite Hall; [reflexivity | left; reflexivity].
Defined.

(** ** The storage factory *)

Lemma ends_in_bind {E : Type -> Type} {A B : Type} (P : B -> Prop)
      (p : Prog E A) (f : A -> Prog E B) :
  (forall a, ends_in P (f a)) -> ends_in P (bind p f).
Proof.
  intros Hf. induction p as [a|code|X e k IH]; simpl.
  - apply Hf.
  - constructor.
  - constructor. exact IH.
Qed.

Lemma ends_in_run {E : Type -> Type} {W A : Type} (P : A -> Prop)
      (h : World E W) (p : Prog E A) :
  ends_in P p ->
  forall w tr a w', run h p w = (tr, Returned a, w') -> P a.
Proof.
  induction 1 as [a Ha|code|X e k _ IH]; intros w tr b w'; simpl.
  - congruence.
  - congruence.
  - destruct (h X e w) as [x w1].
    destruct (run h (k x) w1) as [[tr1 o] w2] eqn:Hrun.
    intros Heq. apply (IH x w1 tr1 b w2). rewrite Hrun. congruence.
Qed.

(** Unfolds the bootstrap and the names of its calls. *)
Ltac unfold_bootstrap :=
  cbv beta delta [storage.ensureResource storage.V1alpha1SchemeGroupVersion_Group
                  storage.V1alpha1SchemeGroupVersion_Version
                  releaseResource releaseResourceName] in *.

Section Factory.

Variables (DefaultTillerNamespace GroupName : string) (TrimSpace : string -> string).
Variable client : kube.Client.

Let NewStorage := storage.NewStorage DefaultTillerNamespace GroupName TrimSpace client.
Let selectDriver := storage.selectDriver DefaultTillerNamespace GroupName TrimSpace.
Let namespace := storage.namespace DefaultTillerNamespace TrimSpace.
Let ensureResource := storage.ensureResource GroupName.
Let lookup := storage.ThirdPartyResources_Get (releaseResourceName GroupName).
Let create := storage.ThirdPartyResources_Create (releaseResource GroupName).
Let complain (err : error) :=
  storage.Fprintf_Stderr "Failed to create third party resource: %s\n" (storage.ArgError err).

Ltac unfold_names :=
  unfold lookup, create, complain, ensureResource in *; unfold_bootstrap.

(** *** The bootstrap of the release resource type *)

Section Bootstrap.

Variables (W : Type) (h : World storage.storageE W).

Lemma ensureResource_present (w w1 : W) :
  h _ lookup w = (None, w1) ->
  run h ensureResource w = ([event lookup], Returned tt, w1).
Proof.
  unfold_names. intros H. simpl. now rewrite H.
Qed.

Lemma ensureResource_passes (w w1 : W) (getErr : option error) :
  h _ lookup w = (getErr, w1) ->
  kberrs.IsNotFound getErr = false ->
  run h ensureResource w = ([event lookup], Returned tt, w1).
Proof.
  unfold_names. intros H Hnf. simpl. rewrite H. simpl. now rewrite Hnf.
Qed.

Lemma ensureResource_created (w w1 w2 : W) (msg : string) :
  h _ lookup w = (Some (StatusError StatusReasonNotFound msg), w1) ->
  h _ create w1 = (None, w2) ->
  run h ensureResource w = ([event lookup; event create], Returned tt, w2).
Proof.
  unfold_names. intros H1 H2. simpl. rewrite H1. simpl. now rewrite H2.
Qed.

Lemma ensureResource_create_fails (w w1 w2 : W) (msg : string) (err : error) :
  h _ lookup w = (Some (StatusError StatusReasonNotFound msg), w1) ->
  h _ create w1 = (Some err, w2) ->
  run h ensureResource w
  = ([event lookup; event create; event (complain err)], Exited 1,
     snd (h _ (complain err) w2)).
Proof.
  unfold_names. intros H1 H2. simpl. rewrite H1. simpl. rewrite H2. simpl.
  match goal with |- context [h unit ?e w2] => now destruct (h unit e w2) as [[] w3] end.
Qed.

Lemma NewStorage_past_preamble
      (opts : storage.StoreOptions) (clientcfg : rest.Config) (w w1 w2 : W) :
  h _ (storage.ClientConfig client) w = (Ok clientcfg, w1) ->
  h _ (storage.ClientSet client) w1 = (None, w2) ->
  run h (NewStorage opts) w
  = (let '(tr, o, w') := run h (selectDriver clientcfg opts) w2 in
     (event (storage.ClientConfig client) :: event (storage.ClientSet client) :: tr, o, w')).
Proof.
  intros H1 H2. unfold NewStorage, storage.NewStorage. simpl. rewrite H1. simpl.
  rewrite H2. fold selectDriver.
  now destruct (run h (selectDriver clientcfg opts) w2) as [[tr o] w'].
Qed.

Lemma selectDriver_bootstraps_first
      (opts : storage.StoreOptions) (clientcfg : rest.Config) :
  storage.StoreType_ opts = storage.StorageInlineTPR \/
  storage.StoreType_ opts = storage.StorageObjectStoreTPR ->
  exists rest, selectDriver clientcfg opts = (ensureResource ;;; rest).
Proof.
  unfold selectDriver, storage.selectDriver. intros [-> | ->]; simpl; eauto.
Qed.

Lemma NewStorage_bootstrap_fatal
      (opts : storage.StoreOptions) (clientcfg : rest.Config)
      (w0 w0' w w1 w2 : W) (msg : string) (err : error) :
  h _ (storage.ClientConfig client) w0 = (Ok clientcfg, w0') ->
  h _ (storage.ClientSet client) w0' = (None, w) ->
  storage.StoreType_ opts = storage.StorageInlineTPR \/
  storage.StoreType_ opts = storage.StorageObjectStoreTPR ->
  h _ lookup w = (Some (StatusError StatusReasonNotFound msg), w1) ->
  h _ create w1 = (Some err, w2) ->
  outcome h (NewStorage opts) w0 = Exited 1.
Proof.
  intros Hc Hs Hkind Hl Hcr. unfold outcome.
  rewrite (NewStorage_past_preamble opts clientcfg w0 w0' w Hc Hs).
  destruct (selectDriver_bootstraps_first opts clientcfg Hkind) as [rest ->].
  rewrite run_bind, (ensureResource_create_fails w w1 w2 msg err Hl Hcr). reflexivity.
Qed.

End Bootstrap.

(** On a cluster that keeps what is created, the bootstrap registers the
    resource, and a second bootstrap only looks it up. *)
Lemma bootstrap_idempotent (s : gset string) :
  exists tr s1,
    run sample.cluster ensureResource s = (tr, Returned tt, s1) /\
    releaseResourceName GroupName ∈ s1 /\
    run sample.cluster ensureResource s1 = ([event lookup], Returned tt, s1).
Proof.
  destruct (decide (releaseResourceName GroupName ∈ s)) as [Hin|Hout].
  - exists [event lookup], s.
    assert (Hrun : run sample.cluster ensureResource s = ([event lookup], Returned tt, s)).
    { apply ensureResource_present. unfold lookup. simpl.
      now rewrite (bool_decide_eq_true_2 _ Hin). }
    auto.
  - exists [event lookup; event create], ({[ releaseResourceName GroupName ]} ∪ s).
    split; [|split].
    + apply (ensureResource_created (gset string) sample.cluster s s _ "not found").
      * unfold lookup. simpl. now rewrite (bool_decide_eq_false_2 _ Hout).
      * unfold create. simpl. now rewrite (bool_decide_eq_false_2 _ Hout).
    + set_solver.
    + apply ensureResource_present. unfold lookup. simpl.
      rewrite bool_decide_eq_true_2; [reflexivity | set_solver].
Qed.

End Factory.

Lemma IsNotFound_false (getErr : option error) :
  (forall msg, getErr <> Some (StatusError StatusReasonNotFound msg)) ->
  kberrs.IsNotFound getErr = false.
Proof.
  intros H. destruct getErr as [[s|n|[] msg]|]; try reflexivity.
  now destruct (H msg).
Qed.

(** C8, as the code has it. The bootstrap looks the release resource type
    up and issues a create only when the lookup reports not-found: after
    every other answer of the lookup, the resource found or an error of
    another kind, it makes no further call and returns. After not-found it
    creates the resource, and returns when the create succeeds; so on a
    cluster that keeps what is created a repeated bootstrap creates nothing
    more. When the create fails, for whatever reason, already-exists
    included, the bootstrap prints the error and ends the process with
    status 1, and the factory that called it for one of the two
    custom-resource kinds returns no storage. *)
Theorem bootstrap_creates_only_when_absent
        (DefaultTillerNamespace GroupName : string) (TrimSpace : string -> string)
        (client : kube.Client) (opts : storage.StoreOptions)
        (W : Type) (h : World storage.storageE W) (w w1 w2 : W)
        (getErr createErr : option error)
        (Hlookup : h _ (storage.ThirdPartyResources_Get (releaseResourceName GroupName)) w
                   = (getErr, w1))
        (Hcreate : h _ (storage.ThirdPartyResources_Create (releaseResource GroupName)) w1
                   = (createErr, w2)) :
  ((forall msg, getErr <> Some (StatusError StatusReasonNotFound msg)) ->
   run h (storage.ensureResource GroupName) w
   = ([event (storage.ThirdPartyResources_Get (releaseResourceName GroupName))],
      Returned tt, w1)) /\
  (forall msg,
     getErr = Some (StatusError StatusReasonNotFound msg) ->
     (createErr = None ->
      run h (storage.ensureResource GroupName) w
      = ([event (storage.ThirdPartyResources_Get (releaseResourceName GroupName));
          event (storage.ThirdPartyResources_Create (releaseResource GroupName))],
         Returned tt, w2)) /\
     (forall err,
        createErr = Some err ->
        outcome h (storage.ensureResource GroupName) w = Exited 1 /\
        trace h (storage.ensureResource GroupName) w
          = [event (storage.ThirdPartyResources_Get (releaseResourceName GroupName));
             event (storage.ThirdPartyResources_Create (releaseResource GroupName));
             event (storage.Fprintf_Stderr "Failed to create third party resource: %s\n"
                                           (storage.ArgError err))] /\
        forall clientcfg w0 w0',
          h _ (storage.ClientConfig client) w0 = (Ok clientcfg, w0') ->
          h _ (storage.ClientSet client) w0' = (None, w) ->
          storage.StoreType_ opts = storage.StorageInlineTPR \/
          storage.StoreType_ opts = storage.StorageObjectStoreTPR ->
          outcome h (storage.NewStorage DefaultTillerNamespace GroupName TrimSpace client opts) w0
          = Exited 1)) /\
  (forall registered : gset string,
     exists tr registered',
       run sample.cluster (storage.ensureResource GroupName) registered
         = (tr, Returned tt, registered') /\
       releaseResourceName GroupName ∈ registered' /\
       run sample.cluster (storage.ensureResource GroupName) registered'
         = ([event (storage.ThirdPartyResources_Get (releaseResourceName GroupName))],
            Returned tt, registered')).
Proof.
  split; [|split].
  - intros Hother.
    exact (ensureResource_passes GroupName W h w w1 getErr Hlookup
             (IsNotFound_false getErr Hother)).
  - intros msg ->. split.
    + intros ->. now apply ensureResource_created with (msg := msg) (w1 := w1).
    + intros err ->.
      pose proof (ensureResource_create_fails GroupName W h w w1 w2 msg err Hlookup Hcreate)
        as Hrun.
      unfold outcome, trace. rewrite Hrun. split; [reflexivity|]. split; [reflexivity|].
      intros clientcfg w0 w0' Hcc Hcs Hkind.
      now apply (NewStorage_bootstrap_fatal DefaultTillerNamespace GroupName TrimSpace
                   client W h opts clientcfg w0 w0' w w1 w2 msg err).
  - apply bootstrap_idempotent.
Qed.

(** A cluster that refuses the lookup, a fresh cluster, and a cluster on
    which the create is answered already-exists. *)
Lemma bootstrap_creates_only_when_absent_witness :
  run sample.unreachable (storage.ensureResource sample.GroupName) 2%nat
    = ([event (storage.ThirdPartyResources_Get "release.helm.sh")],
       Returned tt, 3%nat) /\
  run sample.fresh (storage.ensureResource sample.GroupName) 2%nat
    = ([event (storage.ThirdPartyResources_Get "release.helm.sh");
        event (storage.ThirdPartyResources_Create (releaseResource "helm.sh"))],
       Returned tt, 4%nat) /\
  outcome sample.racing
          (storage.NewStorage sample.DefaultTillerNamespace sample.GroupName sample.TrimSpace
             sample.client (sample.options "inline-tpr" "")) 0%nat
    = Exited 1.
Proof.
  split; [|split].
  - apply (bootstrap_creates_only_when_absent
             sample.DefaultTillerNamespace sample.GroupName sample.TrimSpace sample.client
             (sample.options "inline-tpr" "") nat sample.unreachable
             2%nat 3%nat 4%nat (Some sample.refused) None eq_refl eq_refl).
    intros msg. discriminate.
  - apply (proj1 (proj2 (bootstrap_creates_only_when_absent
             sample.DefaultTillerNamespace sample.GroupName sample.TrimSpace sample.client
             (sample.options "inline-tpr" "") nat sample.fresh 2%nat 3%nat 4%nat
             (Some sample.notFound) None eq_refl eq_refl))
           "not found" eq_refl); reflexivity.
  - apply (proj1 (proj2 (bootstrap_creates_only_when_absent
             sample.DefaultTillerNamespace sample.GroupName sample.TrimSpace sample.client
             (sample.options "inline-tpr" "") nat sample.racing 2%nat 3%nat 4%nat
             (Some sample.notFound) (Some sample.alreadyExists) eq_refl eq_refl))
           "not found" eq_refl) with (err := sample.alreadyExists)
                                     (clientcfg := sample.syscfg) (w0' := 1%nat);
      [reflexivity | reflexivity | reflexivity | left; reflexivity].
Defined.

(** C8 as stated fails when the create is answered already-exists: the
    lookup reports not-found, another replica registers the resource, the
    create reports already-exists, and the bootstrap ends the process with
    status 1 instead of going on. *)
Lemma bootstrap_already_exists_is_fatal :
  sample.racing _ (storage.ThirdPartyResources_Get "release.helm.sh") 0%nat
    = (Some (StatusError StatusReasonNotFound "not found"), 1%nat) /\
  sample.racing _ (storage.ThirdPartyResources_Create (releaseResource "helm.sh")) 1%nat
    = (Some (StatusError StatusReasonAlreadyExists "already exists"), 2%nat) /\
  run sample.racing (storage.ensureResource sample.GroupName) 0%nat
    = ([event (storage.ThirdPartyResources_Get "release.helm.sh");
        event (storage.ThirdPartyResources_Create (releaseResource "helm.sh"));
        event (storage.Fprintf_Stderr "Failed to create third party resource: %s\n"
                 (storage.ArgError (StatusError StatusReasonAlreadyExists "already exists")))],
       Exited 1, 3%nat) /\
  outcome sample.racing
          (storage.NewStorage sample.DefaultTillerNamespace sample.GroupName sample.TrimSpace
             sample.client (sample.options "inline-tpr" "")) 0%nat
    = Exited 1.
Proof. repeat split. Qed.

(** A lookup that fails for another reason than not-found is passed over:
    the bootstrap returns and the factory builds the driver. *)
Example bootstrap_passes_over_lookup_failure :
  run sample.unreachable (storage.ensureResource sample.GroupName) 0%nat
    = ([event (storage.ThirdPartyResources_Get "release.helm.sh")], Returned tt, 1%nat) /\
  outcome sample.unreachable
          (storage.NewStorage sample.DefaultTillerNamespace sample.GroupName sample.TrimSpace
             sample.client (sample.options "inline-tpr" "")) 0%nat
    = Returned (Some (storage.Init (storage.NewReleases sample.syscfg "tiller-ns")), None).
Proof. split; reflexivity. Qed.

(** *** Selection of the backend *)







Section Selection.

Variables (DefaultTillerNamespace GroupName : string) (TrimSpace : string -> string).
Variable client : kube.Client.

Let NewStorage := storage.NewStorage DefaultTillerNamespace GroupName TrimSpace client.
Let selectDriver := storage.selectDriver DefaultTillerNamespace GroupName TrimSpace.
Let namespace := storage.namespace DefaultTillerNamespace TrimSpace.





Section Runs.

Variables (W : Type) (h : World storage.storageE W).



Variables (opts : storage.StoreOptions) (clientcfg : rest.Config) (w w1 w2 : W).
Hypothesis Hconfig : h _ (storage.ClientConfig client) w = (Ok clientcfg, w1).
Hypothesis Hclients : h _ (storage.ClientSet client) w1 = (None, w2).





End Runs.
End Selection.

(** * Further properties of the gateway *)

Lemma calls_bind {E : Type -> Type} {A B : Type} (P : forall X, E X -> Prop)
      (p : Prog E A) (f : A -> Prog E B) :
  calls P p -> (forall a, calls P (f a)) -> calls P (bind p f).
Proof.
  intros Hp Hf. induction Hp as [a|code|X e k He _ IH]; simpl.
  - apply Hf.
  - constructor.
  - constructor; assumption.
Qed.

Lemma calls_run {E : Type -> Type} {W A : Type} (P : forall X, E X -> Prop)
      (h : World E W) (p : Prog E A) :
  calls P p ->
  forall w tr o w', run h p w = (tr, o, w') ->
  Forall (fun ev : Event E => P (projT1 ev) (projT2 ev)) tr.
Proof.
  induction 1 as [a|code|X e k He _ IH]; intros w tr o w'; simpl.
  - intros H. injection H as <- _ _. constructor.
  - intros H. injection H as <- _ _. constructor.
  - destruct (h X e w) as [x w1].
    destruct (run h (k x) w1) as [[tr1 o1] w2] eqn:Hrun.
    intros H. injection H as <- _ _. constructor; [exact He|].
    exact (IH x w1 tr1 o1 w2 Hrun).
Qed.

(** Walks a gateway program and checks each call. *)
Ltac check_calls :=
  repeat first
    [ apply calls_Ret
    | apply calls_Halt
    | apply calls_Vis; [exact I | intros ?]
    | apply calls_bind; [|intros ?]
    | match goal with
      | |- calls _ (match ?x with _ => _ end) => destruct x
      | |- calls _ (if ?b then _ else _) => destruct b
      | |- calls _ (let '(_, _) := ?x in _) => destruct x
      end ].

(** ** Bearer tokens *)

Section Bearer.

Variables (ctx : context.Context) (syscfg : rest.Config) (token : string).

Lemma rv_checkBearerAuth_program :
  tiller_rv.checkBearerAuth ("Bearer " +:+ token) syscfg
  = (csErr <- call (NewForConfig syscfg) ;;
     match csErr with
     | Some err => Ret (tiller_rv.failed err)
     | None =>
         res <- call (TokenReviews_Create syscfg (authenticationapi.request token)) ;;
         match res with
         | Err err => Ret (tiller_rv.failed err)
         | Ok review =>
             if negb (authenticationapi.Authenticated (authenticationapi.Status review))
             then Ret (tiller_rv.failed (errors.New "Not authenticated"))
             else Ret (Some (authenticationapi.User (authenticationapi.Status review)),
                       Some (bearerConfig syscfg token), None)
         end
     end).
Proof.
  unfold tiller_rv.checkBearerAuth. now rewrite (drop_append "Bearer " token).
Qed.

Lemma rv_checkBearerAuth_accepts
      (W : Type) (h : World gatewayE W) (w w' : W) (tr : list (Event gatewayE))
      (user : option authenticationapi.UserInfo) (usrcfg : option rest.Config) :
  run h (tiller_rv.checkBearerAuth ("Bearer " +:+ token) syscfg) w
    = (tr, Returned (user, usrcfg, None), w') ->
  exists review w0,
    h _ (TokenReviews_Create syscfg (authenticationapi.request token)) w0 = (Ok review, w') /\
    authenticationapi.Authenticated (authenticationapi.Status review) = true /\
    user = Some (authenticationapi.User (authenticationapi.Status review)) /\
    usrcfg = Some (bearerConfig syscfg token) /\
    tr = [event (NewForConfig syscfg);
          event (TokenReviews_Create syscfg (authenticationapi.request token))].
Proof.
  rewrite rv_checkBearerAuth_program. simpl.
  destruct (h _ (NewForConfig syscfg) w) as [[e|] w0]; simpl; [discriminate|].
  destruct (h _ (TokenReviews_Create syscfg (authenticationapi.request token)) w0)
    as [[review|e] w1] eqn:Hreview; simpl; [|discriminate].
  destruct (authenticationapi.Authenticated (authenticationapi.Status review)) eqn:Hauth;
    simpl; [|discriminate].
  intros H. injection H as <- <- <- <-. exists review, w0. auto.
Qed.

Lemma checkBearerAuth_accepts
      (W : Type) (h : World gatewayE W) (w w' : W) (tr : list (Event gatewayE)) :
  run h (tiller.checkBearerAuth ctx ("Bearer " +:+ token) syscfg) w
    = (tr, Returned None, w') ->
  exists review w0,
    h _ (TokenReviews_Create syscfg (authenticationapi.request token)) w0 = (Ok review, w') /\
    authenticationapi.Authenticated (authenticationapi.Status review) = true /\
    tr = [event (ClientSet (kube.New (kube.mkWrapClientConfig syscfg)));
          event (TokenReviews_Create syscfg (authenticationapi.request token))].
Proof.
  unfold tiller.checkBearerAuth, tiller.checkBearerAuth_body.
  rewrite (drop_append "Bearer " token). simpl.
  destruct (h _ (ClientSet (kube.New (kube.mkWrapClientConfig syscfg))) w) as [[e|] w0];
    simpl; [discriminate|].
  destruct (h _ (TokenReviews_Create syscfg (authenticationapi.request token)) w0)
    as [[review|e] w1] eqn:Hreview; simpl; [|discriminate].
  destruct (authenticationapi.Authenticated (authenticationapi.Status review)) eqn:Hauth;
    simpl; [|discriminate].
  intros H. injection H as <- <-. exists review, w0. auto.
Qed.

End Bearer.

(** X1. Bearer verification, in each revision on its own and for every
    cluster: whatever follows "Bearer " (the empty token included) is
    submitted, through a client set for the system configuration, to the
    cluster's token review, and nothing else is called, whether the
    verifier accepts or refuses. A failing client set is returned as the
    error, before any review; a failing review is returned as the error; a
    review that does not report the token authenticated gives "Not
    authenticated". Only an error-free review that reports the token
    authenticated is accepted; the earlier revision then returns the user of
    the review's status and the user client configuration that carries the
    token, with the host, API path, prefix and certificate data of the
    system configuration and no impersonation, user name, password or key
    data. *)
Theorem bearer_token_verification
        (ctx : context.Context) (syscfg : rest.Config) (token : string)
        (W : Type) (h : World gatewayE W) (w : W) :
  run h (tiller_rv.checkBearerAuth ("Bearer " +:+ token) syscfg) w
  = match h _ (NewForConfig syscfg) w with
    | (Some err, w0) =>
        ([event (NewForConfig syscfg)], Returned (tiller_rv.failed err), w0)
    | (None, w0) =>
        ([event (NewForConfig syscfg);
          event (TokenReviews_Create syscfg (authenticationapi.request token))],
         match fst (h _ (TokenReviews_Create syscfg (authenticationapi.request token)) w0) with
         | Err err => Returned (tiller_rv.failed err)
         | Ok review =>
             if authenticationapi.Authenticated (authenticationapi.Status review)
             then Returned (Some (authenticationapi.User (authenticationapi.Status review)),
                            Some (bearerConfig syscfg token), None)
             else Returned (tiller_rv.failed (errors.New "Not authenticated"))
         end,
         snd (h _ (TokenReviews_Create syscfg (authenticationapi.request token)) w0))
    end /\
  run h (tiller.checkBearerAuth ctx ("Bearer " +:+ token) syscfg) w
  = match h _ (ClientSet (kube.New (kube.mkWrapClientConfig syscfg))) w with
    | (Some err, w0) =>
        ([event (ClientSet (kube.New (kube.mkWrapClientConfig syscfg)))],
         Returned (Some err), w0)
    | (None, w0) =>
        ([event (ClientSet (kube.New (kube.mkWrapClientConfig syscfg)));
          event (TokenReviews_Create syscfg (authenticationapi.request token))],
         match fst (h _ (TokenReviews_Create syscfg (authenticationapi.request token)) w0) with
         | Err err => Returned (Some err)
         | Ok review =>
             if authenticationapi.Authenticated (authenticationapi.Status review)
             then Returned None
             else Returned (Some (errors.New "Not authenticated"))
         end,
         snd (h _ (TokenReviews_Create syscfg (authenticationapi.request token)) w0))
    end /\
  (forall w' tr user usrcfg,
     run h (tiller_rv.checkBearerAuth ("Bearer " +:+ token) syscfg) w
       = (tr, Returned (user, usrcfg, None), w') ->
     exists review w0,
       h _ (TokenReviews_Create syscfg (authenticationapi.request token)) w0
         = (Ok review, w') /\
       authenticationapi.Authenticated (authenticationapi.Status review) = true /\
       user = Some (authenticationapi.User (authenticationapi.Status review)) /\
       usrcfg = Some (bearerConfig syscfg token)) /\
  (forall w' tr,
     run h (tiller.checkBearerAuth ctx ("Bearer " +:+ token) syscfg) w
       = (tr, Returned None, w') ->
     exists review w0,
       h _ (TokenReviews_Create syscfg (authenticationapi.request token)) w0
         = (Ok review, w') /\
       authenticationapi.Authenticated (authenticationapi.Status review) = true) /\
  rest.BearerToken (bearerConfig syscfg token) = token /\
  rest.Username (bearerConfig syscfg token) = "" /\
  rest.Password (bearerConfig syscfg token) = "" /\
  rest.Impersonate (bearerConfig syscfg token) = "" /\
  rest.KeyData (rest.TLS (bearerConfig syscfg token)) = "" /\
  rest.CertData (rest.TLS (bearerConfig syscfg token)) = rest.CertData (rest.TLS syscfg).
Proof.
  split; [|split; [|split; [|split]]].
  - rewrite rv_checkBearerAuth_program. simpl.
    destruct (h _ (NewForConfig syscfg) w) as [[e|] w0]; simpl; [reflexivity|].
    destruct (h _ (TokenReviews_Create syscfg (authenticationapi.request token)) w0)
      as [[review|e] w1]; simpl; [|reflexivity].
    now destruct (authenticationapi.Authenticated (authenticationapi.Status review)).
  - unfold tiller.checkBearerAuth, tiller.checkBearerAuth_body.
    rewrite (drop_append "Bearer " token). simpl.
    destruct (h _ (ClientSet (kube.New (kube.mkWrapClientConfig syscfg))) w) as [[e|] w0];
      simpl; [reflexivity|].
    destruct (h _ (TokenReviews_Create syscfg (authenticationapi.request token)) w0)
      as [[review|e] w1]; simpl; [|reflexivity].
    now destruct (authenticationapi.Authenticated (authenticationapi.Status review)).
  - intros w' tr user usrcfg Hrv.
    destruct (rv_checkBearerAuth_accepts syscfg token W h w w' tr user usrcfg Hrv)
      as (review & w0 & H1 & H2 & H3 & H4 & _).
    exists review, w0. auto.
  - intros w' tr Hcv.
    destruct (checkBearerAuth_accepts ctx syscfg token W h w w' tr Hcv)
      as (review & w0 & H1 & H2 & _).
    exists review, w0. auto.
  - repeat split.
Qed.

(** The token abc123 against a cluster whose review authenticates bob. *)
Lemma bearer_token_verification_witness :
  exists review w0,
    sample.accepting _ (TokenReviews_Create sample.syscfg (authenticationapi.request "abc123")) w0
      = (Ok review, 2%nat) /\
    authenticationapi.Authenticated (authenticationapi.Status review) = true /\
    Some sample.bob = Some (authenticationapi.User (authenticationapi.Status review)).
Proof.
  destruct (proj1 (proj2 (proj2 (bearer_token_verification
              sample.ctxBearer sample.syscfg "abc123" nat sample.accepting 0%nat)))
              2%nat
              [event (NewForConfig sample.syscfg);
               event (TokenReviews_Create sample.syscfg (authenticationapi.request "abc123"))]
              (Some sample.bob) (Some (bearerConfig sample.syscfg "abc123")) eq_refl)
    as (review & w0 & H1 & H2 & H3 & _).
  exists review, w0. auto.
Defined.

(** ** What authenticate returns (earlier revision) *)

Lemma returns_bind {E : Type -> Type} {A B : Type} (p : Prog E A) (f : A -> Prog E B) :
  returns p -> (forall a, returns (f a)) -> returns (bind p f).
Proof.
  intros Hp Hf. induction Hp as [a|X e k _ IH]; simpl; [apply Hf | constructor; exact IH].
Qed.

Lemma returns_run {E : Type -> Type} {W A : Type} (h : World E W) (p : Prog E A) :
  returns p -> forall w, exists tr a w', run h p w = (tr, Returned a, w').
Proof.
  induction 1 as [a|X e k _ IH]; intros w; simpl; [eauto|].
  destruct (h X e w) as [x w1]. destruct (IH x w1) as (tr & a & w' & ->). eauto.
Qed.

(** Walks a program and checks that it has no [Halt]. *)
Ltac check_returns :=
  repeat first
    [ apply returns_Ret
    | apply returns_Vis; intros ?
    | apply returns_bind; [|intros ?]
    | match goal with
      | |- returns (match ?x with _ => _ end) => destruct x
      | |- returns (if ?b then _ else _) => destruct b
      | |- returns (let '(_, _) := ?x in _) => destruct x
      end ].

Section Verifiers.

Variable DecodeString : string -> result string.
Variables (ctx : context.Context) (syscfg : rest.Config) (h0 : string).

Lemma rv_checkBearerAuth_calls : calls verifierCall (tiller_rv.checkBearerAuth h0 syscfg).
Proof. unfold tiller_rv.checkBearerAuth. simpl. check_calls. Qed.

Lemma rv_checkBasicAuth_calls :
  calls verifierCall (tiller_rv.checkBasicAuth DecodeString h0 syscfg).
Proof. unfold tiller_rv.checkBasicAuth. simpl. check_calls. Qed.

Lemma rv_checkBearerAuth_returns : returns (tiller_rv.checkBearerAuth h0 syscfg).
Proof. unfold tiller_rv.checkBearerAuth. simpl. check_returns. Qed.

Lemma rv_checkBasicAuth_returns :
  returns (tiller_rv.checkBasicAuth DecodeString h0 syscfg).
Proof. unfold tiller_rv.checkBasicAuth. simpl. check_returns. Qed.

Lemma checkBearerAuth_calls : calls verifierCall (tiller.checkBearerAuth ctx h0 syscfg).
Proof.
  unfold tiller.checkBearerAuth, tiller.checkBearerAuth_body. simpl. check_calls.
Qed.

Lemma checkBasicAuth_calls :
  calls verifierCall (tiller.checkBasicAuth DecodeString ctx h0 syscfg).
Proof.
  unfold tiller.checkBasicAuth, tiller.checkBasicAuth_body. simpl. check_calls.
Qed.

End Verifiers.

Lemma rv_authenticate_calls
      (DecodeString : string -> result string) (ctx : context.Context)
      (syscfg : rest.Config) :
  calls verifierCall (tiller_rv.authenticate DecodeString ctx syscfg).
Proof.
  unfold tiller_rv.authenticate.
  destruct (metadata.FromContext ctx) as [md|]; [|constructor].
  destruct (md !! kube.Authorization) as [[|h0 others]|]; try constructor.
  destruct (String.eqb h0 ""); [constructor|].
  destruct (strings.HasPrefix h0 "Bearer ").
  { apply calls_bind; [apply rv_checkBearerAuth_calls | constructor]. }
  destruct (strings.HasPrefix h0 "Basic ").
  { apply calls_bind; [apply rv_checkBasicAuth_calls | constructor]. }
  constructor.
Qed.

Lemma authenticate_calls
      (DecodeString : string -> result string) (ctx : context.Context)
      (syscfg : rest.Config) :
  calls verifierCall (tiller.authenticate DecodeString ctx syscfg).
Proof.
  unfold tiller.authenticate.
  destruct (metadata.FromContext ctx) as [md|]; [|constructor].
  destruct (md !! kube.Authorization) as [[|h0 others]|]; try constructor.
  destruct (String.eqb h0 ""); [constructor|].
  destruct (strings.HasPrefix h0 "Bearer ").
  { apply calls_bind; [apply checkBearerAuth_calls | constructor]. }
  destruct (strings.HasPrefix h0 "Basic ").
  { apply calls_bind; [apply checkBasicAuth_calls | constructor]. }
  constructor.
Qed.

Lemma rv_authenticate_returns
      (DecodeString : string -> result string) (ctx : context.Context)
      (syscfg : rest.Config) :
  returns (tiller_rv.authenticate DecodeString ctx syscfg).
Proof.
  unfold tiller_rv.authenticate.
  destruct (metadata.FromContext ctx) as [md|]; [|constructor].
  destruct (md !! kube.Authorization) as [[|h0 others]|]; try constructor.
  destruct (String.eqb h0 ""); [constructor|].
  destruct (strings.HasPrefix h0 "Bearer ").
  { apply returns_bind; [apply rv_checkBearerAuth_returns | constructor]. }
  destruct (strings.HasPrefix h0 "Basic ").
  { apply returns_bind; [apply rv_checkBasicAuth_returns | constructor]. }
  constructor.
Qed.

Lemma rv_fileVerdict_cases
      (ctx : context.Context) (syscfg : rest.Config) (v : tiller_rv.Verdict) :
  (exists e, tiller_rv.fileVerdict ctx syscfg v = (context.nil, Some e)) \/
  (exists user usrcfg, tiller_rv.fileVerdict ctx syscfg v = (filed ctx syscfg user usrcfg, None)).
Proof. destruct v as [[user usrcfg] [e|]]; simpl; eauto. Qed.

Lemma rv_authenticate_leaves
      (DecodeString : string -> result string) (ctx : context.Context)
      (syscfg : rest.Config) :
  ends_in (fun r => (exists e, r = (context.nil, Some e)) \/
                    (exists user usrcfg, r = (filed ctx syscfg user usrcfg, None)))
          (tiller_rv.authenticate DecodeString ctx syscfg).
Proof.
  unfold tiller_rv.authenticate.
  destruct (metadata.FromContext ctx) as [md|]; [|apply ends_Ret; eauto].
  destruct (md !! kube.Authorization) as [[|h0 others]|];
    try (apply ends_Ret; apply rv_fileVerdict_cases).
  destruct (String.eqb h0 ""); [apply ends_Ret; apply rv_fileVerdict_cases|].
  destruct (strings.HasPrefix h0 "Bearer ").
  { apply ends_in_bind. intros v. apply ends_Ret. apply rv_fileVerdict_cases. }
  destruct (strings.HasPrefix h0 "Basic ").
  { apply ends_in_bind. intros v. apply ends_Ret. apply rv_fileVerdict_cases. }
  apply ends_Ret; eauto.
Qed.

(** X2. The earlier revision's authenticate always returns, and what it
    returns is either an error with the nil context or, without error, the
    given context extended by exactly the three values it files; on the way
    it calls nothing but the client-set constructor, the token review and
    the server-version probe. *)
Theorem rv_authenticate_outcome
        (DecodeString : string -> result string) (ctx : context.Context)
        (syscfg : rest.Config) (W : Type) (h : World gatewayE W) (w w' : W)
        (tr : list (Event gatewayE)) (o : Outcome (context.Context * option error))
        (Hrun : run h (tiller_rv.authenticate DecodeString ctx syscfg) w = (tr, o, w')) :
  Forall (fun ev => verifierCall (projT1 ev) (projT2 ev)) tr /\
  ((exists e, o = Returned (context.nil, Some e)) \/
   (exists user usrcfg, o = Returned (filed ctx syscfg user usrcfg, None))).
Proof.
  split.
  - exact (calls_run verifierCall h _ (rv_authenticate_calls DecodeString ctx syscfg)
             w tr o w' Hrun).
  - destruct (returns_run h _ (rv_authenticate_returns DecodeString ctx syscfg) w)
      as (tr1 & r & w1 & Hr).
    rewrite Hr in Hrun. injection Hrun as _ <- _.
    destruct (ends_in_run _ h _ (rv_authenticate_leaves DecodeString ctx syscfg)
                w tr1 r w1 Hr) as [[e ->] | (user & usrcfg & ->)]; eauto.
Qed.

(** A bearer call that the cluster accepts, and a call with an unknown
    scheme. *)
Lemma rv_authenticate_outcome_witness :
  (Forall (fun ev => verifierCall (projT1 ev) (projT2 ev))
          (trace sample.accepting
                 (tiller_rv.authenticate base64.DecodeString sample.ctxBearer sample.syscfg)
                 0%nat)) /\
  ((exists e, outcome sample.accepting
                      (tiller_rv.authenticate base64.DecodeString sample.ctxDigest
                                              sample.syscfg) 0%nat
              = Returned (context.nil, Some e)) \/
   (exists user usrcfg,
      outcome sample.accepting
              (tiller_rv.authenticate base64.DecodeString sample.ctxDigest sample.syscfg)
              0%nat
      = Returned (filed sample.ctxDigest sample.syscfg user usrcfg, None))).
Proof.
  split.
  - apply (rv_authenticate_outcome base64.DecodeString sample.ctxBearer sample.syscfg
             nat sample.accepting 0%nat 2%nat _
             (Returned (filed sample.ctxBearer sample.syscfg (Some sample.bob)
                              (Some (bearerConfig sample.syscfg "abc123")), None))).
    reflexivity.
  - apply (rv_authenticate_outcome base64.DecodeString sample.ctxDigest sample.syscfg
             nat sample.accepting 0%nat 0%nat []
             (Returned (context.nil, Some (errors.New "Unknown authorization scheme.")))).
    reflexivity.
Defined.

Lemma filed_frame (ctx : context.Context) (syscfg : rest.Config)
      (user : option authenticationapi.UserInfo) (usrcfg : option rest.Config) :
  context.Value (filed ctx syscfg user usrcfg) (context.kubeKey kube.UserInfo)
    = Some (tiller_rv.anyUserInfo user) /\
  context.Value (filed ctx syscfg user usrcfg) (context.kubeKey kube.UserClientConfig)
    = Some (tiller_rv.anyConfig usrcfg) /\
  context.Value (filed ctx syscfg user usrcfg) (context.kubeKey kube.SystemClientConfig)
    = Some (context.AnyConfig syscfg) /\
  metadata.FromContext (filed ctx syscfg user usrcfg) = metadata.FromContext ctx /\
  peerctx.FromContext (filed ctx syscfg user usrcfg) = peerctx.FromContext ctx /\
  forall k, ~ filedKey k ->
    context.Value (filed ctx syscfg user usrcfg) (context.kubeKey k)
    = context.Value ctx (context.kubeKey k).
Proof.
  repeat split.
  intros k Hk. unfold filed, filedKey in *. simpl.
  repeat match goal with
         | |- context [decide (?a = ?b)] =>
             destruct (decide (a = b)) as [Heq|?]; [injection Heq as <-; tauto|]
         end.
  reflexivity.
Qed.

(** X3. A context that the earlier revision's authenticate returns without
    error holds the system configuration under kube.SystemClientConfig and
    values under kube.UserInfo and kube.UserClientConfig; the call's
    metadata and peer, and the value under every other key, are those of
    the context it was given: it sets no impersonation flag and removes
    nothing. *)
Theorem rv_authenticate_success_frame
        (DecodeString : string -> result string) (ctx ctx' : context.Context)
        (syscfg : rest.Config) (W : Type) (h : World gatewayE W) (w w' : W)
        (tr : list (Event gatewayE))
        (Hrun : run h (tiller_rv.authenticate DecodeString ctx syscfg) w
                = (tr, Returned (ctx', None), w')) :
  (exists user usrcfg,
     context.Value ctx' (context.kubeKey kube.UserInfo) = Some (tiller_rv.anyUserInfo user) /\
     context.Value ctx' (context.kubeKey kube.UserClientConfig)
       = Some (tiller_rv.anyConfig usrcfg)) /\
  context.Value ctx' (context.kubeKey kube.SystemClientConfig)
    = Some (context.AnyConfig syscfg) /\
  metadata.FromContext ctx' = metadata.FromContext ctx /\
  peerctx.FromContext ctx' = peerctx.FromContext ctx /\
  forall k, ~ filedKey k ->
    context.Value ctx' (context.kubeKey k) = context.Value ctx (context.kubeKey k).
Proof.
  destruct (rv_authenticate_outcome DecodeString ctx syscfg W h w w' tr _ Hrun)
    as [_ [[e He] | (user & usrcfg & He)]]; [discriminate|].
  injection He as ->.
  destruct (filed_frame ctx syscfg user usrcfg) as (H1 & H2 & H3 & H4 & H5 & H6).
  split; [eauto|]. auto.
Qed.

(** The certificate call of alice. *)
Lemma rv_authenticate_success_frame_witness :
  metadata.FromContext
    (filed sample.ctxCert sample.syscfg
           (Some (authenticationapi.mkUserInfo "alice" "" []))
           (Some (rest.set_Impersonate "alice" sample.syscfg)))
    = Some sample.mdCurrent /\
  context.Value
    (filed sample.ctxCert sample.syscfg
           (Some (authenticationapi.mkUserInfo "alice" "" []))
           (Some (rest.set_Impersonate "alice" sample.syscfg)))
    (context.kubeKey kube.ImpersonateUser) = None.
Proof.
  destruct (rv_authenticate_success_frame
              base64.DecodeString sample.ctxCert
              (filed sample.ctxCert sample.syscfg
                     (Some (authenticationapi.mkUserInfo "alice" "" []))
                     (Some (rest.set_Impersonate "alice" sample.syscfg)))
              sample.syscfg nat sample.accepting 0%nat 0%nat [] eq_refl)
    as (_ & _ & Hmd & _ & Hother).
  split.
  - rewrite Hmd. reflexivity.
  - rewrite (Hother kube.ImpersonateUser); [reflexivity|].
    unfold filedKey. intuition discriminate.
Defined.

(** ** No service without authentication *)

Lemma verifierCall_not_served (ev : Event gatewayE) :
  verifierCall (projT1 ev) (projT2 ev) -> served ev = None /\ servedStream ev = None.
Proof. destruct ev as [X e]; destruct e; simpl; tauto. Qed.

Lemma not_served_in (tr : list (Event gatewayE)) (ev : Event gatewayE) :
  Forall (fun ev => verifierCall (projT1 ev) (projT2 ev)) tr ->
  In ev tr -> served ev = None /\ servedStream ev = None.
Proof.
  intros Hall Hin. apply verifierCall_not_served.
  rewrite Forall_forall in Hall. apply Hall, list_elem_of_In, Hin.
Qed.

Section AfterAuthentication.

Variables (W : Type) (h : World gatewayE W).
Variable auth : Prog gatewayE (context.Context * option error).
Hypothesis auth_calls : calls verifierCall auth.

Lemma unary_after_authentication
      (req : Payload) (w w' : W) (tr : list (Event gatewayE))
      (o : Outcome (option Payload * option error))
      (ev : Event gatewayE) (c : context.Context) (r : Payload) :
  run h (r0 <- auth ;;
         match snd r0 with
         | Some err => call (Println err) ;;; Ret (None, Some err)
         | None => grpc.serve (fst r0) req
         end) w = (tr, o, w') ->
  In ev tr -> served ev = Some (c, r) ->
  r = req /\ exists tr0 w0, run h auth w = (tr0, Returned (c, None), w0).
Proof.
  rewrite run_bind.
  destruct (run h auth w) as [[tr0 [[c' [e|]]|code]] w0] eqn:Hauth; simpl.
  - destruct (h unit (Println e) w0) as [[] w1]. simpl.
    intros H Hin Hs. injection H as <- _ _.
    apply in_app_or in Hin as [Hin | [<- | []]]; [|discriminate].
    apply (not_served_in tr0) in Hin as [Hn _]; [congruence|].
    exact (calls_run _ h auth auth_calls w tr0 _ w0 Hauth).
  - destruct (h _ (Serve c' req) w0) as [x w1]. simpl.
    intros H Hin Hs. injection H as <- _ _.
    apply in_app_or in Hin as [Hin | [<- | []]].
    + apply (not_served_in tr0) in Hin as [Hn _]; [congruence|].
      exact (calls_run _ h auth auth_calls w tr0 _ w0 Hauth).
    + simpl in Hs. injection Hs as <- <-. eauto.
  - intros H Hin Hs. injection H as <- _ _.
    apply (not_served_in tr0) in Hin as [Hn _]; [congruence|].
    exact (calls_run _ h auth auth_calls w tr0 _ w0 Hauth).
Qed.

Lemma stream_after_authentication
      (srv : Payload) (wrap : context.Context -> grpc.ServerStream)
      (Hwrap : forall c, grpc.Context (wrap c) = c)
      (w w' : W) (tr : list (Event gatewayE)) (o : Outcome (option error))
      (ev : Event gatewayE) (c : context.Context) (s : Payload) :
  run h (r0 <- auth ;;
         match snd r0 with
         | Some err => call (Println err) ;;; Ret (Some err)
         | None => grpc.serveStream srv (wrap (fst r0))
         end) w = (tr, o, w') ->
  In ev tr -> servedStream ev = Some (s, c) ->
  s = srv /\ exists tr0 w0, run h auth w = (tr0, Returned (c, None), w0).
Proof.
  rewrite run_bind.
  destruct (run h auth w) as [[tr0 [[c' [e|]]|code]] w0] eqn:Hauth; simpl.
  - destruct (h unit (Println e) w0) as [[] w1]. simpl.
    intros H Hin Hs. injection H as <- _ _.
    apply in_app_or in Hin as [Hin | [<- | []]]; [|discriminate].
    apply (not_served_in tr0) in Hin as [_ Hn]; [congruence|].
    exact (calls_run _ h auth auth_calls w tr0 _ w0 Hauth).
  - rewrite Hwrap. destruct (h _ (ServeStream srv c') w0) as [x w1]. simpl.
    intros H Hin Hs. injection H as <- _ _.
    apply in_app_or in Hin as [Hin | [<- | []]].
    + apply (not_served_in tr0) in Hin as [_ Hn]; [congruence|].
      exact (calls_run _ h auth auth_calls w tr0 _ w0 Hauth).
    + simpl in Hs. injection Hs as <- <-. eauto.
  - intros H Hin Hs. injection H as <- _ _.
    apply (not_served_in tr0) in Hin as [_ Hn]; [congruence|].
    exact (calls_run _ h auth auth_calls w tr0 _ w0 Hauth).
Qed.

End AfterAuthentication.

Lemma compatible_or_refused
      (IsCompatible : string -> string -> bool) (Version : string) (ctx : context.Context) :
  (tiller.checkClientVersion IsCompatible Version ctx = None /\
   IsCompatible (tiller.versionFromContext ctx) Version = true) \/
  (tiller.checkClientVersion IsCompatible Version ctx = Some (versionMismatch Version ctx) /\
   IsCompatible (tiller.versionFromContext ctx) Version = false).
Proof.
  unfold tiller.checkClientVersion, versionMismatch.
  destruct (IsCompatible (tiller.versionFromContext ctx) Version); auto.
Qed.

(** X4. In each revision on its own: the service's unary method is
    entered only by a call that passed the version gate (a compatible
    client version, or the method GetVersion) and whose authenticate
    returned without error; it is entered with the request of the call and
    the context that authenticate returned, which in server.go is the
    context of the call and in the earlier revision the context with the
    identity filed. A refused call never reaches it. *)
Theorem unary_serves_only_authenticated
        (DecodeString : string -> result string)
        (IsCompatible : string -> string -> bool) (Version : string)
        (syscfg : rest.Config) (ctx : context.Context) (req : Payload)
        (info : grpc.UnaryServerInfo)
        (W : Type) (h : World gatewayE W) :
  (forall (w w' : W) (tr : list (Event gatewayE))
          (o : Outcome (option Payload * option error))
          (ev : Event gatewayE) (c : context.Context) (r : Payload),
     run h (tiller.newUnaryInterceptor DecodeString IsCompatible Version
              syscfg ctx req info grpc.serve) w = (tr, o, w') ->
     In ev tr -> served ev = Some (c, r) ->
     r = req /\ c = ctx /\
     (exists tr0 w0,
        run h (tiller.authenticate DecodeString ctx syscfg) w
        = (tr0, Returned (c, None), w0)) /\
     (IsCompatible (tiller.versionFromContext ctx) Version = true \/
      snd (tiller.splitMethod (grpc.FullMethod info)) = "GetVersion")) /\
  (forall (v v' : W) (tr' : list (Event gatewayE))
          (o' : Outcome (option Payload * option error))
          (ev' : Event gatewayE) (c' : context.Context) (r' : Payload),
     run h (tiller_rv.newUnaryInterceptor DecodeString IsCompatible Version
              syscfg ctx req info grpc.serve) v = (tr', o', v') ->
     In ev' tr' -> served ev' = Some (c', r') ->
     r' = req /\ (exists user usrcfg, c' = filed ctx syscfg user usrcfg) /\
     (exists tr0 v0,
        run h (tiller_rv.authenticate DecodeString ctx syscfg) v
        = (tr0, Returned (c', None), v0)) /\
     (IsCompatible (tiller.versionFromContext ctx) Version = true \/
      snd (tiller.splitMethod (grpc.FullMethod info)) = "GetVersion")).
Proof.
  split.
  - intros w w' tr o ev c r Hrun Hin Hserved.
    assert (Hgate : IsCompatible (tiller.versionFromContext ctx) Version = true \/
                    snd (tiller.splitMethod (grpc.FullMethod info)) = "GetVersion").
    { destruct (compatible_or_refused IsCompatible Version ctx) as [[_ Hc]|[Hv Hc]]; [auto|].
      destruct (String.eqb_spec (snd (tiller.splitMethod (grpc.FullMethod info)))
                                "GetVersion") as [Hm|Hm]; [auto|].
      rewrite (unary_rejects_incompatible DecodeString IsCompatible Version syscfg
                 ctx req info grpc.serve Hc Hm) in Hrun.
      simpl in Hrun. destruct (h unit _ w) as [[] w1]. injection Hrun as <- _ _.
      destruct Hin as [<- | []]. discriminate. }
    assert (Hshape : tiller.newUnaryInterceptor DecodeString IsCompatible Version
                       syscfg ctx req info grpc.serve
                     = (r0 <- tiller.authenticate DecodeString ctx syscfg ;;
                        match snd r0 with
                        | Some err => call (Println err) ;;; Ret (None, Some err)
                        | None => grpc.serve (fst r0) req
                        end)).
    { unfold tiller.newUnaryInterceptor.
      destruct Hgate as [Hc | Hm].
      - unfold tiller.checkClientVersion. now rewrite Hc.
      - rewrite Hm. now destruct (tiller.checkClientVersion IsCompatible Version ctx). }
    rewrite Hshape in Hrun.
    destruct (unary_after_authentication W h _ (authenticate_calls DecodeString ctx syscfg)
                req w w' tr o ev c r Hrun Hin Hserved) as [Hr (tr0 & w0 & Hauth)].
    split; [exact Hr|]. split.
    + exact (authenticate_keeps_context DecodeString ctx c syscfg W h w w0 tr0 Hauth).
    + split; [eauto | exact Hgate].
  - intros v v' tr' o' ev' c' r' Hrun' Hin' Hserved'.
    assert (Hgate : IsCompatible (tiller.versionFromContext ctx) Version = true \/
                    snd (tiller.splitMethod (grpc.FullMethod info)) = "GetVersion").
    { destruct (compatible_or_refused IsCompatible Version ctx) as [[_ Hc]|[Hv Hc]]; [auto|].
      destruct (String.eqb_spec (snd (tiller.splitMethod (grpc.FullMethod info)))
                                "GetVersion") as [Hm|Hm]; [auto|].
      exfalso. revert Hrun'. unfold tiller_rv.newUnaryInterceptor.
      change (tiller_rv.checkClientVersion IsCompatible Version ctx)
        with (tiller.checkClientVersion IsCompatible Version ctx).
      change (tiller_rv.splitMethod (grpc.FullMethod info))
        with (tiller.splitMethod (grpc.FullMethod info)).
      rewrite Hv.
      destruct (String.eqb_spec (snd (tiller.splitMethod (grpc.FullMethod info)))
                                "GetVersion") as [Hm'|_]; [contradiction|].
      simpl. destruct (h unit _ v) as [[] v1]. intros Hrun'. injection Hrun' as <- _ _.
      destruct Hin' as [<- | []]. discriminate. }
    assert (Hshape : tiller_rv.newUnaryInterceptor DecodeString IsCompatible Version
                       syscfg ctx req info grpc.serve
                     = (r0 <- tiller_rv.authenticate DecodeString ctx syscfg ;;
                        match snd r0 with
                        | Some err => call (Println err) ;;; Ret (None, Some err)
                        | None => grpc.serve (fst r0) req
                        end)).
    { unfold tiller_rv.newUnaryInterceptor.
      change (tiller_rv.checkClientVersion IsCompatible Version ctx)
        with (tiller.checkClientVersion IsCompatible Version ctx).
      change (tiller_rv.splitMethod (grpc.FullMethod info))
        with (tiller.splitMethod (grpc.FullMethod info)).
      destruct Hgate as [Hc | Hm].
      - unfold tiller.checkClientVersion. now rewrite Hc.
      - rewrite Hm. now destruct (tiller.checkClientVersion IsCompatible Version ctx). }
    rewrite Hshape in Hrun'.
    destruct (unary_after_authentication W h _ (rv_authenticate_calls DecodeString ctx syscfg)
                req v v' tr' o' ev' c' r' Hrun' Hin' Hserved') as [Hr (tr0 & v0 & Hauth)].
    split; [exact Hr|]. split.
    + destruct (rv_authenticate_outcome DecodeString ctx syscfg W h v v0 tr0 _ Hauth)
        as [_ [[e He] | (user & usrcfg & He)]]; [discriminate|].
      injection He as ->. eauto.
    + split; [eauto | exact Hgate].
Qed.

(** Alice's certificate call to ListReleases, through each revision. *)
Lemma unary_serves_only_authenticated_witness :
  (exists tr0 w0,
     run sample.accepting
         (tiller.authenticate base64.DecodeString sample.ctxCert sample.syscfg) 0%nat
     = (tr0, Returned (sample.ctxCert, None), w0)) /\
  (exists tr0 v0,
     run sample.accepting
         (tiller_rv.authenticate base64.DecodeString sample.ctxCert sample.syscfg) 0%nat
     = (tr0, Returned (aliceContext, None), v0)).
Proof.
  destruct (unary_serves_only_authenticated
              base64.DecodeString sample.IsCompatible sample.Version sample.syscfg
              sample.ctxCert "req" (grpc.mkUnaryServerInfo sample.listReleases)
              nat sample.accepting) as [Hnow Hrv].
  split.
  - destruct (Hnow 0%nat 1%nat [event (Serve sample.ctxCert "req")]
                   (Returned (Some "done", None)) (event (Serve sample.ctxCert "req"))
                   sample.ctxCert "req" eq_refl (or_introl eq_refl) eq_refl)
      as (_ & _ & H1 & _).
    exact H1.
  - destruct (Hrv 0%nat 1%nat [event (Serve aliceContext "req")]
                  (Returned (Some "done", None)) (event (Serve aliceContext "req"))
                  aliceContext "req" eq_refl (or_introl eq_refl) eq_refl)
      as (_ & _ & H2 & _).
    exact H2.
Defined.

(** X5. In each revision on its own: the service's streaming method is
    entered only by a call whose client version is compatible (no method is
    exempt) and whose authenticate returned without error; the stream it is
    entered with reports the context that authenticate returned. *)
Theorem stream_serves_only_authenticated
        (DecodeString : string -> result string)
        (IsCompatible : string -> string -> bool) (Version : string)
        (syscfg : rest.Config) (srv : Payload) (ss : grpc.ServerStream)
        (info : grpc.StreamServerInfo)
        (W : Type) (h : World gatewayE W) :
  (forall (w w' : W) (tr : list (Event gatewayE)) (o : Outcome (option error))
          (ev : Event gatewayE) (c : context.Context) (s : Payload),
     run h (tiller.newStreamInterceptor DecodeString IsCompatible Version
              syscfg srv ss info grpc.serveStream) w = (tr, o, w') ->
     In ev tr -> servedStream ev = Some (s, c) ->
     IsCompatible (tiller.versionFromContext (grpc.Context ss)) Version = true /\
     s = srv /\ c = grpc.Context ss /\
     exists tr0 w0,
       run h (tiller.authenticate DecodeString (grpc.Context ss) syscfg) w
       = (tr0, Returned (c, None), w0)) /\
  (forall (v v' : W) (tr' : list (Event gatewayE)) (o' : Outcome (option error))
          (ev' : Event gatewayE) (c' : context.Context) (s' : Payload),
     run h (tiller_rv.newStreamInterceptor DecodeString IsCompatible Version
              syscfg srv ss info grpc.serveStream) v = (tr', o', v') ->
     In ev' tr' -> servedStream ev' = Some (s', c') ->
     IsCompatible (tiller.versionFromContext (grpc.Context ss)) Version = true /\
     s' = srv /\ (exists user usrcfg, c' = filed (grpc.Context ss) syscfg user usrcfg) /\
     exists tr0 v0,
       run h (tiller_rv.authenticate DecodeString (grpc.Context ss) syscfg) v
       = (tr0, Returned (c', None), v0)).
Proof.
  split.
  - intros w w' tr o ev c s Hrun Hin Hserved.
    assert (Hgate : IsCompatible (tiller.versionFromContext (grpc.Context ss)) Version = true).
    { destruct (compatible_or_refused IsCompatible Version (grpc.Context ss))
        as [[_ Hc]|[Hv Hc]]; [exact Hc|].
      rewrite (stream_rejects_incompatible DecodeString IsCompatible Version syscfg
                 srv ss info grpc.serveStream Hc) in Hrun.
      simpl in Hrun. destruct (h unit _ w) as [[] w1]. injection Hrun as <- _ _.
      destruct Hin as [<- | []]. discriminate. }
    split; [exact Hgate|].
    revert Hrun. unfold tiller.newStreamInterceptor, tiller.checkClientVersion.
    rewrite Hgate. simpl negb. cbv iota. intros Hrun.
    destruct (stream_after_authentication W h _
                (authenticate_calls DecodeString (grpc.Context ss) syscfg) srv
                (fun c0 => tiller.asServerStream (tiller.mkServerStreamWrapper ss c0))
                (fun c0 => eq_refl) w w' tr o ev c s Hrun Hin Hserved)
      as [Hs (tr0 & w0 & Hauth)].
    split; [exact Hs|]. split; [|eauto].
    exact (authenticate_keeps_context DecodeString (grpc.Context ss) c syscfg W h w w0 tr0 Hauth).
  - intros v v' tr' o' ev' c' s' Hrun' Hin' Hserved'.
    assert (Hgate : IsCompatible (tiller.versionFromContext (grpc.Context ss)) Version = true).
    { destruct (compatible_or_refused IsCompatible Version (grpc.Context ss))
        as [[_ Hc]|[Hv Hc]]; [exact Hc|].
      exfalso. revert Hrun'.
      unfold tiller_rv.newStreamInterceptor.
      change (tiller_rv.checkClientVersion IsCompatible Version (grpc.Context ss))
        with (tiller.checkClientVersion IsCompatible Version (grpc.Context ss)).
      rewrite Hv. simpl.
      destruct (h unit _ v) as [[] v1]. intros Hrun'. injection Hrun' as <- _ _.
      destruct Hin' as [<- | []]. discriminate. }
    split; [exact Hgate|].
    revert Hrun'. unfold tiller_rv.newStreamInterceptor, tiller_rv.checkClientVersion.
    change (tiller_rv.versionFromContext (grpc.Context ss))
      with (tiller.versionFromContext (grpc.Context ss)).
    rewrite Hgate. simpl negb. cbv iota. intros Hrun'.
    destruct (stream_after_authentication W h _
                (rv_authenticate_calls DecodeString (grpc.Context ss) syscfg) srv
                (fun c0 => tiller_rv.asServerStream (tiller_rv.mkServerStreamWrapper ss c0))
                (fun c0 => eq_refl) v v' tr' o' ev' c' s' Hrun' Hin' Hserved')
      as [Hs (tr0 & v0 & Hauth)].
    split; [exact Hs|]. split; [|eauto].
    destruct (rv_authenticate_outcome DecodeString (grpc.Context ss) syscfg W h v v0 tr0 _ Hauth)
      as [_ [[e He] | (user & usrcfg & He)]]; [discriminate|].
    injection He as ->. eauto.
Qed.

(** Alice's certificate call to a streaming method, through each
    revision. *)
Lemma stream_serves_only_authenticated_witness :
  sample.IsCompatible (tiller.versionFromContext sample.ctxCert) sample.Version = true /\
  (exists tr0 w0,
     run sample.accepting
         (tiller.authenticate base64.DecodeString sample.ctxCert sample.syscfg) 0%nat
     = (tr0, Returned (sample.ctxCert, None), w0)) /\
  (exists tr0 v0,
     run sample.accepting
         (tiller_rv.authenticate base64.DecodeString sample.ctxCert sample.syscfg) 0%nat
     = (tr0, Returned (aliceContext, None), v0)).
Proof.
  destruct (stream_serves_only_authenticated
              base64.DecodeString sample.IsCompatible sample.Version sample.syscfg
              "srv" (grpc.wire sample.ctxCert)
              (grpc.mkStreamServerInfo sample.listReleases false true)
              nat sample.accepting) as [Hnow Hrv].
  destruct (Hnow 0%nat 1%nat [event (ServeStream "srv" sample.ctxCert)]
                 (Returned None) (event (ServeStream "srv" sample.ctxCert))
                 sample.ctxCert "srv" eq_refl (or_introl eq_refl) eq_refl)
    as (Hgate & _ & _ & H1).
  destruct (Hrv 0%nat 1%nat [event (ServeStream "srv" aliceContext)]
                (Returned None) (event (ServeStream "srv" aliceContext))
                aliceContext "srv" eq_refl (or_introl eq_refl) eq_refl)
    as (_ & _ & _ & H2).
  split; [exact Hgate|]. split; [exact H1 | exact H2].
Defined.

(** ** Calls without metadata *)

(** X6. A call whose context holds no metadata never reaches a handler
    and causes no call to the cluster: each interceptor logs one error and
    returns it. The error is the version error for the empty client
    version, or, where the version gate lets the call through, "Missing
    metadata in context."; the same holds in the earlier revision. *)
Theorem call_without_metadata_is_refused
        (DecodeString : string -> result string)
        (IsCompatible : string -> string -> bool) (Version : string)
        (syscfg : rest.Config) (ctx : context.Context) (req : Payload)
        (info : grpc.UnaryServerInfo) (handler : grpc.UnaryHandler)
        (srv : Payload) (ss : grpc.ServerStream)
        (sinfo : grpc.StreamServerInfo) (shandler : grpc.StreamHandler)
        (Hunary : metadata.FromContext ctx = None)
        (Hstream : metadata.FromContext (grpc.Context ss) = None) :
  tiller.versionFromContext ctx = "" /\
  (exists e,
     (e = versionMismatch Version ctx \/ e = errors.New "Missing metadata in context.") /\
     tiller.newUnaryInterceptor DecodeString IsCompatible Version syscfg ctx req info handler
     = (call (Println e) ;;; Ret (None, Some e)) /\
     tiller_rv.newUnaryInterceptor DecodeString IsCompatible Version syscfg ctx req info handler
     = (call (Println e) ;;; Ret (None, Some e))) /\
  (exists e,
     (e = versionMismatch Version (grpc.Context ss) \/
      e = errors.New "Missing metadata in context.") /\
     tiller.newStreamInterceptor DecodeString IsCompatible Version syscfg srv ss sinfo shandler
     = (call (Println e) ;;; Ret (Some e)) /\
     tiller_rv.newStreamInterceptor DecodeString IsCompatible Version syscfg srv ss sinfo
                                    shandler
     = (call (Println e) ;;; Ret (Some e))).
Proof.
  split; [unfold tiller.versionFromContext; now rewrite Hunary|].
  split.
  - unfold tiller.newUnaryInterceptor, tiller_rv.newUnaryInterceptor,
      tiller.authenticate, tiller_rv.authenticate.
    change (tiller_rv.checkClientVersion IsCompatible Version ctx)
      with (tiller.checkClientVersion IsCompatible Version ctx).
    change (tiller_rv.splitMethod (grpc.FullMethod info))
      with (tiller.splitMethod (grpc.FullMethod info)).
    rewrite Hunary.
    destruct (compatible_or_refused IsCompatible Version ctx) as [[-> _]|[-> _]].
    + exists (errors.New "Missing metadata in context."). auto.
    + destruct (String.eqb (snd (tiller.splitMethod (grpc.FullMethod info))) "GetVersion").
      * exists (errors.New "Missing metadata in context."). auto.
      * exists (versionMismatch Version ctx). auto.
  - unfold tiller.newStreamInterceptor, tiller_rv.newStreamInterceptor,
      tiller.authenticate, tiller_rv.authenticate.
    change (tiller_rv.checkClientVersion IsCompatible Version (grpc.Context ss))
      with (tiller.checkClientVersion IsCompatible Version (grpc.Context ss)).
    rewrite Hstream.
    destruct (compatible_or_refused IsCompatible Version (grpc.Context ss))
      as [[-> _]|[-> _]].
    + exists (errors.New "Missing metadata in context."). auto.
    + exists (versionMismatch Version (grpc.Context ss)). auto.
Qed.

(** A context with a peer and no metadata. *)
Lemma call_without_metadata_is_refused_witness :
  exists e,
    (e = versionMismatch sample.Version sample.ctxNoMetadata \/
     e = errors.New "Missing metadata in context.") /\
    tiller.newUnaryInterceptor base64.DecodeString sample.IsCompatible sample.Version
      sample.syscfg sample.ctxNoMetadata "req"
      (grpc.mkUnaryServerInfo sample.getVersion) grpc.serve
    = (call (Println e) ;;; Ret (None, Some e)).
Proof.
  destruct (call_without_metadata_is_refused
              base64.DecodeString sample.IsCompatible sample.Version sample.syscfg
              sample.ctxNoMetadata "req" (grpc.mkUnaryServerInfo sample.getVersion) grpc.serve
              "srv" (grpc.wire sample.ctxNoMetadata)
              (grpc.mkStreamServerInfo sample.listReleases false true) grpc.serveStream
              eq_refl eq_refl)
    as (_ & (e & He & Hu & _) & _).
  exists e. split; assumption.
Defined.

(** ** Full method names *)

Lemma joinSlash_cons (f g : string) (rest : list string) :
  joinSlash (f :: g :: rest) = f +:+ String "/" (joinSlash (g :: rest)).
Proof. reflexivity. Qed.

Lemma length_joinSlash (frags : list string) :
  (length frags - 1 <= String.length (joinSlash frags))%nat.
Proof.
  induction frags as [|f [|g rest] IH]; [simpl; lia | simpl; lia |].
  rewrite joinSlash_cons, length_append.
  change (String.length (String "/" (joinSlash (g :: rest))))
    with (S (String.length (joinSlash (g :: rest)))).
  change (length (f :: g :: rest) - 1)%nat with (S (length rest)).
  change (length (g :: rest) - 1)%nat with (length rest - 0)%nat in IH. lia.
Qed.

Lemma count_joinSlash (frags : list string) (fuel : nat) :
  Forall slashFree frags ->
  (length frags - 1 <= fuel)%nat ->
  strings.count_fuel fuel (joinSlash frags) "/" = (length frags - 1)%nat.
Proof.
  revert fuel; induction frags as [|f [|g rest] IH]; intros fuel Hfree Hfuel.
  - destruct fuel; reflexivity.
  - apply Forall_inv in Hfree. destruct fuel; [reflexivity|]. simpl.
    now rewrite (Index_byte_none "/" f Hfree).
  - pose proof (Forall_inv Hfree) as Hf. apply Forall_inv_tail in Hfree.
    destruct fuel as [|fuel]; [simpl in Hfuel; lia|].
    rewrite joinSlash_cons. simpl strings.count_fuel.
    rewrite (Index_byte_first "/" f _ Hf).
    change (String.length "/") with 1%nat. rewrite drop_past_byte.
    rewrite IH; [simpl; lia | exact Hfree | simpl in *; lia].
Qed.

Lemma splitLoop_joinSlash (frags : list string) (n : nat) :
  frags <> [] ->
  Forall slashFree frags ->
  (length frags - 1 <= n)%nat ->
  strings.splitLoop n (joinSlash frags) "/" = frags.
Proof.
  revert n; induction frags as [|f [|g rest] IH]; intros n Hne Hfree Hn.
  - contradiction.
  - apply Forall_inv in Hfree. destruct n; [reflexivity|]. simpl.
    now rewrite (Index_byte_none "/" f Hfree).
  - pose proof (Forall_inv Hfree) as Hf. apply Forall_inv_tail in Hfree.
    destruct n as [|n]; [simpl in Hn; lia|].
    rewrite joinSlash_cons. simpl strings.splitLoop.
    rewrite (Index_byte_first "/" f _ Hf).
    change (String.length "/") with 1%nat. rewrite drop_past_byte.
    change (String "/" (joinSlash (g :: rest))) with ("/" +:+ joinSlash (g :: rest)).
    rewrite take_append.
    rewrite IH; [reflexivity | discriminate | exact Hfree | simpl in *; lia].
Qed.

(** strings.Split undoes strings.Join on fragments without separator. *)
Lemma Split_joinSlash (frags : list string) :
  frags <> [] -> Forall slashFree frags ->
  strings.Split (joinSlash frags) "/" = frags.
Proof.
  intros Hne Hfree. unfold strings.Split, strings.genSplit.
  change (-1 =? 0) with false. change (-1 <? 0) with true. cbv iota.
  unfold strings.Count.
  rewrite (count_joinSlash frags _ Hfree (length_joinSlash frags)).
  pose proof (length_joinSlash frags) as Hlen.
  assert (Hpos : (1 <= length frags)%nat) by (destruct frags; [contradiction | simpl; lia]).
  destruct (Z.of_nat (length frags - 1) + 1 >? Z.of_nat (String.length (joinSlash frags)) + 1)
    eqn:E.
  - rewrite Z.gtb_ltb in E. apply Z.ltb_lt in E. lia.
  - apply splitLoop_joinSlash; [exact Hne | exact Hfree | lia].
Qed.

(** Every string is the join of its fragments between slashes. *)
Lemma joinSlash_complete (s : string) :
  exists frags, frags <> [] /\ Forall slashFree frags /\ s = joinSlash frags.
Proof.
  induction s as [|c s (frags & Hne & Hfree & ->)].
  - exists [""]. repeat split; [discriminate|]. constructor; [|constructor].
    unfold slashFree. simpl. tauto.
  - destruct (ascii_dec c "/") as [->|Hc].
    + exists ("" :: frags). split; [discriminate|]. split.
      * constructor; [unfold slashFree; simpl; tauto | exact Hfree].
      * destruct frags as [|g rest]; [contradiction | reflexivity].
    + destruct frags as [|f rest]; [contradiction|].
      exists (String c f :: rest). split; [discriminate|]. split.
      * pose proof (Forall_inv Hfree) as Hf. apply Forall_inv_tail in Hfree.
        constructor; [|exact Hfree].
        unfold slashFree in *. simpl. intros [Heq | Hin]; [congruence | tauto].
      * destruct rest; reflexivity.
Qed.

(** X7. splitMethod reads a full method name as its fragments between
    slashes: a name of exactly three fragments, "x/service/method" (gRPC
    sends an empty x), yields the service and the method, whatever x is;
    every other name, with fewer or more slashes, yields "unknown",
    "unknown". Every string is such a join, so this describes splitMethod
    on every name. *)
Theorem splitMethod_reads_three_fragments
        (frags : list string)
        (Hne : frags <> []) (Hfree : Forall slashFree frags) :
  tiller.splitMethod (joinSlash frags)
    = match frags with
      | [_; service; method] => (service, method)
      | _ => ("unknown", "unknown")
      end /\
  tiller_rv.splitMethod (joinSlash frags) = tiller.splitMethod (joinSlash frags) /\
  (forall s, exists frags', frags' <> [] /\ Forall slashFree frags' /\ s = joinSlash frags').
Proof.
  split; [|split; [reflexivity | apply joinSlash_complete]].
  unfold tiller.splitMethod. rewrite (Split_joinSlash frags Hne Hfree).
  destruct frags as [|a [|b [|c [|d rest]]]]; reflexivity.
Qed.

(** The name of GetVersion, a name without leading slash, and a name with
    one fragment too many. *)
Lemma splitMethod_reads_three_fragments_witness :
  tiller.splitMethod "/hapi.services.tiller.ReleaseService/GetVersion"
    = ("hapi.services.tiller.ReleaseService", "GetVersion") /\
  tiller.splitMethod "ReleaseService/GetVersion" = ("unknown", "unknown") /\
  tiller.splitMethod "/a/ReleaseService/GetVersion" = ("unknown", "unknown").
Proof.
  split; [|split].
  - apply (splitMethod_reads_three_fragments
             [""; "hapi.services.tiller.ReleaseService"; "GetVersion"]);
      [discriminate | repeat constructor; unfold slashFree; simpl; intuition discriminate].
  - apply (splitMethod_reads_three_fragments ["ReleaseService"; "GetVersion"]);
      [discriminate | repeat constructor; unfold slashFree; simpl; intuition discriminate].
  - apply (splitMethod_reads_three_fragments [""; "a"; "ReleaseService"; "GetVersion"]);
      [discriminate | repeat constructor; unfold slashFree; simpl; intuition discriminate].
Defined.

(** ** From header to filed identity (earlier revision) *)

Lemma rv_authenticate_basic
      (DecodeString : string -> result string) (ctx : context.Context)
      (syscfg : rest.Config) (md : MD) (payload : string) (others : list string) :
  metadata.FromContext ctx = Some md ->
  md !! kube.Authorization = Some (("Basic " +:+ payload) :: others) ->
  tiller_rv.authenticate DecodeString ctx syscfg
  = (v <- tiller_rv.checkBasicAuth DecodeString ("Basic " +:+ payload) syscfg ;;
     Ret (tiller_rv.fileVerdict ctx syscfg v)).
Proof.
  intros H Hh. unfold tiller_rv.authenticate. rewrite H, Hh.
  replace (String.eqb ("Basic " +:+ payload) "") with false by reflexivity.
  replace (strings.HasPrefix ("Basic " +:+ payload) "Bearer ") with false by reflexivity.
  unfold strings.HasPrefix. now rewrite prefix_append.
Qed.

Lemma rv_authenticate_certificate
      (DecodeString : string -> result string) (ctx : context.Context)
      (syscfg : rest.Config) (md : MD) :
  metadata.FromContext ctx = Some md ->
  noAuthorization md ->
  tiller_rv.authenticate DecodeString ctx syscfg
  = Ret (tiller_rv.fileVerdict ctx syscfg (tiller_rv.checkClientCert ctx syscfg)).
Proof.
  intros H Hno. unfold tiller_rv.authenticate. rewrite H.
  destruct Hno as [-> | [-> | [others ->]]]; reflexivity.
Qed.

(** X8. A basic-auth call in the earlier revision, from header to
    context: when the payload decodes to "u:p" with a non-empty user name
    without colon and a non-empty password (colons allowed), and the
    cluster accepts the client set and the probe made with these
    credentials, authenticate makes exactly these two calls and files the
    identity u and the configuration that carries u and the whole of p. *)
Theorem basic_call_files_credentials
        (DecodeString : string -> result string) (ctx : context.Context)
        (syscfg : rest.Config) (md : MD) (payload u p : string) (others : list string)
        (W : Type) (h : World gatewayE W) (w w1 w2 : W)
        (Hmd : metadata.FromContext ctx = Some md)
        (Hheader : md !! kube.Authorization = Some (("Basic " +:+ payload) :: others))
        (Hdecoded : DecodeString payload = Ok (u +:+ ":" +:+ p))
        (Hcolon : colonFree u) (Hu : u <> "") (Hp : p <> "")
        (Hclient : h _ (NewForConfig (basicConfig syscfg u p)) w = (None, w1))
        (Hprobe : h _ (ServerVersion (basicConfig syscfg u p)) w1 = (None, w2)) :
  run h (tiller_rv.authenticate DecodeString ctx syscfg) w
  = ([event (NewForConfig (basicConfig syscfg u p));
      event (ServerVersion (basicConfig syscfg u p))],
     Returned (filed ctx syscfg (Some (authenticationapi.mkUserInfo u "" []))
                     (Some (basicConfig syscfg u p)), None),
     w2) /\
  rest.Username (basicConfig syscfg u p) = u /\
  rest.Password (basicConfig syscfg u p) = p.
Proof.
  split; [|split; reflexivity].
  rewrite (rv_authenticate_basic DecodeString ctx syscfg md payload others Hmd Hheader).
  destruct (getUserPassword_pair u p Hcolon) as [Hpair _].
  destruct (checkBasicAuth_probes DecodeString ctx syscfg payload _ u p
              Hdecoded Hpair Hu Hp) as [Hrv _].
  rewrite run_bind, (same_run h _ _ Hrv). simpl. rewrite Hclient. simpl.
  rewrite Hprobe. reflexivity.
Qed.

(** admin with the password s3:cr:et ("YWRtaW46czM6Y3I6ZXQ="). *)
Lemma basic_call_files_credentials_witness :
  run sample.accepting
      (tiller_rv.authenticate base64.DecodeString
         (sample.transport sample.plainPeer (sample.mdWith "Basic YWRtaW46czM6Y3I6ZXQ="))
         sample.syscfg) 0%nat
  = ([event (NewForConfig (basicConfig sample.syscfg "admin" "s3:cr:et"));
      event (ServerVersion (basicConfig sample.syscfg "admin" "s3:cr:et"))],
     Returned (filed (sample.transport sample.plainPeer
                        (sample.mdWith "Basic YWRtaW46czM6Y3I6ZXQ="))
                     sample.syscfg
                     (Some (authenticationapi.mkUserInfo "admin" "" []))
                     (Some (basicConfig sample.syscfg "admin" "s3:cr:et")), None),
     2%nat).
Proof.
  apply (basic_call_files_credentials
           base64.DecodeString
           (sample.transport sample.plainPeer (sample.mdWith "Basic YWRtaW46czM6Y3I6ZXQ="))
           sample.syscfg (sample.mdWith "Basic YWRtaW46czM6Y3I6ZXQ=")
           "YWRtaW46czM6Y3I6ZXQ=" "admin" "s3:cr:et" []
           nat sample.accepting 0%nat 1%nat 2%nat);
    try reflexivity; try discriminate.
  unfold colonFree. simpl. intuition discriminate.
Defined.

(** X9. A call without authorization header is settled from the
    transport's peer information alone, in both revisions: authenticate
    makes no outside call, whether the certificate check fails or succeeds.
    When the first verified chain has a leaf, the earlier revision files
    the leaf's common name as identity and the system configuration
    impersonating that name. *)
Theorem certificate_call_is_settled_offline
        (DecodeString : string -> result string) (ctx : context.Context)
        (syscfg : rest.Config) (md : MD)
        (Hmd : metadata.FromContext ctx = Some md)
        (Hno : noAuthorization md) :
  (exists r, tiller_rv.authenticate DecodeString ctx syscfg = Ret r) /\
  (exists r, tiller.authenticate DecodeString ctx syscfg = Ret r) /\
  (forall p st c chain chains,
     peerctx.FromContext ctx = Some p ->
     peer.AuthInfo p = credentials.TLSInfo st ->
     credentials.VerifiedChains st = (c :: chain) :: chains ->
     tiller_rv.authenticate DecodeString ctx syscfg
     = Ret (filed ctx syscfg
                  (Some (authenticationapi.mkUserInfo (credentials.Subject_CommonName c) "" []))
                  (Some (rest.set_Impersonate (credentials.Subject_CommonName c) syscfg)),
            None)) /\
  (forall e,
     tiller_rv.checkClientCert ctx syscfg = tiller_rv.failed e ->
     tiller_rv.authenticate DecodeString ctx syscfg = Ret (context.nil, Some e)).
Proof.
  rewrite (rv_authenticate_certificate DecodeString ctx syscfg md Hmd Hno).
  rewrite (authenticate_certificate DecodeString ctx syscfg md Hmd Hno).
  split; [eauto|]. split; [eauto|]. split.
  - intros p st c chain chains Hp Hst Hch. unfold tiller_rv.checkClientCert.
    now rewrite Hp, Hst, Hch.
  - intros e ->. reflexivity.
Qed.

(** Alice's certificate call, and a call over a connection without TLS. *)
Lemma certificate_call_is_settled_offline_witness :
  tiller_rv.authenticate base64.DecodeString sample.ctxCert sample.syscfg
    = Ret (aliceContext, None) /\
  tiller_rv.authenticate base64.DecodeString
      (sample.transport sample.plainPeer sample.mdCurrent) sample.syscfg
    = Ret (context.nil, Some (errors.New "No TLS credential found!")).
Proof.
  split.
  - apply (proj1 (proj2 (proj2 (certificate_call_is_settled_offline
                                  base64.DecodeString sample.ctxCert sample.syscfg
                                  sample.mdCurrent eq_refl (or_introl eq_refl))))
             sample.tlsPeer (credentials.mkConnectionState [[sample.alice]])
             sample.alice [] []); reflexivity.
  - apply (proj2 (proj2 (proj2 (certificate_call_is_settled_offline
                                  base64.DecodeString
                                  (sample.transport sample.plainPeer sample.mdCurrent)
                                  sample.syscfg sample.mdCurrent eq_refl
                                  (or_introl eq_refl))))).
    reflexivity.
Defined.

(** * Further properties of the storage factory *)

(** ** The namespace *)

(** X10. The storage namespace is resolved in this order: the
    environment variable TILLER_NAMESPACE when it is not empty, and then
    the service-account file is not read; else the trimmed contents of the
    service-account file when the file can be read and they are not empty;
    else the compiled-in default. The function always returns, and with a
    non-empty default it never returns the empty namespace. *)
Theorem storage_namespace_resolution
        (DefaultTillerNamespace : string) (TrimSpace : string -> string)
        (W : Type) (h : World storage.storageE W) (w w1 w2 : W)
        (env : string) (file : result string)
        (Henv : h _ (storage.Getenv "TILLER_NAMESPACE") w = (env, w1))
        (Hfile : h _ (storage.ReadFile serviceAccountNamespace) w1 = (file, w2))
        (Hdefault : DefaultTillerNamespace <> "") :
  exists ns tr w',
    run h (storage.namespace DefaultTillerNamespace TrimSpace) w = (tr, Returned ns, w') /\
    ns <> "" /\
    (env <> "" ->
     ns = env /\ tr = [event (storage.Getenv "TILLER_NAMESPACE")] /\ w' = w1) /\
    (env = "" ->
     tr = [event (storage.Getenv "TILLER_NAMESPACE");
           event (storage.ReadFile serviceAccountNamespace)] /\
     w' = w2 /\
     ns = match file with
          | Ok data => if String.eqb (TrimSpace data) "" then DefaultTillerNamespace
                       else TrimSpace data
          | Err _ => DefaultTillerNamespace
          end).
Proof.
  unfold storage.namespace, serviceAccountNamespace in *. simpl. rewrite Henv.
  destruct (String.eqb_spec env "") as [->|Hne]; simpl.
  - rewrite Hfile. destruct file as [data|e]; simpl.
    + destruct (String.eqb_spec (TrimSpace data) "") as [Heq|Hd].
      * rewrite Heq. simpl. eexists _, _, _. split; [reflexivity|].
        split; [exact Hdefault|]. split; [tauto | auto].
      * assert (Hlt : Nat.ltb 0 (String.length (TrimSpace data)) = true)
          by (destruct (TrimSpace data); [contradiction | reflexivity]).
        rewrite Hlt. simpl. eexists _, _, _. split; [reflexivity|].
        split; [exact Hd|]. split; [tauto | auto].
    + eexists _, _, _. split; [reflexivity|].
      split; [exact Hdefault|]. split; [tauto | auto].
  - eexists _, _, _. split; [reflexivity|]. split; [exact Hne|].
    split; [auto | tauto].
Qed.

(** No environment override, and a service-account file that names
    tiller-ns. *)
Lemma storage_namespace_resolution_witness :
  exists ns tr w',
    run sample.cluster (storage.namespace sample.DefaultTillerNamespace sample.TrimSpace) ∅
      = (tr, Returned ns, w') /\
    ns <> "" /\ ("" = "" -> ns = "tiller-ns").
Proof.
  destruct (storage_namespace_resolution
              sample.DefaultTillerNamespace sample.TrimSpace (gset string) sample.cluster
              ∅ ∅ ∅ "" (Ok "tiller-ns") eq_refl eq_refl ltac:(discriminate))
    as (ns & tr & w' & Hrun & Hne & _ & Hfile).
  exists ns, tr, w'. split; [exact Hrun|]. split; [exact Hne|].
  intros He. now destruct (Hfile He) as (_ & _ & ->).
Defined.

(** X11. The namespace of the wrapped client configuration is resolved
    in the same order from POD_NAMESPACE, the service-account file and the
    name "default". Its error is always nil and its namespace never empty;
    its flag is true exactly when the namespace came from the environment
    or the file. *)
Theorem client_namespace_resolution
        (TrimSpace : string -> string) (cfg : kube.wrapClientConfig)
        (W : Type) (h : World storage.storageE W) (w w1 w2 : W)
        (env : string) (file : result string)
        (Henv : h _ (storage.Getenv "POD_NAMESPACE") w = (env, w1))
        (Hfile : h _ (storage.ReadFile serviceAccountNamespace) w1 = (file, w2)) :
  exists ns found tr w',
    run h (wrapClientConfig.Namespace TrimSpace cfg) w
      = (tr, Returned (ns, found, None), w') /\
    ns <> "" /\
    (found = false -> ns = "default") /\
    (env <> "" ->
     ns = env /\ found = true /\ tr = [event (storage.Getenv "POD_NAMESPACE")] /\ w' = w1) /\
    (env = "" ->
     tr = [event (storage.Getenv "POD_NAMESPACE");
           event (storage.ReadFile serviceAccountNamespace)] /\
     w' = w2 /\
     (ns, found) = match file with
                   | Ok data => if String.eqb (TrimSpace data) "" then ("default", false)
                                else (TrimSpace data, true)
                   | Err _ => ("default", false)
                   end).
Proof.
  unfold wrapClientConfig.Namespace, serviceAccountNamespace in *. simpl. rewrite Henv.
  destruct (String.eqb_spec env "") as [->|Hne]; simpl.
  - rewrite Hfile. destruct file as [data|e]; simpl.
    + destruct (String.eqb_spec (TrimSpace data) "") as [Heq|Hd].
      * rewrite Heq. simpl. eexists _, _, _, _. split; [reflexivity|].
        split; [discriminate|]. split; [auto|]. split; [tauto | auto].
      * assert (Hlt : Nat.ltb 0 (String.length (TrimSpace data)) = true)
          by (destruct (TrimSpace data); [contradiction | reflexivity]).
        rewrite Hlt. simpl. eexists _, _, _, _. split; [reflexivity|].
        split; [exact Hd|]. split; [discriminate|]. split; [tauto | auto].
    + eexists _, _, _, _. split; [reflexivity|].
      split; [discriminate|]. split; [auto|]. split; [tauto | auto].
  - eexists _, _, _, _. split; [reflexivity|]. split; [exact Hne|].
    split; [discriminate|]. split; [auto | tauto].
Qed.

(** No POD_NAMESPACE, and a service-account file that names tiller-ns. *)
Lemma client_namespace_resolution_witness :
  exists ns found tr w',
    run sample.cluster
        (wrapClientConfig.Namespace sample.TrimSpace (kube.mkWrapClientConfig sample.syscfg)) ∅
      = (tr, Returned (ns, found, None), w') /\
    ns <> "".
Proof.
  destruct (client_namespace_resolution
              sample.TrimSpace (kube.mkWrapClientConfig sample.syscfg)
              (gset string) sample.cluster ∅ ∅ ∅ "" (Ok "tiller-ns") eq_refl eq_refl)
    as (ns & found & tr & w' & Hrun & Hne & _).
  exists ns, found, tr, w'. split; assumption.
Defined.

(** ** The object-store configuration *)

Lemma lookup_setIfNonEmpty (k v j : string) (m : stow.ConfigMap) :
  storage.setIfNonEmpty k v m !! j
  = if String.eqb k j then (match nonEmpty v with Some x => Some x | None => m !! j end)
    else m !! j.
Proof.
  unfold storage.setIfNonEmpty, nonEmpty.
  destruct (String.eqb_spec k j) as [->|Hne]; destruct (String.eqb v ""); simpl;
    try reflexivity.
  - apply lookup_insert_eq.
  - now apply lookup_insert_ne.
Qed.

(** X12. For the providers s3, azure and swift the object-store
    configuration is built without any outside call, and it binds each key
    of the provider to the option field of that key exactly when the field
    is not empty; an empty field leaves its key unbound. *)
Theorem provider_configuration_binds_fields (opts : storage.StoreOptions) :
  (storage.ObjectStoreProvider opts = s3.Kind ->
   exists m,
     storage.providerConfig opts = Ret m /\
     m !! s3.ConfigAccessKeyID = nonEmpty (storage.S3ConfigAccessKeyID opts) /\
     m !! s3.ConfigEndpoint = nonEmpty (storage.S3ConfigEndpoint opts) /\
     m !! s3.ConfigRegion = nonEmpty (storage.S3ConfigRegion opts) /\
     m !! s3.ConfigSecretKey = nonEmpty (storage.S3ConfigSecretKey opts)) /\
  (storage.ObjectStoreProvider opts = azure.Kind ->
   exists m,
     storage.providerConfig opts = Ret m /\
     m !! azure.ConfigAccount = nonEmpty (storage.AzureConfigAccount opts) /\
     m !! azure.ConfigKey = nonEmpty (storage.AzureConfigKey opts)) /\
  (storage.ObjectStoreProvider opts = swift.Kind ->
   exists m,
     storage.providerConfig opts = Ret m /\
     m !! swift.ConfigKey = nonEmpty (storage.SwiftConfigKey opts) /\
     m !! swift.ConfigTenantAuthURL = nonEmpty (storage.SwiftConfigTenantAuthURL opts) /\
     m !! swift.ConfigTenantName = nonEmpty (storage.SwiftConfigTenantName opts) /\
     m !! swift.ConfigUsername = nonEmpty (storage.SwiftConfigUsername opts)).
Proof.
  unfold storage.providerConfig.
  split; [|split]; intros ->; simpl; eexists; (split; [reflexivity|]);
    repeat split; repeat rewrite lookup_setIfNonEmpty; simpl; rewrite ?lookup_empty;
    repeat match goal with |- context [nonEmpty ?v] => destruct (nonEmpty v) end;
    reflexivity.
Qed.

(** The s3 fields of the sample options, whose endpoint is empty. *)
Lemma provider_configuration_binds_fields_witness :
  exists m,
    storage.providerConfig (sample.options "object-store-tpr" "s3") = Ret m /\
    m !! "access_key_id" = Some "AKIA" /\
    m !! "endpoint" = None.
Proof.
  destruct (proj1 (provider_configuration_binds_fields
                     (sample.options "object-store-tpr" "s3")) eq_refl)
    as (m & Hm & H1 & H2 & _).
  exists m. split; [exact Hm|]. split; [exact H1 | exact H2].
Defined.

(** ** What the factory calls, and how it exits *)

Lemma within_bind {E : Type -> Type} {A B : Type}
      (P : forall X, E X -> Prop) (Q : A -> Prop) (R : B -> Prop)
      (p : Prog E A) (f : A -> Prog E B) :
  within P Q p -> (forall a, Q a -> within P R (f a)) -> within P R (bind p f).
Proof.
  intros Hp Hf. induction Hp as [a Ha|code|X e k He _ IH]; simpl.
  - now apply Hf.
  - constructor.
  - constructor; assumption.
Qed.

Lemma within_run {E : Type -> Type} {W A : Type}
      (P : forall X, E X -> Prop) (Q : A -> Prop) (h : World E W) (p : Prog E A) :
  within P Q p ->
  forall w tr o w', run h p w = (tr, o, w') ->
  Forall (fun ev : Event E => P (projT1 ev) (projT2 ev)) tr /\
  (forall a, o = Returned a -> Q a).
Proof.
  induction 1 as [a Ha|code|X e k He _ IH]; intros w tr o w'; simpl.
  - intros H. injection H as <- <- _. split; [constructor | congruence].
  - intros H. injection H as <- <- _. split; [constructor | discriminate].
  - destruct (h X e w) as [x w1].
    destruct (run h (k x) w1) as [[tr1 o1] w2] eqn:Hrun.
    intros H. injection H as <- <- _.
    destruct (IH x w1 tr1 o1 w2 Hrun) as [Htr Ho].
    split; [constructor; assumption | exact Ho].
Qed.

Lemma announced_bind {A B : Type} (prev : option (Event storage.storageE))
      (p : Prog storage.storageE A) (f : A -> Prog storage.storageE B) :
  announced prev p -> (forall a prev', announced prev' (f a)) -> announced prev (bind p f).
Proof.
  intros Hp Hf. induction Hp as [prev a|ev code Hw|prev X e k _ IH]; simpl.
  - apply Hf.
  - now constructor.
  - constructor. exact IH.
Qed.

Lemma announced_run {W A : Type} (h : World storage.storageE W)
      (prev : option (Event storage.storageE)) (p : Prog storage.storageE A) :
  announced prev p ->
  forall w tr code w', run h p w = (tr, Exited code, w') ->
  exists ev, lastCall (option_list prev ++ tr) = Some ev /\ lastWords code ev.
Proof.
  unfold lastCall.
  induction 1 as [prev a|ev code0 Hw|prev X e k _ IH]; intros w tr code w'; simpl.
  - discriminate.
  - intros H. injection H as <- <- _. exists ev. split; [reflexivity | exact Hw].
  - destruct (h X e w) as [x w1].
    destruct (run h (k x) w1) as [[tr1 o1] w2] eqn:Hrun.
    intros H. injection H as <- -> _.
    destruct (IH x w1 tr1 code w2 Hrun) as (ev & Hlast & Hw).
    exists ev. split; [|exact Hw]. simpl in Hlast.
    rewrite last_app_cons. exact Hlast.
Qed.

(** Walk a factory program, checking its calls or its exits. *)
Ltac check_within :=
  repeat first
    [ apply within_Halt
    | apply within_Ret; exact I
    | apply within_Vis; [simpl; now auto | intros ?]
    | match goal with
      | |- within _ _ (match ?x with _ => _ end) => destruct x
      | |- within _ _ (if ?b then _ else _) => destruct b
      end ].

Ltac check_announced :=
  repeat first
    [ apply announced_Ret
    | apply announced_Halt; reflexivity
    | apply announced_Vis; intros ?
    | apply announced_bind; [|intros ? ?]
    | match goal with
      | |- announced _ (match ?x with _ => _ end) => destruct x
      | |- announced _ (if ?b then _ else _) => destruct b
      end ].

Section Confinement.

Variables (DefaultTillerNamespace GroupName : string) (TrimSpace : string -> string).
Variables (client : kube.Client) (opts : storage.StoreOptions).







Lemma NewStorage_announced :
  announced None (storage.NewStorage DefaultTillerNamespace GroupName TrimSpace client opts).
Proof.
  assert (Hns : forall prev, announced prev (storage.namespace DefaultTillerNamespace TrimSpace)).
  { intros prev. unfold storage.namespace. simpl. check_announced. }
  assert (Hboot : forall prev, announced prev (storage.ensureResource GroupName)).
  { intros prev. unfold_bootstrap. simpl. check_announced. }
  assert (Hdie : forall prev cfg, announced prev (storage.extensionsClientOrDie cfg)).
  { intros prev cfg. unfold storage.extensionsClientOrDie. simpl. check_announced. }
  assert (Hprov : forall prev, announced prev (storage.providerConfig opts)).
  { intros prev. unfold storage.providerConfig.
    repeat match goal with
           | |- announced _ (if ?b then _ else _) => destruct b
           end; simpl; check_announced. }
  unfold storage.NewStorage. simpl.
  apply announced_Vis. intros [clientcfg|err]; simpl; [|check_announced].
  apply announced_Vis. intros [err|]; simpl; [check_announced|].
  unfold storage.selectDriver.
  repeat match goal with
         | |- announced _ (if ?b then _ else _) => destruct b
         end.
  - constructor.
  - apply announced_bind; [apply Hns | intros; constructor].
  - apply announced_bind; [apply Hboot | intros].
    apply announced_bind; [apply Hdie | intros].
    apply announced_bind; [apply Hns | intros; constructor].
  - apply announced_bind; [apply Hboot | intros].
    apply announced_bind; [apply Hprov | intros].
    simpl. check_announced.
  - constructor.
Qed.

End Confinement.



(** X14. The storage factory never ends the process silently: when a run
    ends the process, the call made last is either a message written to
    standard error, and the status is 1, or the extensions-client
    constructor that panicked, and the status is 2. *)
Theorem factory_exit_is_announced
        {W : Type} (h : World storage.storageE W)
        (DefaultTillerNamespace GroupName : string) (TrimSpace : string -> string)
        (client : kube.Client) (opts : storage.StoreOptions)
        (w w' : W) (tr : list (Event storage.storageE)) (code : Z) :
  run h (storage.NewStorage DefaultTillerNamespace GroupName TrimSpace client opts) w
    = (tr, Exited code, w') ->
  exists ev, lastCall tr = Some ev /\ lastWords code ev.
Proof.
  intros Hrun.
  exact (announced_run h None _
           (NewStorage_announced DefaultTillerNamespace GroupName TrimSpace client opts)
           w tr code w' Hrun).
Qed.

(** Another replica registers the release resource between the lookup and
    the creation: the factory reports the failed creation and exits with
    status 1. *)
Lemma factory_exit_is_announced_witness :
  exists ev,
    lastCall (trace sample.racing
                (storage.NewStorage sample.DefaultTillerNamespace sample.GroupName
                   sample.TrimSpace sample.client (sample.options "inline-tpr" "")) 0%nat)
      = Some ev /\
    lastWords 1 ev.
Proof.
  exact (factory_exit_is_announced sample.racing
           sample.DefaultTillerNamespace sample.GroupName sample.TrimSpace
           sample.client (sample.options "inline-tpr" "") 0%nat _ _ 1 eq_refl).
Defined.

Lemma NewStorage_unknown_provider
      (DefaultTillerNamespace GroupName : string) (TrimSpace : string -> string)
      (client : kube.Client) (opts : storage.StoreOptions) :
  storage.StoreType_ opts = storage.StorageObjectStoreTPR ->
  ~ knownProvider (storage.ObjectStoreProvider opts) ->
  within beforeDial (fun _ : option storage.Storage * option error => False)
         (storage.NewStorage DefaultTillerNamespace GroupName TrimSpace client opts).
Proof.
  intros Hk Hp. unfold knownProvider in Hp.
  unfold storage.NewStorage. simpl.
  apply within_Vis; [exact I | intros [clientcfg|err]]; simpl;
    [|apply within_Vis; [exact I | intros _]; constructor].
  apply within_Vis; [exact I | intros [err|]]; simpl;
    [apply within_Vis; [exact I | intros _]; constructor|].
  unfold storage.selectDriver. rewrite Hk.
  change (String.eqb storage.StorageObjectStoreTPR storage.StorageMemory) with false.
  change (String.eqb storage.StorageObjectStoreTPR storage.StorageConfigMap) with false.
  change (String.eqb storage.StorageObjectStoreTPR storage.StorageInlineTPR) with false.
  change (String.eqb storage.StorageObjectStoreTPR storage.StorageObjectStoreTPR) with true.
  cbv iota.
  apply (within_bind _ (fun _ => True)).
  { unfold_bootstrap. simpl. check_within. }
  intros _ _.
  apply (within_bind _ (fun _ => False)); [|intros ? []].
  unfold storage.providerConfig.
  destruct (String.eqb_spec (storage.ObjectStoreProvider opts) s3.Kind); [tauto|].
  destruct (String.eqb_spec (storage.ObjectStoreProvider opts) gcs.Kind); [tauto|].
  destruct (String.eqb_spec (storage.ObjectStoreProvider opts) azure.Kind); [tauto|].
  destruct (String.eqb_spec (storage.ObjectStoreProvider opts) swift.Kind); [tauto|].
  simpl. apply within_Vis; [exact I | intros _]. constructor.
Qed.

(** X15. For the object-store kind with a provider other than s3, google,
    azure and swift, the factory never yields a storage: every run ends the
    process with status 1, and it does so before any object store is dialled,
    any container is asked for or any extensions client is built. *)
Theorem unknown_provider_is_fatal
        {W : Type} (h : World storage.storageE W)
        (DefaultTillerNamespace GroupName : string) (TrimSpace : string -> string)
        (client : kube.Client) (opts : storage.StoreOptions) (w : W) :
  storage.StoreType_ opts = storage.StorageObjectStoreTPR ->
  ~ knownProvider (storage.ObjectStoreProvider opts) ->
  outcome h (storage.NewStorage DefaultTillerNamespace GroupName TrimSpace client opts) w
    = Exited 1 /\
  Forall (fun ev : Event storage.storageE => beforeDial (projT1 ev) (projT2 ev))
         (trace h (storage.NewStorage DefaultTillerNamespace GroupName TrimSpace client opts) w).
Proof.
  intros Hk Hp. unfold trace, outcome.
  destruct (run h (storage.NewStorage DefaultTillerNamespace GroupName TrimSpace client opts) w)
    as [[tr o] w'] eqn:Hrun. simpl.
  destruct (within_run _ _ h _
              (NewStorage_unknown_provider DefaultTillerNamespace GroupName TrimSpace
                 client opts Hk Hp) w tr o w' Hrun) as [Hcalls Hret].
  split; [|exact Hcalls].
  destruct o as [res|code]; [destruct (Hret res eq_refl)|].
  destruct (announced_run h None _
              (NewStorage_announced DefaultTillerNamespace GroupName TrimSpace client opts)
              w tr code w' Hrun) as (ev & Hlast & Hwords).
  simpl in Hlast. unfold lastCall in Hlast.
  apply last_Some_elem_of in Hlast.
  rewrite Forall_forall in Hcalls. specialize (Hcalls ev Hlast).
  destruct ev as [X e]. destruct e; simpl in Hwords, Hcalls; try contradiction.
  now subst.
Qed.

(** The object-store kind with the provider "ftp", on a fresh cluster: the
    release resource is created, then the provider is rejected. *)
Lemma unknown_provider_is_fatal_witness :
  outcome sample.fresh
          (storage.NewStorage sample.DefaultTillerNamespace sample.GroupName sample.TrimSpace
             sample.client (sample.options "object-store-tpr" "ftp")) 0%nat
    = Exited 1 /\
  Forall (fun ev : Event storage.storageE => beforeDial (projT1 ev) (projT2 ev))
         (trace sample.fresh
            (storage.NewStorage sample.DefaultTillerNamespace sample.GroupName sample.TrimSpace
               sample.client (sample.options "object-store-tpr" "ftp")) 0%nat).
Proof.
  apply (unknown_provider_is_fatal sample.fresh
           sample.DefaultTillerNamespace sample.GroupName sample.TrimSpace
           sample.client (sample.options "object-store-tpr" "ftp") 0%nat eq_refl).
  unfold knownProvider. simpl. intros [H|[H|[H|H]]]; discriminate H.
Defined.

(** ** The fake release client *)

Lemma filter_idempotent {A : Type} (f : A -> bool) (l : list A) :
  List.filter f (List.filter f l) = List.filter f l.
Proof.
  induction l as [|a l IH]; simpl; [reflexivity|].
  destruct (f a) eqn:Hf; simpl; [rewrite Hf, IH; reflexivity | exact IH].
Qed.

Lemma filter_shorter {A : Type} (f : A -> bool) (l : list A) :
  (length (List.filter f l) <= length l)%nat.
Proof.
  induction l as [|a l IH]; simpl; [lia|]. destruct (f a); simpl; lia.
Qed.

Lemma List_on_list (mock : fake.FakeRelease) (opts : api.ListOptions)
      {W : Type} (h : World fake.fakeE W) (w : W) (l : aci.ReleaseList) (err : option error) :
  fst (h _ (fake.Invokes (fake.NewListAction fake.resource (fake.ns mock) opts)) w)
    = (Some (fake.ObjReleaseList l), err) ->
  outcome h (fake.List mock opts) w
    = Returned (Some (aci.mkReleaseList ""
                        (List.filter (fun item => labels.Matches (selectorOf opts)
                                                                 (aci.Labels item))
                                     (aci.Items l))), err).
Proof.
  unfold outcome, fake.List, selectorOf, fake.ExtractFromListOptions. simpl.
  destruct (h _ (fake.Invokes (fake.NewListAction fake.resource (fake.ns mock) opts)) w)
    as [answer w1]. simpl. intros ->. simpl.
  now rewrite retain_filter.
Qed.

(** X16. List makes one call, the list action for the mock's namespace.
    A nil answer comes back as a nil list with the tracker's error; a
    release in place of a list ends the process with status 2; a release
    list comes back filtered, beside the tracker's error even when that is
    not nil, without the list metadata of the answer (its resource version
    is empty) and never longer than the answer; and a tracker that serves
    what List returned gets the very same list back. *)
Theorem fake_list_answer_shapes
        (mock : fake.FakeRelease) (opts : api.ListOptions)
        {W : Type} (h : World fake.fakeE W) (w : W) :
  let action := fake.NewListAction fake.resource (fake.ns mock) opts in
  let answer := fst (h _ (fake.Invokes action) w) in
  trace h (fake.List mock opts) w = [event (fake.Invokes action)] /\
  (forall err, answer = (None, err) ->
     outcome h (fake.List mock opts) w = Returned (None, err)) /\
  (forall r err, answer = (Some (fake.ObjRelease r), err) ->
     outcome h (fake.List mock opts) w = Exited 2) /\
  (forall l err, answer = (Some (fake.ObjReleaseList l), err) ->
     exists lst,
       outcome h (fake.List mock opts) w = Returned (Some lst, err) /\
       aci.ListResourceVersion lst = "" /\
       (length (aci.Items lst) <= length (aci.Items l))%nat /\
       forall (W2 : Type) (h2 : World fake.fakeE W2) (w2 : W2),
         fst (h2 _ (fake.Invokes action) w2) = (Some (fake.ObjReleaseList lst), err) ->
         outcome h2 (fake.List mock opts) w2 = Returned (Some lst, err)).
Proof.
  intros action answer. subst action answer.
  split; [|split; [|split]].
  - unfold trace, fake.List. simpl.
    destruct (h _ (fake.Invokes (fake.NewListAction fake.resource (fake.ns mock) opts)) w)
      as [[obj err] w1]. simpl.
    destruct obj as [[r|l]|]; reflexivity.
  - intros err. unfold outcome, fake.List. simpl.
    destruct (h _ (fake.Invokes (fake.NewListAction fake.resource (fake.ns mock) opts)) w)
      as [answer w1]. simpl. now intros ->.
  - intros r err. unfold outcome, fake.List. simpl.
    destruct (h _ (fake.Invokes (fake.NewListAction fake.resource (fake.ns mock) opts)) w)
      as [answer w1]. simpl. now intros ->.
  - intros l err Hanswer. eexists. split; [exact (List_on_list mock opts h w l err Hanswer)|].
    split; [reflexivity|]. split; [apply filter_shorter|].
    intros W2 h2 w2 Hagain.
    rewrite (List_on_list mock opts h2 w2 _ err Hagain). simpl.
    now rewrite filter_idempotent.
Qed.

(** A tracker that knows no releases and reports a conflict, one that
    answers with a single release, and one that answers with three releases
    and a conflict: the two web releases come back beside the conflict. *)
Lemma fake_list_answer_shapes_witness :
  outcome (scenario.replying (None, Some scenario.conflict))
          (fake.List (fake.mkFakeRelease "kube-system") sample.tierWeb) 0%nat
    = Returned (None, Some scenario.conflict) /\
  outcome (scenario.replying (Some (fake.ObjRelease sample.web), None))
          (fake.List (fake.mkFakeRelease "kube-system") sample.tierWeb) 0%nat
    = Exited 2 /\
  exists lst,
    outcome (scenario.replying (Some (fake.ObjReleaseList sample.backend),
                                Some scenario.conflict))
            (fake.List (fake.mkFakeRelease "kube-system") sample.tierWeb) 0%nat
      = Returned (Some lst, Some scenario.conflict) /\
    aci.ListResourceVersion lst = "".
Proof.
  split; [|split].
  - pose proof (fake_list_answer_shapes (fake.mkFakeRelease "kube-system") sample.tierWeb
                  (scenario.replying (None, Some scenario.conflict)) 0%nat) as H.
    cbv zeta in H. destruct H as (_ & Hnil & _). exact (Hnil _ eq_refl).
  - pose proof (fake_list_answer_shapes (fake.mkFakeRelease "kube-system") sample.tierWeb
                  (scenario.replying (Some (fake.ObjRelease sample.web), None)) 0%nat) as H.
    cbv zeta in H. destruct H as (_ & _ & Hrel & _). exact (Hrel sample.web None eq_refl).
  - pose proof (fake_list_answer_shapes (fake.mkFakeRelease "kube-system") sample.tierWeb
                  (scenario.replying (Some (fake.ObjReleaseList sample.backend),
                                      Some scenario.conflict)) 0%nat) as H.
    cbv zeta in H. destruct H as (_ & _ & _ & Hlist).
    destruct (Hlist sample.backend (Some scenario.conflict) eq_refl)
      as (lst & Hout & Hrv & _).
    exists lst. split; [exact Hout | exact Hrv].
Defined.

Lemma forceNamespace_same (mock : fake.FakeRelease) (r r2 : option aci.Release) :
  sameButNamespacePtr r r2 ->
  fake_rw.forceNamespace mock r2 = fake_rw.forceNamespace mock r.
Proof.
  destruct r as [[n1 s1 l1 v1 b1]|], r2 as [[n2 s2 l2 v2 b2]|]; simpl; try tauto.
  unfold sameButNamespace, fake_rw.set_Namespace. simpl.
  intros (-> & -> & -> & ->). reflexivity.
Qed.

(** X17. Create, Update and UpdateStatus overwrite the namespace of the
    release they are given with the mock's, in the caller's object as well
    as in the action: they make one call, whose action names the mock's
    namespace and carries the release with that namespace and every other
    field as given (nil for a nil pointer); when they return, the caller's
    release is the one submitted and the results are the tracker's answer;
    they end the process, with status 2, only when the tracker answers with
    a release list; and two releases that differ only in namespace are
    treated alike. *)
Theorem fake_writers_pin_namespace
        (op : Writer) (mock : fake.FakeRelease) (r : option aci.Release)
        {W : Type} (h : World fake_rw.rwE W) (w : W) :
  let sent := fake_rw.forceNamespace mock r in
  let answer := fst (h _ (fake_rw.Invokes (writeAction op (fake.ns mock) sent)) w) in
  trace h (write op mock r) w
    = [event (fake_rw.Invokes (writeAction op (fake.ns mock) sent))] /\
  sameButNamespacePtr r sent /\
  (forall kept, sent = Some kept -> aci.Namespace kept = fake.ns mock) /\
  (forall obj err caller,
     outcome h (write op mock r) w = Returned (obj, err, caller) ->
     caller = sent /\ answer = (option_map fake.ObjRelease obj, err)) /\
  (forall code,
     outcome h (write op mock r) w = Exited code ->
     code = 2 /\ exists l err, answer = (Some (fake.ObjReleaseList l), err)) /\
  (forall r2, sameButNamespacePtr r r2 -> write op mock r2 = write op mock r).
Proof.
  intros sent answer. subst sent answer.
  split; [|split; [|split; [|split; [|split]]]].
  - unfold trace. destruct op; simpl;
      match goal with
      | |- context [h ?X ?e w] => destruct (h X e w) as [[[[rel|l]|] err] w1]
      end; reflexivity.
  - destruct r as [rel|]; simpl; [|exact I]. repeat split.
  - intros kept. destruct r as [rel|]; simpl; [|discriminate].
    intros [= <-]. reflexivity.
  - intros obj err caller. unfold outcome. destruct op; simpl;
      match goal with
      | |- context [h ?X ?e w] => destruct (h X e w) as [[[[rel|l]|] err0] w1]
      end; simpl; intros [=]; subst; split; reflexivity.
  - intros code. unfold outcome. destruct op; simpl;
      match goal with
      | |- context [h ?X ?e w] => destruct (h X e w) as [[[[rel|l]|] err0] w1]
      end; simpl; intros [=]; subst; split; try reflexivity; now exists l, err0.
  - intros r2 Hsame.
    destruct op; simpl; unfold fake_rw.Create, fake_rw.Update, fake_rw.UpdateStatus;
      now rewrite (forceNamespace_same mock r r2 Hsame).
Qed.

(** A release drafted for the namespace "default", created through a mock
    for "kube-system": it is submitted, and left with the caller, in
    "kube-system". *)
Lemma fake_writers_pin_namespace_witness :
  exists kept,
    outcome (scenario.accepting (Some (fake.ObjRelease sample.web), None))
            (write WCreate (fake.mkFakeRelease "kube-system") (Some scenario.draft)) 0%nat
      = Returned (Some sample.web, None, Some kept) /\
    aci.Namespace kept = "kube-system" /\
    aci.Namespace scenario.draft = "default".
Proof.
  pose proof (fake_writers_pin_namespace WCreate (fake.mkFakeRelease "kube-system")
                (Some scenario.draft)
                (scenario.accepting (Some (fake.ObjRelease sample.web), None)) 0%nat) as H.
  cbv zeta in H. destruct H as (_ & _ & Hns & _).
  exists (fake_rw.set_Namespace "kube-system" scenario.draft).
  split; [reflexivity|]. split; [|reflexivity].
  exact (Hns _ eq_refl).
Defined.

(** X18. Get and Delete make one call each, for the mock's namespace and
    the name given. Delete returns the tracker's error whatever object the
    tracker answers with, and never ends the process; Get returns the
    tracker's release and error, and ends the process, with status 2, only
    when the tracker answers with a release list. Watch hands the tracker's
    answer through. *)
Theorem fake_get_delete_answers
        (mock : fake.FakeRelease) (name : string) (opts : api.ListOptions)
        {W : Type} (h : World fake_rw.rwE W) (w : W) :
  let get := fake_rw.Invokes (fake_rw.NewGetAction fake.resource (fake.ns mock) name) in
  let delete := fake_rw.Invokes (fake_rw.NewDeleteAction fake.resource (fake.ns mock) name) in
  let watch := fake_rw.InvokesWatch (fake_rw.NewWatchAction fake.resource (fake.ns mock) opts) in
  run h (fake_rw.Delete mock name) w
    = ([event delete], Returned (snd (fst (h _ delete w))), snd (h _ delete w)) /\
  run h (fake_rw.Watch mock opts) w
    = ([event watch], Returned (fst (h _ watch w)), snd (h _ watch w)) /\
  trace h (fake_rw.Get mock name) w = [event get] /\
  (forall obj err,
     outcome h (fake_rw.Get mock name) w = Returned (obj, err) ->
     fst (h _ get w) = (option_map fake.ObjRelease obj, err)) /\
  (forall code,
     outcome h (fake_rw.Get mock name) w = Exited code ->
     code = 2 /\ exists l err, fst (h _ get w) = (Some (fake.ObjReleaseList l), err)).
Proof.
  intros get delete watch. subst get delete watch.
  split; [|split; [|split; [|split]]].
  - unfold fake_rw.Delete. simpl.
    destruct (h _ (fake_rw.Invokes
                     (fake_rw.NewDeleteAction fake.resource (fake.ns mock) name)) w)
      as [answer w1]. reflexivity.
  - unfold fake_rw.Watch. simpl.
    destruct (h _ (fake_rw.InvokesWatch
                     (fake_rw.NewWatchAction fake.resource (fake.ns mock) opts)) w)
      as [answer w1]. reflexivity.
  - unfold trace, fake_rw.Get. simpl.
    destruct (h _ (fake_rw.Invokes
                     (fake_rw.NewGetAction fake.resource (fake.ns mock) name)) w)
      as [[[[rel|l]|] err] w1]; reflexivity.
  - intros obj err. unfold outcome, fake_rw.Get. simpl.
    destruct (h _ (fake_rw.Invokes
                     (fake_rw.NewGetAction fake.resource (fake.ns mock) name)) w)
      as [[[[rel|l]|] err0] w1]; simpl; intros [=]; subst; reflexivity.
  - intros code. unfold outcome, fake_rw.Get. simpl.
    destruct (h _ (fake_rw.Invokes
                     (fake_rw.NewGetAction fake.resource (fake.ns mock) name)) w)
      as [[[[rel|l]|] err0] w1]; simpl; intros [=]; subst.
    split; [reflexivity|]. now exists l, err0.
Qed.

(** A tracker that answers with a release list: Get ends the process,
    Delete returns. *)
Lemma fake_get_delete_answers_witness :
  outcome (scenario.accepting (Some (fake.ObjReleaseList sample.backend), None))
          (fake_rw.Get (fake.mkFakeRelease "kube-system") "shop") 0%nat
    = Exited 2 /\
  outcome (scenario.accepting (Some (fake.ObjReleaseList sample.backend), None))
          (fake_rw.Delete (fake.mkFakeRelease "kube-system") "shop") 0%nat
    = Returned None /\
  (2 = 2 /\
   exists l err,
     fst (scenario.accepting (Some (fake.ObjReleaseList sample.backend), None) _
            (fake_rw.Invokes (fake_rw.NewGetAction fake.resource "kube-system" "shop")) 0%nat)
       = (Some (fake.ObjReleaseList l), err)).
Proof.
  pose proof (fake_get_delete_answers (fake.mkFakeRelease "kube-system") "shop"
                sample.unselective
                (scenario.accepting (Some (fake.ObjReleaseList sample.backend), None))
                0%nat) as H.
  cbv zeta in H. destruct H as (_ & _ & _ & _ & Hexit).
  split; [reflexivity|]. split; [reflexivity|].
  exact (Hexit 2 eq_refl).
Defined.

(** ** The release client over REST *)

(** X19. What each method of the release client sends, as the whole
    program of the method: List, Get and Watch send one GET request, Create
    one POST, Update and UpdateStatus one PUT, Delete one DELETE, each for
    the releases of the client's own namespace; Get and Delete name the
    release asked for, Update and UpdateStatus the release they are given
    (UpdateStatus its status subresource), and Watch goes through the
    prefix watch. Create, Update and UpdateStatus send the release as
    given: unlike the fake client they leave its own namespace field
    alone. Each method returns what the request is answered with. Update
    and UpdateStatus of a nil release end the process without sending
    anything; Create sends the nil body. *)
Theorem rest_requests_address_the_namespace
        (c : clientset.ReleaseImpl) (name : string) (opts : api.ListOptions)
        (release : option aci.Release) (rel : aci.Release) :
  clientset.List c opts
  = call (clientset.Do_IntoList
            (clientset.mkRequest clientset.GET [] (Some (clientset.ns c)) "releases"
                                 None None (Some opts) None)
            aci.emptyList) /\
  clientset.Get c name
  = call (clientset.Do_Into
            (clientset.mkRequest clientset.GET [] (Some (clientset.ns c)) "releases"
                                 (Some name) None None None)
            clientset.emptyRelease) /\
  clientset.Create c release
  = call (clientset.Do_Into
            (clientset.mkRequest clientset.POST [] (Some (clientset.ns c)) "releases"
                                 None None None (Some release))
            clientset.emptyRelease) /\
  clientset.Update c (Some rel)
  = call (clientset.Do_Into
            (clientset.mkRequest clientset.PUT [] (Some (clientset.ns c)) "releases"
                                 (Some (aci.Name rel)) None None (Some (Some rel)))
            clientset.emptyRelease) /\
  clientset.Update c None = Halt 2 /\
  clientset.Delete c name
  = call (clientset.Do_Error
            (clientset.mkRequest clientset.DELETE [] (Some (clientset.ns c)) "releases"
                                 (Some name) None None None)) /\
  clientset.Watch c opts
  = call (clientset.Do_Watch
            (clientset.mkRequest clientset.GET ["watch"] (Some (clientset.ns c)) "releases"
                                 None None (Some opts) None)) /\
  clientset.UpdateStatus c (Some rel)
  = call (clientset.Do_Into
            (clientset.mkRequest clientset.PUT [] (Some (clientset.ns c)) "releases"
                                 (Some (aci.Name rel)) (Some "status") None
                                 (Some (Some rel)))
            clientset.emptyRelease) /\
  clientset.UpdateStatus c None = Halt 2 /\
  forall (W : Type) (h : World clientset.restE W) (w : W),
    run h (clientset.Create c release) w
    = ([event (clientset.Do_Into
                 (clientset.mkRequest clientset.POST [] (Some (clientset.ns c)) "releases"
                                      None None None (Some release))
                 clientset.emptyRelease)],
       Returned (fst (h _ (clientset.Do_Into
                             (clientset.mkRequest clientset.POST [] (Some (clientset.ns c))
                                                  "releases" None None None (Some release))
                             clientset.emptyRelease) w)),
       snd (h _ (clientset.Do_Into
                   (clientset.mkRequest clientset.POST [] (Some (clientset.ns c))
                                        "releases" None None None (Some release))
                   clientset.emptyRelease) w)) /\
    run h (clientset.Update c None) w = ([], Exited 2, w) /\
    run h (clientset.UpdateStatus c None) w = ([], Exited 2, w).
Proof.
  repeat (split; [reflexivity|]).
  intros W h w. split; [|split; reflexivity].
  change (clientset.Create c release)
    with (call (clientset.Do_Into
                  (clientset.mkRequest clientset.POST [] (Some (clientset.ns c)) "releases"
                                       None None None (Some release))
                  clientset.emptyRelease)).
  unfold call. cbn [run].
  match goal with |- context [h ?X ?e w] => destruct (h X e w) as [x w1] end.
  reflexivity.
Qed.

(** ** The storage factory, from the client configuration to the driver *)

Section Preamble.

Variables (DefaultTillerNamespace GroupName : string) (TrimSpace : string -> string).
Variables (client : kube.Client) (opts : storage.StoreOptions).
Variables (W : Type) (h : World storage.storageE W).




End Preamble.



